(** * Spot TWAP mirroring: a shallow embedding of
    [learning_examples/06_copy_trading/mirror_spot_twap_orders.py]

    The embedding follows the Python source function by function.  Decoded
    frames and venue answers are JSON values, the mapping table
    [twap_mappings] is a finite map from strings, floats are binary64, and
    every exception the source can meet is an explicit [Raise] outcome of a
    small state-and-exception monad in which the state survives a raise
    (as the Python globals do). *)

From Stdlib Require Import ZArith List Bool Lia Ascii.
From Stdlib Require Import PrimFloat SpecFloat FloatOps.
From stdpp Require Import base option gmap strings pretty.
Import ListNotations.

Local Open Scope string_scope.
Local Open Scope list_scope.
Local Open Scope Z_scope.

(** ** Python values *)

#[local] Set Warnings "-register-all".

(** What [json.loads] produces.  A JSON object is kept as its list of items;
    the decoder yields each key once, and lookups take the first item. *)
Inductive json : Type :=
| JNull
| JBool (b : bool)
| JInt (z : Z)
| JFloat (f : float)
| JStr (s : string)
| JList (l : list json)
| JDict (kvs : list (string * json)).

(** The value of [round(...)]: a float with two arguments, an int when the
    second argument is [None]. *)
Inductive pynum : Type :=
| PInt (z : Z)
| PFloat (f : float).

Inductive exn : Type :=
| AttributeError
| TypeError
| ValueError
| KeyError
| IndexError
| ZeroDivisionError
| OverflowError
| JSONDecodeError
| ExternalError.

Inductive result (A : Type) : Type :=
| Ok (a : A)
| Raise (e : exn).
Arguments Ok {A} a.
Arguments Raise {A} e.

Definition rbind {A B} (r : result A) (k : A -> result B) : result B :=
  match r with
  | Ok a => k a
  | Raise e => Raise e
  end.

Declare Scope py_scope.
Delimit Scope py_scope with py.
Notation "'let?' x ':=' r 'in' k" := (rbind r (fun x => k))
  (at level 10, x pattern, r at level 100, k at level 200) : py_scope.
Local Open Scope py_scope.

(** ** String primitives ([str] as a sequence of bytes) *)

Definition str_tail (s : string) : string :=
  match s with
  | EmptyString => EmptyString
  | String _ t => t
  end.

Fixpoint startswith (p s : string) : bool :=
  match p, s with
  | EmptyString, _ => true
  | String a p', String b s' => if Ascii.eqb a b then startswith p' s' else false
  | String _ _, EmptyString => false
  end.

(** [needle in hay] for two strings. *)
Fixpoint str_contains (needle hay : string) : bool :=
  startswith needle hay ||
  match hay with
  | EmptyString => false
  | String _ t => str_contains needle t
  end.

Fixpoint str_chars (s : string) : list string :=
  match s with
  | EmptyString => []
  | String c t => String c EmptyString :: str_chars t
  end.

(** ** Floats *)

(** The finite float [f] as [m * 2^e], exactly. *)
Definition float_exact (f : float) : option (Z * Z) :=
  match Prim2SF f with
  | S754_zero _ => Some (0, 0)
  | S754_finite s m e => Some (if s then Z.neg m else Z.pos m, e)
  | _ => None
  end.

Definition float_sign (f : float) : bool :=
  match Prim2SF f with
  | S754_zero s => s
  | S754_finite s _ _ => s
  | S754_infinity s => s
  | S754_nan => false
  end.

(** The binary64 nearest to [n / d] (ties to even), [d > 0]; [sz] is the sign
    given to a zero. *)
Definition nearest_float (sz : bool) (n : Z) (d : positive) : spec_float :=
  match n with
  | Z0 => S754_zero sz
  | Z.pos p => SFdiv prec emax (S754_finite false p 0) (S754_finite false d 0)
  | Z.neg p => SFdiv prec emax (S754_finite true p 0) (S754_finite false d 0)
  end.

(** Round [n / d] to the nearest integer, ties to even ([d > 0]). *)
Definition round_half_even (n d : Z) : Z :=
  let q := n / d in
  let r := n mod d in
  match 2 * r ?= d with
  | Lt => q
  | Gt => q + 1
  | Eq => if Z.even q then q else q + 1
  end.

(** [float(n)] for an int. *)
Definition float_of_Z (n : Z) : result float :=
  match nearest_float false n 1 with
  | S754_infinity _ => Raise OverflowError
  | sf => Ok (SF2Prim sf)
  end.

(** The decimal integer [round_half_even (x * 10^nd)] for a finite [x]. *)
Definition scaled_round (m e nd : Z) : Z :=
  round_half_even (m * 2 ^ Z.max e 0 * 10 ^ Z.max nd 0)
                  (2 ^ Z.max (- e) 0 * 10 ^ Z.max (- nd) 0).

(** [round(x, nd)] on a float with an int [nd]: the float nearest to the
    decimal that is [x] correctly rounded to [nd] places, half to even.
    Non-finite values round to themselves; beyond 323 places [x] is
    returned as it is, below -308 places the result is a signed zero. *)
Definition round_float (x : float) (nd : Z) : result float :=
  match float_exact x with
  | None => Ok x
  | Some (m, e) =>
      if 323 <? nd then Ok x
      else if nd <? -308 then Ok (PrimFloat.mul 0 x)
      else
        let n := scaled_round m e nd in
        match nearest_float (float_sign x) (n * 10 ^ Z.max (- nd) 0)
                (Z.to_pos (10 ^ Z.max nd 0)) with
        | S754_infinity _ => Raise OverflowError
        | sf => Ok (SF2Prim sf)
        end
  end.

(** [round(x)] / [round(x, None)]: an int. *)
Definition round_to_int (x : float) : result Z :=
  match Prim2SF x with
  | S754_nan => Raise ValueError
  | S754_infinity _ => Raise OverflowError
  | S754_zero _ => Ok 0
  | S754_finite s m e =>
      Ok (scaled_round (if s then Z.neg m else Z.pos m) e 0)
  end.

(** [x == i] and [x < i] between a float and an int compare exact values. *)
Definition float_eq_Z (f : float) (i : Z) : bool :=
  match Prim2SF f with
  | S754_zero _ => i =? 0
  | S754_finite s m e =>
      let v := if s then Z.neg m else Z.pos m in
      if 0 <=? e then v * 2 ^ e =? i else v =? i * 2 ^ (- e)
  | _ => false
  end.

Definition float_lt_Z (f : float) (i : Z) : bool :=
  match Prim2SF f with
  | S754_zero _ => 0 <? i
  | S754_finite s m e =>
      let v := if s then Z.neg m else Z.pos m in
      if 0 <=? e then v * 2 ^ e <? i else v <? i * 2 ^ (- e)
  | S754_infinity s => s
  | S754_nan => false
  end.

(** ** Operations on JSON values, with Python's exceptions *)

Fixpoint assoc (k : string) (kvs : list (string * json)) : option json :=
  match kvs with
  | [] => None
  | (k', v) :: rest => if String.eqb k k' then Some v else assoc k rest
  end.

(** [d.get(k, default)]; only a [dict] has [.get]. *)
Definition py_get (d : json) (k : string) (dflt : json) : result json :=
  match d with
  | JDict kvs => Ok (default dflt (assoc k kvs))
  | _ => Raise AttributeError
  end.

(** Truth value of a value in a condition ([if v:], [not v]). *)
Definition py_truthy (v : json) : bool :=
  match v with
  | JNull => false
  | JBool b => b
  | JInt z => negb (z =? 0)
  | JFloat f => negb (PrimFloat.eqb f 0)
  | JStr s => negb (String.eqb s "")
  | JList l => match l with [] => false | _ :: _ => true end
  | JDict kvs => match kvs with [] => false | _ :: _ => true end
  end.

(** [v == "s"] *)
Definition py_eq_str (v : json) (s : string) : bool :=
  match v with
  | JStr s' => String.eqb s' s
  | _ => false
  end.

(** [v == i] for an int [i] ([bool] is an int, a float compares by value). *)
Definition py_eq_int (v : json) (i : Z) : bool :=
  match v with
  | JInt z => z =? i
  | JBool b => Z.b2z b =? i
  | JFloat f => float_eq_Z f i
  | _ => false
  end.

(** [v < i] for an int [i]. *)
Definition py_lt_int (v : json) (i : Z) : result bool :=
  match v with
  | JInt z => Ok (z <? i)
  | JBool b => Ok (Z.b2z b <? i)
  | JFloat f => Ok (float_lt_Z f i)
  | _ => Raise TypeError
  end.

(** [len(v)] *)
Definition py_len (v : json) : result Z :=
  match v with
  | JList l => Ok (Z.of_nat (length l))
  | JStr s => Ok (Z.of_nat (String.length s))
  | JDict kvs => Ok (Z.of_nat (length kvs))
  | _ => Raise TypeError
  end.

(** [l[i]] on a sequence of length [length l]: a negative index counts from
    the end, an index out of range raises. *)
Definition seq_index {A} (l : list A) (i : Z) : result A :=
  let n := Z.of_nat (length l) in
  let j := if i <? 0 then i + n else i in
  if (j <? 0) || (n <=? j) then Raise IndexError
  else match l !! Z.to_nat j with
       | Some x => Ok x
       | None => Raise IndexError
       end.

(** [v[i]] for an int [i]. *)
Definition py_index (v : json) (i : Z) : result json :=
  match v with
  | JList l => seq_index l i
  | JStr s => let? c := seq_index (str_chars s) i in Ok (JStr c)
  | JDict _ => Raise KeyError
  | _ => Raise TypeError
  end.

(** [v["k"]] *)
Definition py_getkey (v : json) (k : string) : result json :=
  match v with
  | JDict kvs =>
      match assoc k kvs with
      | Some x => Ok x
      | None => Raise KeyError
      end
  | _ => Raise TypeError
  end.

(** [v[idx]] for a value [idx]. *)
Definition py_getitem (v idx : json) : result json :=
  match idx with
  | JInt i => py_index v i
  | JBool b => py_index v (Z.b2z b)
  | JStr k => py_getkey v k
  | JNull | JFloat _ =>
      match v with
      | JDict _ => Raise KeyError
      | _ => Raise TypeError
      end
  | JList _ | JDict _ => Raise TypeError
  end.

(** ["k" in v] *)
Definition py_contains_str (k : string) (v : json) : result bool :=
  match v with
  | JStr s => Ok (str_contains k s)
  | JList l => Ok (existsb (fun x => py_eq_str x k) l)
  | JDict kvs => Ok (bool_decide (is_Some (assoc k kvs)))
  | _ => Raise TypeError
  end.

(** The items a [for] loop draws from [v]. *)
Definition py_iter (v : json) : result (list json) :=
  match v with
  | JList l => Ok l
  | JStr s => Ok (map JStr (str_chars s))
  | JDict kvs => Ok (map (fun kv => JStr (fst kv)) kvs)
  | _ => Raise TypeError
  end.

(** The receiver of a [str] method such as [.startswith] or [.upper]. *)
Definition as_str (v : json) : result string :=
  match v with
  | JStr s => Ok s
  | _ => Raise AttributeError
  end.

(** [n + v] for an int [n]. *)
Definition py_add_int (n : Z) (v : json) : result json :=
  match v with
  | JInt z => Ok (JInt (n + z))
  | JBool b => Ok (JInt (n + Z.b2z b))
  | JFloat f =>
      let? nf := float_of_Z n in Ok (JFloat (PrimFloat.add nf f))
  | _ => Raise TypeError
  end.

(** [x / y] on floats. *)
Definition py_div (x y : float) : result float :=
  if PrimFloat.eqb y 0 then Raise ZeroDivisionError
  else Ok (PrimFloat.div x y).

(** [round(x, nd)] where [nd] is whatever the metadata holds. *)
Definition py_round (x : float) (nd : json) : result pynum :=
  match nd with
  | JNull => let? n := round_to_int x in Ok (PInt n)
  | JInt n => let? r := round_float x n in Ok (PFloat r)
  | JBool b => let? r := round_float x (Z.b2z b) in Ok (PFloat r)
  | _ => Raise TypeError
  end.

(** [n <= 0] *)
Definition pynum_le0 (n : pynum) : bool :=
  match n with
  | PInt z => z <=? 0
  | PFloat f => PrimFloat.leb f 0
  end.

(** ** Actions, log lines and the outside world *)

(** The two actions the script signs and posts: the [twapOrder] with its
    fields [a b s r m t], and the [twapCancel] with [a t]. *)
Inductive action : Type :=
| TwapOrder (a : json) (b : bool) (s : string) (r m t : json)
| TwapCancel (a : json) (t : json).

(** One constructor per [print] of the embedded functions. *)
Inductive log_msg : Type :=
| LogNoSpotPrice
| LogIndexOutOfRange
| LogPairNotFound
| LogUnsupportedSpotFormat
| LogSpotInfoError
| LogNoAssetInfo
| LogInvalidSize
| LogPlacing (is_buy : bool) (size : pynum) (minutes : json)
| LogNoAssetIndex
| LogUnsupportedTwapFormat
| LogPlaced (id : json)
| LogUnexpectedStatus
| LogPlaceFailed
| LogTwapLookupError
| LogPlaceError
| LogCancelling (id : json)
| LogCancelNoAssetIndex
| LogCancelUnsupportedFormat
| LogCancelled
| LogCancelFailed
| LogCancelLookupError
| LogCancelError
| LogLeaderTwap (status key : string)
| LogSkipKnown (key : string)
| LogMapped (key : string) (id : json)
| LogMirrorError (key : string)
| LogSubscriptionConfirmed
| LogRawMessage (data : json)
| LogInvalidJson
| LogProcessingError.

(** What the script imports and calls but does not define: Python builtins
    on text, the SDK's wire encoding and signing, [json.loads], and the
    venue behind [Info] and [Exchange].  [World] is whatever the venue's
    answers depend on; each call may change it. *)
Record externals (World : Type) : Type := {
  (** [int(s)] on a [str]; [None] is [ValueError]. *)
  py_int : string -> option Z;
  (** [float(s)] on a [str]; [None] is [ValueError]. *)
  py_float_of_str : string -> option float;
  (** [str(v)] inside an f-string, for floats, lists and dicts. *)
  py_repr : json -> string;
  (** [hyperliquid.utils.signing.float_to_wire] *)
  float_to_wire : pynum -> result string;
  (** [json.loads] *)
  json_loads : string -> result json;
  (** [info.spot_meta_and_asset_ctxs()] *)
  spot_meta_and_asset_ctxs : World -> result json * World;
  (** [info.spot_meta()] *)
  spot_meta : World -> result json * World;
  (** [get_timestamp_ms()] and [sign_l1_action(...)] *)
  sign_l1_action : action -> World -> result unit;
  (** [exchange._post_action(...)]: the request reaches the venue. *)
  post_action : action -> World -> result json * World;
}.
Arguments py_int {World}.
Arguments py_float_of_str {World}.
Arguments py_repr {World}.
Arguments float_to_wire {World}.
Arguments json_loads {World}.
Arguments spot_meta_and_asset_ctxs {World}.
Arguments spot_meta {World}.
Arguments sign_l1_action {World}.
Arguments post_action {World}.

(** The globals of the script together with what it did to the outside:
    [twap_mappings] (leader key to follower TWAP id), the actions posted so
    far in order, the lines printed so far in order, and the world. *)
Record state (World : Type) : Type := mkState {
  twap_mappings : gmap string json;
  calls : list action;
  logs : list log_msg;
  world : World;
}.
Arguments mkState {World}.
Arguments twap_mappings {World}.
Arguments calls {World}.
Arguments logs {World}.
Arguments world {World}.

Inductive market_type : Type := SPOT | PERP.

Record asset_info : Type := mkAssetInfo {
  price : float;
  szDecimals : json;
  coin : json;
}.

Definition FIXED_ORDER_VALUE_USDC : float := 20%float.

Section Mirror.

Context {World : Type}.
Variable E : externals World.

Abbreviation state := (state World).

(** ** The monad: state that survives exceptions *)

Definition M (A : Type) : Type := state -> result A * state.

Definition ret {A} (a : A) : M A := fun st => (Ok a, st).

Definition bind {A B} (m : M A) (k : A -> M B) : M B :=
  fun st =>
    match m st with
    | (Ok a, st') => k a st'
    | (Raise e, st') => (Raise e, st')
    end.

Definition lift {A} (r : result A) : M A := fun st => (r, st).

(** [try: m  except Exception as e: h e] *)
Definition try_except {A} (m : M A) (h : exn -> M A) : M A :=
  fun st =>
    match m st with
    | (Ok a, st') => (Ok a, st')
    | (Raise e, st') => h e st'
    end.

Definition print (l : log_msg) : M unit :=
  fun st => (Ok tt, mkState (twap_mappings st) (calls st) (logs st ++ [l]) (world st)).

(** A query to [Info]: only the world moves. *)
Definition ask (q : World -> result json * World) : M json :=
  fun st =>
    let (r, w) := q (world st) in
    (r, mkState (twap_mappings st) (calls st) (logs st) w).

(** Sign an action and post it.  The action counts as a call once it is
    posted, whatever the venue answers. *)
Definition sign_and_post (a : action) : M json :=
  fun st =>
    match sign_l1_action E a (world st) with
    | Raise e => (Raise e, st)
    | Ok _ =>
        let (r, w) := post_action E a (world st) in
        (r, mkState (twap_mappings st) (calls st ++ [a]) (logs st) w)
    end.

Definition get_mappings : M (gmap string json) :=
  fun st => (Ok (twap_mappings st), st).

Definition set_mappings (m : gmap string json) : M unit :=
  fun st => (Ok tt, mkState m (calls st) (logs st) (world st)).

Notation "'do' x <- m 'in' k" := (bind m (fun x => k))
  (at level 10, x name, m at level 100, k at level 200) : py_scope.
Notation "'run' m 'in' k" := (bind m (fun _ => k))
  (at level 10, m at level 100, k at level 200) : py_scope.

(** [str(v)] as an f-string renders it. *)
Definition py_str (v : json) : string :=
  match v with
  | JStr s => s
  | JNull => "None"
  | JBool true => "True"
  | JBool false => "False"
  | JInt z => pretty z
  | _ => py_repr E v
  end.

(** [float(v)] *)
Definition py_float (v : json) : result float :=
  match v with
  | JStr s =>
      match py_float_of_str E s with
      | Some f => Ok f
      | None => Raise ValueError
      end
  | JInt z => float_of_Z z
  | JBool b => Ok (if b then 1%float else 0%float)
  | JFloat f => Ok f
  | _ => Raise TypeError
  end.

(** ** Market type *)

Definition detect_market_type (coin_field : json) : result market_type :=
  let? c := as_str coin_field in
  if startswith "@" c then Ok SPOT
  else if str_contains "/" c then Ok SPOT
  else Ok PERP.

Definition is_spot_order (coin_field : json) : result bool :=
  if negb (py_truthy coin_field) || py_eq_str coin_field "N/A" then Ok false
  else
    let? mt := detect_market_type coin_field in
    match mt with
    | PERP => Ok false
    | SPOT =>
        let? c := as_str coin_field in
        if startswith "@" c then
          match py_int E (str_tail c) with
          | Some asset_index => if asset_index <? 0 then Ok false else Ok true
          | None => Ok false
          end
        else Ok true
    end.

(** ** Asset resolution *)

(** [for pair in universe: if pair.get("index") == index: ... break];
    [JNull] when the loop ends without a match. *)
Fixpoint find_pair_by_index (universe : list json) (index : Z) : result json :=
  match universe with
  | [] => Ok JNull
  | pair_ :: rest =>
      let? i := py_get pair_ "index" JNull in
      if py_eq_int i index then Ok pair_ else find_pair_by_index rest index
  end.

(** [for pair_info in universe: if pair_info.get("name") == coin_field: ...] *)
Fixpoint find_pair_by_name (universe : list json) (name : string)
  : result (option json) :=
  match universe with
  | [] => Ok None
  | pair_info :: rest =>
      let? n := py_get pair_info "name" JNull in
      if py_eq_str n name then Ok (Some pair_info)
      else find_pair_by_name rest name
  end.

(** The size decimals of the base token of [pair_info], 6 unless the
    metadata names one. *)
Definition lookup_size_decimals (pair_info tokens : json) : result json :=
  if py_truthy pair_info then
    let? has_tokens := py_contains_str "tokens" pair_info in
    if has_tokens then
      let? token_indices := py_getkey pair_info "tokens" in
      let? n := py_len token_indices in
      if 0 <? n then
        let? base_token_index := py_index token_indices 0 in
        let? ntokens := py_len tokens in
        let? in_range := py_lt_int base_token_index ntokens in
        if in_range then
          let? token_info := py_getitem tokens base_token_index in
          py_get token_info "szDecimals" (JInt 6)
        else Ok (JInt 6)
      else Ok (JInt 6)
    else Ok (JInt 6)
  else Ok (JInt 6).

(** [float(ctx.get("midPx", ctx.get("markPx", 0)))] *)
Definition ctx_price (ctx : json) : result float :=
  let? mark := py_get ctx "markPx" (JInt 0) in
  let? mid := py_get ctx "midPx" mark in
  py_float mid.

(** [int(coin_field[1:])] *)
Definition int_after_at (c : string) : result Z :=
  match py_int E (str_tail c) with
  | Some i => Ok i
  | None => Raise ValueError
  end.

(** The body of [get_spot_asset_info] inside its [try]; [self] is the
    function itself, for the call on ["@{pair_index}"]. *)
Definition get_spot_asset_info_body
    (self : json -> M (option asset_info)) (coin_field : json)
  : M (option asset_info) :=
  do c <- lift (as_str coin_field) in
  if startswith "@" c then
    do spot_data <- ask (spot_meta_and_asset_ctxs E) in
    do n <- lift (py_len spot_data) in
    if 2 <=? n then
      do spot_meta_ <- lift (py_index spot_data 0) in
      do asset_ctxs <- lift (py_index spot_data 1) in
      do index <- lift (int_after_at c) in
      do nctxs <- lift (py_len asset_ctxs) in
      if index <? nctxs then
        do ctx <- lift (py_index asset_ctxs index) in
        do price <- lift (ctx_price ctx) in
        if PrimFloat.ltb 0 price then
          do universe <- lift (py_get spot_meta_ "universe" (JList [])) in
          do tokens <- lift (py_get spot_meta_ "tokens" (JList [])) in
          do pairs <- lift (py_iter universe) in
          do pair_info <- lift (find_pair_by_index pairs index) in
          do size_decimals <- lift (lookup_size_decimals pair_info tokens) in
          ret (Some (mkAssetInfo price size_decimals coin_field))
        else
          run print LogNoSpotPrice in
          ret None
      else
        run print LogIndexOutOfRange in
        ret None
    else ret None
  else if str_contains "/" c then
    do spot_meta_ <- ask (spot_meta E) in
    do universe <- lift (py_get spot_meta_ "universe" (JList [])) in
    do pairs <- lift (py_iter universe) in
    do found <- lift (find_pair_by_name pairs c) in
    match found with
    | Some pair_info =>
        do pair_index <- lift (py_get pair_info "index" JNull) in
        self (JStr ("@" +:+ py_str pair_index))
    | None =>
        run print LogPairNotFound in
        ret None
    end
  else
    run print LogUnsupportedSpotFormat in
    ret None.

Definition spot_info_handler (_ : exn) : M (option asset_info) :=
  run print LogSpotInfoError in
  ret None.

(** [get_spot_asset_info] on an ["@index"] name, where the body never
    reaches the call on itself. *)
Definition get_spot_asset_info_at (coin_field : json) : M (option asset_info) :=
  try_except (get_spot_asset_info_body (fun _ => ret None) coin_field)
             spot_info_handler.

Definition get_spot_asset_info (coin_field : json) : M (option asset_info) :=
  try_except (get_spot_asset_info_body get_spot_asset_info_at coin_field)
             spot_info_handler.

(** ** Placing and cancelling the follower TWAP *)

(** The asset index of an action, as both [place_follower_twap_order] and
    [cancel_follower_twap_order] find it: read off an ["@index"] name, or
    looked up by pair name in [info.spot_meta()].  [None] is the early
    [return] after the print [no_index] or [unsupported]. *)
Definition resolve_asset_index (no_index unsupported : log_msg)
    (coin_field : json) : M (option json) :=
  do c <- lift (as_str coin_field) in
  if startswith "@" c then
    do asset_index <- lift (int_after_at c) in
    ret (Some (JInt asset_index))
  else if str_contains "/" c then
    do spot_meta_ <- ask (spot_meta E) in
    do universe <- lift (py_get spot_meta_ "universe" (JList [])) in
    do pairs <- lift (py_iter universe) in
    do found <- lift (find_pair_by_name pairs c) in
    do asset_index <- lift (match found with
                            | Some pair_info => py_get pair_info "index" JNull
                            | None => Ok JNull
                            end) in
    match asset_index with
    | JNull =>
        run print no_index in
        ret None
    | _ => ret (Some asset_index)
    end
  else
    run print unsupported in
    ret None.

(** [result and result.get("status") == "ok"] *)
Definition result_is_ok (result_ : json) : result bool :=
  if py_truthy result_ then
    let? s := py_get result_ "status" JNull in Ok (py_eq_str s "ok")
  else Ok false.

(** What [place_follower_twap_order] makes of the venue's answer; [JNull]
    is Python's [None]. *)
Definition read_place_result (result_ : json) : M json :=
  do ok <- lift (result_is_ok result_) in
  if ok then
    do response <- lift (py_get result_ "response" (JDict [])) in
    do response_data <- lift (py_get response "data" (JDict [])) in
    do status_info <- lift (py_get response_data "status" (JDict [])) in
    do running <- lift (py_contains_str "running" status_info) in
    if running then
      do r <- lift (py_getkey status_info "running") in
      do follower_twap_id <- lift (py_getkey r "twapId") in
      run print (LogPlaced follower_twap_id) in
      ret follower_twap_id
    else
      run print LogUnexpectedStatus in
      run print LogPlaceFailed in
      ret JNull
  else
    run print LogPlaceFailed in
    ret JNull.

Definition place_follower_twap_order (leader_twap_data : json) : M json :=
  try_except
    (do state_ <- lift (py_get leader_twap_data "state" (JDict [])) in
     do coin_field <- lift (py_get state_ "coin" (JStr "")) in
     do side <- lift (py_get state_ "side" JNull) in
     do minutes <- lift (py_get state_ "minutes" (JInt 1)) in
     do randomize <- lift (py_get state_ "randomize" (JBool false)) in
     do reduce_only <- lift (py_get state_ "reduceOnly" (JBool false)) in
     do spot <- lift (is_spot_order coin_field) in
     if negb spot then ret JNull
     else
       do asset_info <- get_spot_asset_info coin_field in
       match asset_info with
       | None =>
           run print LogNoAssetInfo in
           ret JNull
       | Some info =>
           do quotient <- lift (py_div FIXED_ORDER_VALUE_USDC (price info)) in
           do follower_total_size <- lift (py_round quotient (szDecimals info)) in
           if pynum_le0 follower_total_size then
             run print LogInvalidSize in
             ret JNull
           else
             let is_buy := py_eq_str side "B" in
             run print (LogPlacing is_buy follower_total_size minutes) in
             try_except
               (do found <- resolve_asset_index LogNoAssetIndex
                              LogUnsupportedTwapFormat coin_field in
                match found with
                | None => ret JNull
                | Some asset_index =>
                    do a <- lift (py_add_int 10000 asset_index) in
                    do s <- lift (float_to_wire E follower_total_size) in
                    do result_ <- sign_and_post
                                    (TwapOrder a is_buy s reduce_only minutes
                                       randomize) in
                    read_place_result result_
                end)
               (fun _ =>
                  run print LogTwapLookupError in
                  ret JNull)
       end)
    (fun _ =>
       run print LogPlaceError in
       ret JNull).

Definition read_cancel_result (result_ : json) : M bool :=
  do ok <- lift (result_is_ok result_) in
  if ok then
    do response <- lift (py_get result_ "response" (JDict [])) in
    do response_data <- lift (py_get response "data" (JDict [])) in
    do status_ <- lift (py_get response_data "status" JNull) in
    if py_eq_str status_ "success" then
      run print LogCancelled in
      ret true
    else
      do status_info <- lift (py_get response_data "status" (JDict [])) in
      do error_msg <- lift (py_get status_info "error" (JStr "Unknown error")) in
      run print LogCancelFailed in
      ret false
  else
    run print LogCancelFailed in
    ret false.

Definition cancel_follower_twap_order (follower_twap_id coin_field : json)
  : M bool :=
  try_except
    (run print (LogCancelling follower_twap_id) in
     try_except
       (do found <- resolve_asset_index LogCancelNoAssetIndex
                      LogCancelUnsupportedFormat coin_field in
        match found with
        | None => ret false
        | Some asset_index =>
            do a <- lift (py_add_int 10000 asset_index) in
            do result_ <- sign_and_post (TwapCancel a follower_twap_id) in
            read_cancel_result result_
        end)
       (fun _ =>
          run print LogCancelLookupError in
          ret false))
    (fun _ =>
       run print LogCancelError in
       ret false).

(** ** The event handler *)

(** The key of a leader TWAP: coin, side, size, minutes and timestamp joined
    by underscores. *)
Definition twap_key_of (coin_field state_ : json) : result string :=
  let? side := py_get state_ "side" JNull in
  let? sz := py_get state_ "sz" JNull in
  let? minutes := py_get state_ "minutes" JNull in
  let? timestamp := py_get state_ "timestamp" JNull in
  Ok (py_str coin_field +:+ "_" +:+ py_str side +:+ "_" +:+ py_str sz +:+ "_"
        +:+ py_str minutes +:+ "_" +:+ py_str timestamp).

(** One turn of the loop over [twapHistory]. *)
Definition handle_twap_event (twap_event : json) : M unit :=
  do state_ <- lift (py_get twap_event "state" (JDict [])) in
  do coin_field <- lift (py_get state_ "coin" (JStr "")) in
  do spot <- lift (is_spot_order coin_field) in
  if negb spot then ret tt
  else
    do twap_key <- lift (twap_key_of coin_field state_) in
    do status_ <- lift (py_get twap_event "status" (JDict [])) in
    do twap_status <- lift (py_get status_ "status" (JStr "unknown")) in
    do shown <- lift (as_str twap_status) in
    run print (LogLeaderTwap shown twap_key) in
    do known <- get_mappings in
    if bool_decide (is_Some (known !! twap_key)) then
      print (LogSkipKnown twap_key)
    else if py_eq_str twap_status "activated" then
      try_except
        (do follower_twap_id <- place_follower_twap_order twap_event in
         if py_truthy follower_twap_id then
           do m <- get_mappings in
           run set_mappings (<[twap_key := follower_twap_id]> m) in
           print (LogMapped twap_key follower_twap_id)
         else ret tt)
        (fun _ => print (LogMirrorError twap_key))
    else if py_eq_str twap_status "canceled"
            || py_eq_str twap_status "terminated" then
      do m <- get_mappings in
      match m !! twap_key with
      | Some follower_twap_id =>
          do cancelled <- cancel_follower_twap_order follower_twap_id
                            coin_field in
          do m' <- get_mappings in
          set_mappings (delete twap_key m')
      | None => ret tt
      end
    else ret tt.

Fixpoint for_each {A} (f : A -> M unit) (l : list A) : M unit :=
  match l with
  | [] => ret tt
  | x :: rest =>
      run f x in
      for_each f rest
  end.

Definition handle_leader_twap_events (data : json) : M unit :=
  do channel <- lift (py_get data "channel" JNull) in
  if py_eq_str channel "user" then
    do user_data <- lift (py_get data "data" (JDict [])) in
    do history <- lift (py_get user_data "twapHistory" (JList [])) in
    do events <- lift (py_iter history) in
    for_each handle_twap_event events
  else if py_eq_str channel "subscriptionResponse" then
    print LogSubscriptionConfirmed
  else ret tt.

(** ** The processor loop *)

(** The body of the [while running] loop of [message_processor] once a
    message is out of the queue: decode, handle, and catch. *)
Definition process_message (message : string) : M unit :=
  try_except
    (do data <- lift (json_loads E message) in
     run print (LogRawMessage data) in
     handle_leader_twap_events data)
    (fun e =>
       match e with
       | JSONDecodeError => print LogInvalidJson
       | _ => print LogProcessingError
       end).

(** [message_processor] on the messages that are in the queue, oldest
    first, while [running] stays set. *)
Definition message_processor (queue : list string) : M unit :=
  for_each process_message queue.

End Mirror.

(** ** Reading an event the way the handler does *)

(** The key [handle_twap_event] computes for an event. *)
Definition event_key {World} (E : externals World) (twap_event : json)
  : result string :=
  let? state_ := py_get twap_event "state" (JDict []) in
  let? coin_field := py_get state_ "coin" (JStr "") in
  twap_key_of E coin_field state_.

(** [state.get("coin", "")] of an event. *)
Definition event_coin (twap_event : json) : result json :=
  let? state_ := py_get twap_event "state" (JDict []) in
  py_get state_ "coin" (JStr "").

(** [twap_event.get("status", {}).get("status", "unknown")] *)
Definition event_status (twap_event : json) : result json :=
  let? status_ := py_get twap_event "status" (JDict []) in
  py_get status_ "status" (JStr "unknown").


(** The venue's answer to a [twapOrder] that is now running under [id]:
    [{"status": "ok", "response": {"type": "twapOrder",
      "data": {"status": {"running": {"twapId": id}}}}}]. *)
Definition running_answer (id : json) : json :=
  JDict [("status", JStr "ok");
         ("response",
          JDict [("type", JStr "twapOrder");
                 ("data",
                  JDict [("status",
                          JDict [("running", JDict [("twapId", id)])])])])].

(** A frame of the [user] channel carrying [events] as its [twapHistory]. *)
Definition user_frame (events : list json) : json :=
  JDict [("channel", JStr "user");
         ("data", JDict [("twapHistory", JList events)])].

(** ** The follower size, in the words of the specification

    [round(FixedNotional / referencePrice, sizeDecimals)] with the fixed
    notional of 20. *)
Definition follower_size (reference_price_ : float) (size_decimals : json)
  : result pynum :=
  let? q := py_div FIXED_ORDER_VALUE_USDC reference_price_ in
  py_round q size_decimals.

(** ** Spot identifiers, in the words of the specification

    An index reference is the prefix ["@"] followed by a non-negative
    integer; a pair name is slash-separated.  An identifier is not spot when
    it is neither, and so is a malformed index reference: the prefix with a
    remainder that is not a non-negative integer. *)
Definition index_reference {World} (E : externals World) (c : string) : Prop :=
  startswith "@" c = true /\
  exists n, py_int E (str_tail c) = Some n /\ 0 <= n.

Definition pair_name (c : string) : Prop := str_contains "/" c = true.

Definition not_spot {World} (E : externals World) (c : string) : Prop :=
  (~ index_reference E c /\ ~ pair_name c) \/
  (startswith "@" c = true /\ ~ index_reference E c).

(** ** The reference price of an instrument

    [index_price E w c p w']: in world [w], the lookup of the ["@index"]
    name [c] reaches the price [p] of its asset context (mid price, else
    mark price, else 0), leaving the world [w'].  [reference_price] adds
    the lookup of a pair name through the universe. *)
Inductive index_price {World} (E : externals World)
    (w : World) (c : string) (p : float) (w' : World) : Prop :=
| IndexPrice spot_data spot_meta_ asset_ctxs n i nctxs ctx :
    startswith "@" c = true ->
    spot_meta_and_asset_ctxs E w = (Ok spot_data, w') ->
    py_len spot_data = Ok n -> 2 <= n ->
    py_index spot_data 0 = Ok spot_meta_ ->
    py_index spot_data 1 = Ok asset_ctxs ->
    int_after_at E c = Ok i ->
    py_len asset_ctxs = Ok nctxs -> i < nctxs ->
    py_index asset_ctxs i = Ok ctx ->
    ctx_price E ctx = Ok p ->
    index_price E w c p w'.

Inductive reference_price {World} (E : externals World)
    (w : World) (c : string) (p : float) (w' : World) : Prop :=
| PriceByIndex :
    index_price E w c p w' -> reference_price E w c p w'
| PriceByName meta universe pairs pair_info pair_index w1 :
    startswith "@" c = false ->
    str_contains "/" c = true ->
    spot_meta E w = (Ok meta, w1) ->
    py_get meta "universe" (JList []) = Ok universe ->
    py_iter universe = Ok pairs ->
    find_pair_by_name pairs c = Ok (Some pair_info) ->
    py_get pair_info "index" JNull = Ok pair_index ->
    index_price E w1 ("@" +:+ py_str E pair_index) p w' ->
    reference_price E w c p w'.

(** ** The receiver and the processor around the queue

    [message_receiver] puts every message it gets at the back of the queue
    and does nothing else.  [message_processor] takes the message at the
    front, runs [process_message] on it to the end, and only then comes
    back to the queue; when the queue is empty its wait times out and it
    tries again.  The two tasks interleave in any order: a schedule is a
    list of moves. *)
Inductive move : Type :=
| Put (m : string)
| Get
| Handle
| Timeout.

(** What an observer sees of the processor. *)
Inductive event : Type :=
| Dequeued (m : string)
| Posted (a : action)
| Finished (m : string).

Record system (World : Type) : Type := mkSystem {
  received : list string;
  queue : list string;
  in_flight : option string;
  engine : state World;
  trace : list event;
}.
Arguments mkSystem {World}.
Arguments received {World}.
Arguments queue {World}.
Arguments in_flight {World}.
Arguments engine {World}.
Arguments trace {World}.

(** The actions posted between two states of the script. *)
Definition new_calls {World} (before after : state World) : list action :=
  drop (length (calls before)) (calls after).

(** What handling [m] from state [st] adds to the trace. *)
Definition handling {World} (E : externals World) (m : string)
    (st : state World) : list event :=
  Dequeued m
  :: map Posted (new_calls st (snd (process_message E m st)))
  ++ [Finished m].

Definition do_move {World} (E : externals World) (mv : move)
    (s : system World) : option (system World) :=
  match mv with
  | Put m =>
      Some (mkSystem (received s ++ [m]) (queue s ++ [m]) (in_flight s)
              (engine s) (trace s))
  | Get =>
      match in_flight s, queue s with
      | None, m :: rest =>
          Some (mkSystem (received s) rest (Some m) (engine s)
                  (trace s ++ [Dequeued m]))
      | _, _ => None
      end
  | Handle =>
      match in_flight s with
      | Some m =>
          let st' := snd (process_message E m (engine s)) in
          Some (mkSystem (received s) (queue s) None st'
                  (trace s ++ map Posted (new_calls (engine s) st')
                   ++ [Finished m]))
      | None => None
      end
  | Timeout =>
      match in_flight s, queue s with
      | None, [] => Some s
      | _, _ => None
      end
  end.

Fixpoint run_moves {World} (E : externals World) (mvs : list move)
    (s : system World) : option (system World) :=
  match mvs with
  | [] => Some s
  | mv :: rest =>
      match do_move E mv s with
      | Some s' => run_moves E rest s'
      | None => None
      end
  end.

Definition start {World} (st : state World) : system World :=
  mkSystem [] [] None st [].

(** The trace of handling [ms] one after the other, each from the state the
    one before left. *)
Fixpoint handled_trace {World} (E : externals World) (ms : list string)
    (st : state World) : list event :=
  match ms with
  | [] => []
  | m :: rest =>
      handling E m st
      ++ handled_trace E rest (snd (process_message E m st))
  end.

(** ** What a computation can return *)

Definition returns {World A} (Q : A -> Prop) (m : @M World A) : Prop :=
  forall st a st', m st = (Ok a, st') -> Q a.

(** An asset info, if any, has a positive price. *)
Definition priced (o : option asset_info) : Prop :=
  forall info, o = Some info -> PrimFloat.ltb 0 (price info) = true.

(** The actions of a trace, in order. *)
Definition posted_actions (tr : list event) : list action :=
  omap (fun ev => match ev with Posted a => Some a | _ => None end) tr.

(** The message in flight, as the trace shows it and as a list. *)
Definition in_flight_trace (o : option string) : list event :=
  match o with
  | Some m => [Dequeued m]
  | None => []
  end.

Definition in_flight_list (o : option string) : list string :=
  match o with
  | Some m => [m]
  | None => []
  end.

(** [done] is what the processor has handled when the system is [s],
    started from [st0]: everything received is handled, in flight or
    queued, in that order; the script is where handling [done] in order
    leaves it; and the trace is the handling of [done] in order, then the
    dequeue of the message in flight. *)
Definition in_order {World} (E : externals World) (st0 : state World)
    (s : system World) (done : list string) : Prop :=
  received s = done ++ in_flight_list (in_flight s) ++ queue s /\
  engine s = snd (message_processor E done st0) /\
  trace s = handled_trace E done st0 ++ in_flight_trace (in_flight s).

(** ** Relations between the state before and after a computation *)

Definition respects {World A} (P : state World -> state World -> Prop)
    (m : M A) : Prop :=
  forall st, P st (snd (m st)).

(** The mapping table is untouched. *)
Definition same_mappings {World} (st st' : state World) : Prop :=
  twap_mappings st' = twap_mappings st.

(** Nothing was posted. *)
Definition same_calls {World} (st st' : state World) : Prop :=
  calls st' = calls st.

(** The posted actions only grow, at the end. *)
Definition calls_extend {World} (st st' : state World) : Prop :=
  exists new, calls st' = calls st ++ new.

(** ** A sample venue

    One concrete outside world on which the statements below are run: a
    decimal [int()], two price strings, a universe with the pair
    ["PURR/USDC"] at index 5 (base token with 2 size decimals), a price of
    4.0 at index 5 and of 0 at index 3, and a venue that accepts every
    action and numbers the TWAPs it starts from 77.  The world counts the
    actions posted. *)

Fixpoint digits_value (s : string) (acc : Z) : option Z :=
  match s with
  | EmptyString => Some acc
  | String c t =>
      let d := Z.of_nat (Ascii.nat_of_ascii c) - 48 in
      if (0 <=? d) && (d <=? 9) then digits_value t (10 * acc + d) else None
  end.

Definition sample_int (s : string) : option Z :=
  match s with
  | EmptyString => None
  | String "-"%char EmptyString => None
  | String "-"%char t => option_map Z.opp (digits_value t 0)
  | _ => digits_value s 0
  end.

Definition sample_float_of_str (s : string) : option float :=
  if String.eqb s "4.0" then Some 4%float
  else if String.eqb s "0" then Some 0%float
  else None.

Definition sample_float_to_wire (n : pynum) : result string :=
  match n with
  | PFloat f => if PrimFloat.eqb f 5 then Ok "5" else Raise ValueError
  | PInt z => Ok (pretty z)
  end.

Definition sample_ctx (px : string) : json :=
  JDict [("midPx", JStr px); ("markPx", JStr px)].

Definition sample_spot_meta : json :=
  JDict [("universe",
          JList [JDict [("name", JStr "PURR/USDC"); ("index", JInt 5);
                        ("tokens", JList [JInt 1; JInt 0])]]);
         ("tokens",
          JList [JDict [("name", JStr "USDC"); ("szDecimals", JInt 8)];
                 JDict [("name", JStr "PURR"); ("szDecimals", JInt 2)]])].

Definition sample_spot_data : json :=
  JList [sample_spot_meta;
         JList [sample_ctx "0"; sample_ctx "0"; sample_ctx "0";
                sample_ctx "0"; sample_ctx "0"; sample_ctx "4.0"]].

Definition cancel_answer : json :=
  JDict [("status", JStr "ok");
         ("response",
          JDict [("type", JStr "twapCancel");
                 ("data", JDict [("status", JStr "success")])])].

(** An entry of [twapHistory]. *)
Definition twap_event (coin_ side sz : string) (minutes timestamp : Z)
    (status : string) : json :=
  JDict [("state",
          JDict [("coin", JStr coin_); ("side", JStr side); ("sz", JStr sz);
                 ("minutes", JInt minutes); ("reduceOnly", JBool false);
                 ("randomize", JBool false); ("timestamp", JInt timestamp)]);
         ("status", JDict [("status", JStr status)])].

Definition sample_activated : json :=
  twap_event "@5" "B" "12.5" 5 1700000000000 "activated".

Definition sample_terminated : json :=
  twap_event "@5" "B" "12.5" 5 1700000000000 "terminated".

Definition sample_key : string := "@5_B_12.5_5_1700000000000".

(** The frames of the sample stream, by name; any other text fails to
    decode. *)
Definition sample_loads (message : string) : result json :=
  if String.eqb message "activated" then Ok (user_frame [sample_activated])
  else if String.eqb message "terminated" then
    Ok (user_frame [sample_terminated])
  else if String.eqb message "subscribed" then
    Ok (JDict [("channel", JStr "subscriptionResponse")])
  else if String.eqb message "list" then Ok (JList [])
  else Raise JSONDecodeError.

Definition sample_venue : externals nat :=
  {| py_int := sample_int;
     py_float_of_str := sample_float_of_str;
     py_repr := fun _ => "?";
     float_to_wire := sample_float_to_wire;
     json_loads := sample_loads;
     spot_meta_and_asset_ctxs := fun w => (Ok sample_spot_data, w);
     spot_meta := fun w => (Ok sample_spot_meta, w);
     sign_l1_action := fun _ _ => Ok tt;
     post_action := fun a w =>
       match a with
       | TwapOrder _ _ _ _ _ _ =>
           (Ok (running_answer (JInt (77 + Z.of_nat w))), S w)
       | TwapCancel _ _ => (Ok cancel_answer, S w)
       end |}.

(** The script right after start-up, and with one mapping in the table. *)
Definition fresh_state : state nat := mkState ∅ [] [] 0%nat.

Definition mapped_state : state nat :=
  mkState {[ sample_key := JInt 77 ]} [] [] 0%nat.

(** Sample events for a perpetual and for the index without a price. *)
Definition sample_perp : json :=
  twap_event "BTC" "B" "0.01" 5 1700000000001 "activated".

Definition sample_unpriced : json :=
  twap_event "@3" "B" "7" 5 1700000000002 "activated".

Definition sample_unpriced_key : string := "@3_B_7_5_1700000000002".

(** The second message arrives while the first is being handled. *)
Definition sample_schedule : list move :=
  [Put "activated"; Get; Put "terminated"; Handle; Get; Handle; Timeout].

Definition sample_end : system nat :=
  default (start fresh_state)
    (run_moves sample_venue sample_schedule (start fresh_state)).

(** ** Answers of the venue, as the script reads them *)

(** The venue confirmed a cancellation: the answer is true in a condition,
    its [status] is ["ok"] and its [response.data.status] is ["success"]. *)
Definition cancel_confirmed (result_ : json) : Prop :=
  result_is_ok result_ = Ok true /\
  exists response response_data status_,
    py_get result_ "response" (JDict []) = Ok response /\
    py_get response "data" (JDict []) = Ok response_data /\
    py_get response_data "status" JNull = Ok status_ /\
    py_eq_str status_ "success" = true.

Definition is_twap_order (a : action) : Prop :=
  match a with
  | TwapOrder _ _ _ _ _ _ => True
  | TwapCancel _ _ => False
  end.

(** The [twapOrder] that [place_follower_twap_order] builds from the
    [state] of a leader event: side, reduce-only, minutes and randomize are
    the leader's (minutes 1 and the two flags [False] when absent). *)
Definition order_for (kvs : list (string * json)) (a : json) (wire : string)
  : action :=
  TwapOrder a (py_eq_str (default JNull (assoc "side" kvs)) "B") wire
    (default (JBool false) (assoc "reduceOnly" kvs))
    (default (JInt 1) (assoc "minutes" kvs))
    (default (JBool false) (assoc "randomize" kvs)).

(** From [st] to [st'] the script has only mirrored: every mapping of
    [st] is still there, what was posted in between are orders, and the
    table grew by no more entries than orders were posted. *)
Definition mirrored_only {World} (st st' : state World) : Prop :=
  twap_mappings st ⊆ twap_mappings st' /\
  exists new,
    calls st' = calls st ++ new /\
    Forall is_twap_order new /\
    (size (twap_mappings st') <= size (twap_mappings st) + length new)%nat.

(** ** The session between start and stop

    The two loops of [monitor_and_mirror_spot_twap_orders] with the flag
    [running], which the session sets before it starts them and
    [signal_handler] clears.  [message_receiver] tests the flag on every
    message it gets, puts the message in the queue when it is set and
    leaves its loop when it is not.  [message_processor] tests the flag at
    the head of its loop, then waits on the queue, and either takes the
    message at the front and runs [process_message] on it to the end, or
    times out; both bring it back to the head of the loop.  [StreamEnd] is
    the stream running out of messages; a connection that breaks with an
    exception ends the whole session and is not a move of it. *)
Inductive processor_at : Type :=
| AtLoopTest
| Waiting
| Handling (m : string)
| LeftLoop.

Inductive session_move : Type :=
| Signal
| Arrive (m : string)
| StreamEnd
| TestFlag
| Take
| TimeOut
| Finish.

Record session (World : Type) : Type := mkSession {
  running : bool;
  receiving : bool;
  processor : processor_at;
  pending : list string;
  enqueued : list string;
  taken : list string;
  script : state World;
}.
Arguments mkSession {World}.
Arguments running {World}.
Arguments receiving {World}.
Arguments processor {World}.
Arguments pending {World}.
Arguments enqueued {World}.
Arguments taken {World}.
Arguments script {World}.

Definition session_start {World} (st : state World) : session World :=
  mkSession true true AtLoopTest [] [] [] st.

Definition session_step {World} (E : externals World) (mv : session_move)
    (s : session World) : option (session World) :=
  match mv with
  | Signal =>
      Some (mkSession false (receiving s) (processor s) (pending s)
              (enqueued s) (taken s) (script s))
  | Arrive m =>
      if receiving s then
        if running s then
          Some (mkSession (running s) true (processor s) (pending s ++ [m])
                  (enqueued s ++ [m]) (taken s) (script s))
        else
          Some (mkSession (running s) false (processor s) (pending s)
                  (enqueued s) (taken s) (script s))
      else None
  | StreamEnd =>
      if receiving s then
        Some (mkSession (running s) false (processor s) (pending s)
                (enqueued s) (taken s) (script s))
      else None
  | TestFlag =>
      match processor s with
      | AtLoopTest =>
          Some (mkSession (running s) (receiving s)
                  (if running s then Waiting else LeftLoop) (pending s)
                  (enqueued s) (taken s) (script s))
      | _ => None
      end
  | Take =>
      match processor s, pending s with
      | Waiting, m :: rest =>
          Some (mkSession (running s) (receiving s) (Handling m) rest
                  (enqueued s) (taken s ++ [m]) (script s))
      | _, _ => None
      end
  | TimeOut =>
      match processor s, pending s with
      | Waiting, [] =>
          Some (mkSession (running s) (receiving s) AtLoopTest []
                  (enqueued s) (taken s) (script s))
      | _, _ => None
      end
  | Finish =>
      match processor s with
      | Handling m =>
          Some (mkSession (running s) (receiving s) AtLoopTest (pending s)
                  (enqueued s) (taken s)
                  (snd (process_message E m (script s))))
      | _ => None
      end
  end.

Fixpoint run_session {World} (E : externals World) (mvs : list session_move)
    (s : session World) : option (session World) :=
  match mvs with
  | [] => Some s
  | mv :: rest =>
      match session_step E mv s with
      | Some s' => run_session E rest s'
      | None => None
      end
  end.



(** The message the processor is handling, as a list. *)
Definition handling_list (p : processor_at) : list string :=
  match p with
  | Handling m => [m]
  | _ => []
  end.

(** [done] is what the processor of the session [s], started from [st0],
    has handled to the end. *)
Definition session_in_order {World} (E : externals World) (st0 : state World)
    (s : session World) (done : list string) : Prop :=
  enqueued s = taken s ++ pending s /\
  taken s = done ++ handling_list (processor s) /\
  script s = snd (message_processor E done st0).

(** ** More sample data *)

(** The sample venue with other spot data and one fixed answer to every
    action. *)
Definition venue_with (data answer : json) : externals nat :=
  {| py_int := sample_int;
     py_float_of_str := sample_float_of_str;
     py_repr := fun _ => "?";
     float_to_wire := sample_float_to_wire;
     json_loads := sample_loads;
     spot_meta_and_asset_ctxs := fun w => (Ok data, w);
     spot_meta := fun w => (Ok sample_spot_meta, w);
     sign_l1_action := fun _ _ => Ok tt;
     post_action := fun _ w => (Ok answer, S w) |}.

(** Index 0 has a null mid price and a mark price of 4.0. *)
Definition null_mid_data : json :=
  JList [sample_spot_meta;
         JList [JDict [("midPx", JNull); ("markPx", JStr "4.0")]]].

(** Index 0 has a price, and the universe lists no pair. *)
Definition unlisted_data : json :=
  JList [JDict [("universe", JList []); ("tokens", JList [])];
         JList [sample_ctx "4.0"]].

Definition rejection : json :=
  JDict [("status", JStr "err"); ("response", JStr "Insufficient balance")].

Definition sample_null_status : json :=
  JDict [("state",
          JDict [("coin", JStr "@5"); ("side", JStr "B"); ("sz", JStr "1");
                 ("minutes", JInt 5); ("timestamp", JInt 1700000000003)]);
         ("status", JDict [("status", JNull)])].

Definition sample_finished : json :=
  twap_event "@5" "B" "12.5" 5 1700000000000 "finished".

(** The signal comes while the first message is being handled and a
    second one is in the queue. *)
Definition sample_before_signal : list session_move :=
  [TestFlag; Arrive "activated"; Take; Arrive "terminated"].

Definition sample_after_signal : list session_move :=
  [Arrive "subscribed"; Finish; TestFlag].


Definition sample_wound_down : session nat :=
  default (session_start fresh_state)
    (run_session sample_venue
       (sample_before_signal ++ Signal :: sample_after_signal)
       (session_start fresh_state)).

(** No signal: the stream ends and the processor goes on polling. *)
Definition sample_unsignalled : list session_move :=
  sample_before_signal
  ++ [Finish; TestFlag; Take; Finish; StreamEnd; TestFlag; TimeOut].

Definition sample_polling : session nat :=
  default (session_start fresh_state)
    (run_session sample_venue sample_unsignalled (session_start fresh_state)).

(** ** Venues for the edges of the claims *)


(** Index 5 is priced at 30000.0: 20 / 30000 rounds to 0.0 at two
    decimals. *)
Definition costly_float_of_str (s : string) : option float :=
  if String.eqb s "30000.0" then Some 30000%float else sample_float_of_str s.

Definition costly_spot_data : json :=
  JList [sample_spot_meta;
         JList [sample_ctx "0"; sample_ctx "0"; sample_ctx "0";
                sample_ctx "0"; sample_ctx "0"; sample_ctx "30000.0"]].

Definition costly_venue : externals nat :=
  {| py_int := sample_int;
     py_float_of_str := costly_float_of_str;
     py_repr := fun _ => "?";
     float_to_wire := sample_float_to_wire;
     json_loads := sample_loads;
     spot_meta_and_asset_ctxs := fun w => (Ok costly_spot_data, w);
     spot_meta := fun w => (Ok sample_spot_meta, w);
     sign_l1_action := fun _ _ => Ok tt;
     post_action := post_action sample_venue |}.

(** A frame with two entries: the status of the first is null, the second
    is the sample activation. *)
Definition mixed_frame : json :=
  user_frame [sample_null_status; sample_activated].

Definition mixed_loads (message : string) : result json :=
  if String.eqb message "mixed" then Ok mixed_frame else sample_loads message.

Definition mixed_venue : externals nat :=
  {| py_int := sample_int;
     py_float_of_str := sample_float_of_str;
     py_repr := fun _ => "?";
     float_to_wire := sample_float_to_wire;
     json_loads := mixed_loads;
     spot_meta_and_asset_ctxs := fun w => (Ok sample_spot_data, w);
     spot_meta := fun w => (Ok sample_spot_meta, w);
     sign_l1_action := fun _ _ => Ok tt;
     post_action := post_action sample_venue |}.

(** The order that the sample activation makes the script post. *)
Definition sample_order : action :=
  TwapOrder (JInt 10005) true "5" (JBool false) (JInt 5) (JBool false).

(** * Properties *)

Section Properties.

Context {World : Type}.
Variable E : externals World.

Abbreviation state := (state World).

(** ** Frame properties

    A relation between the state before and after a computation, reflexive
    and transitive, that every primitive step keeps, is kept by every
    function built from those steps. *)

Section Frame.

Variable P : state -> state -> Prop.
Hypothesis P_refl : forall st, P st st.
Hypothesis P_trans : forall a b c, P a b -> P b c -> P a c.

Abbreviation respects := (respects P).

Lemma respects_ret {A} (a : A) : respects (ret a).
Proof. intros st. apply P_refl. Qed.

Lemma respects_lift {A} (r : result A) : respects (lift r).
Proof. intros st. apply P_refl. Qed.

Lemma respects_bind {A B} (m : M A) (k : A -> M B) :
  respects m -> (forall a, respects (k a)) -> respects (bind m k).
Proof.
  intros Hm Hk st. unfold bind.
  specialize (Hm st). destruct (m st) as [[a|e] st1]; simpl in *.
  - eapply P_trans; [exact Hm|apply Hk].
  - exact Hm.
Qed.

Lemma respects_try {A} (m : M A) (h : exn -> M A) :
  respects m -> (forall e, respects (h e)) -> respects (try_except m h).
Proof.
  intros Hm Hh st. unfold try_except.
  specialize (Hm st). destruct (m st) as [[a|e] st1]; simpl in *.
  - exact Hm.
  - eapply P_trans; [exact Hm|apply Hh].
Qed.

Lemma respects_for_each {A} (f : A -> M unit) (l : list A) :
  (forall x, respects (f x)) -> respects (for_each f l).
Proof.
  intros Hf. induction l as [|x rest IH]; simpl.
  - apply respects_ret.
  - apply respects_bind; [apply Hf|intros _; exact IH].
Qed.

Hypothesis P_print : forall l, respects (print l).
Hypothesis P_ask : forall q, respects (ask q).
Hypothesis P_post : forall a, respects (sign_and_post E a).

Lemma respects_get_mappings : respects get_mappings.
Proof. intros st. apply P_refl. Qed.

Ltac frame_step :=
  first
    [ apply respects_ret
    | apply respects_lift
    | apply P_print
    | apply P_ask
    | apply P_post
    | apply respects_get_mappings
    | apply respects_bind; [|intros ?]
    | apply respects_try; [|intros ?]
    | match goal with
      | |- respects (if ?b then _ else _) => destruct b
      | |- respects (match ?x with _ => _ end) => destruct x
      end ].

Ltac frame := repeat frame_step.

Lemma respects_get_spot_asset_info_body self c :
  (forall x, respects (self x)) -> respects (get_spot_asset_info_body E self c).
Proof. intros Hself. unfold get_spot_asset_info_body. frame. apply Hself. Qed.

Lemma respects_get_spot_asset_info_at c : respects (get_spot_asset_info_at E c).
Proof.
  unfold get_spot_asset_info_at, spot_info_handler.
  apply respects_try; [|intros ?; frame].
  apply respects_get_spot_asset_info_body. intros x. frame.
Qed.

Lemma respects_get_spot_asset_info c : respects (get_spot_asset_info E c).
Proof.
  unfold get_spot_asset_info, spot_info_handler.
  apply respects_try; [|intros ?; frame].
  apply respects_get_spot_asset_info_body, respects_get_spot_asset_info_at.
Qed.

Lemma respects_resolve_asset_index l1 l2 c :
  respects (resolve_asset_index E l1 l2 c).
Proof. unfold resolve_asset_index. frame. Qed.

Lemma respects_read_place_result r : respects (read_place_result r).
Proof. unfold read_place_result. frame. Qed.

Lemma respects_read_cancel_result r : respects (read_cancel_result r).
Proof. unfold read_cancel_result. frame. Qed.

Lemma respects_place_follower_twap_order d :
  respects (place_follower_twap_order E d).
Proof.
  unfold place_follower_twap_order.
  repeat first [ apply respects_get_spot_asset_info
               | apply respects_resolve_asset_index
               | apply respects_read_place_result
               | frame_step ].
Qed.

Lemma respects_cancel_follower_twap_order i c :
  respects (cancel_follower_twap_order E i c).
Proof.
  unfold cancel_follower_twap_order.
  repeat first [ apply respects_resolve_asset_index
               | apply respects_read_cancel_result
               | frame_step ].
Qed.

(** With a relation that also survives writes to [twap_mappings], the
    handler and the processor loop keep it too. *)
Hypothesis P_set : forall m, respects (set_mappings m).

Lemma respects_handle_twap_event e : respects (handle_twap_event E e).
Proof.
  unfold handle_twap_event.
  repeat first [ apply respects_place_follower_twap_order
               | apply respects_cancel_follower_twap_order
               | apply P_set
               | frame_step ].
Qed.

Lemma respects_handle_leader_twap_events d :
  respects (handle_leader_twap_events E d).
Proof.
  unfold handle_leader_twap_events.
  repeat first [ apply respects_for_each; intros ?
               | apply respects_handle_twap_event
               | frame_step ].
Qed.

Lemma respects_process_message m : respects (process_message E m).
Proof.
  unfold process_message.
  repeat first [ apply respects_handle_leader_twap_events | frame_step ].
Qed.

Lemma respects_message_processor q : respects (message_processor E q).
Proof. apply respects_for_each, respects_process_message. Qed.

End Frame.

(** ** Three instances *)

Lemma same_calls_extend (st st' : state) : calls st' = calls st -> calls_extend st st'.
Proof. intros H. exists []. rewrite H. symmetry. apply app_nil_r. Qed.

Lemma calls_extend_refl (st : state) : calls_extend st st.
Proof. apply same_calls_extend. reflexivity. Qed.

Lemma calls_extend_trans (a b c : state) :
  calls_extend a b -> calls_extend b c -> calls_extend a c.
Proof.
  intros [n1 H1] [n2 H2]. exists (n1 ++ n2).
  rewrite H2, H1. symmetry. apply app_assoc.
Qed.

Lemma sign_and_post_extends a st : calls_extend st (snd (sign_and_post E a st)).
Proof.
  unfold sign_and_post.
  destruct (sign_l1_action E a (world st)); simpl.
  - destruct (post_action E a (world st)); simpl. eexists; reflexivity.
  - apply calls_extend_refl.
Qed.

Lemma sign_and_post_same_mappings a st :
  same_mappings st (snd (sign_and_post E a st)).
Proof.
  unfold sign_and_post, same_mappings.
  destruct (sign_l1_action E a (world st)); simpl; [|reflexivity].
  destruct (post_action E a (world st)); reflexivity.
Qed.

Lemma ask_same_mappings q (st : state) : same_mappings st (snd (ask q st)).
Proof. unfold ask, same_mappings. destruct (q (world st)); reflexivity. Qed.

Lemma ask_same_calls q (st : state) : same_calls st (snd (ask q st)).
Proof. unfold ask, same_calls. destruct (q (world st)); reflexivity. Qed.

Lemma ask_extends q (st : state) : calls_extend st (snd (ask q st)).
Proof. apply same_calls_extend, ask_same_calls. Qed.

Lemma same_mappings_refl (st : state) : same_mappings st st.
Proof. reflexivity. Qed.

Lemma same_mappings_trans (a b c : state) :
  same_mappings a b -> same_mappings b c -> same_mappings a c.
Proof. unfold same_mappings. congruence. Qed.

Lemma same_calls_refl (st : state) : same_calls st st.
Proof. reflexivity. Qed.

Lemma same_calls_trans (a b c : state) :
  same_calls a b -> same_calls b c -> same_calls a c.
Proof. unfold same_calls. congruence. Qed.

(** Placing and cancelling never write the mapping table. *)
Lemma place_same_mappings d st :
  twap_mappings (snd (place_follower_twap_order E d st)) = twap_mappings st.
Proof.
  apply (respects_place_follower_twap_order same_mappings).
  - apply same_mappings_refl.
  - apply same_mappings_trans.
  - intros l st0. reflexivity.
  - intros q st0. apply ask_same_mappings.
  - intros a st0. apply sign_and_post_same_mappings.
Qed.

Lemma cancel_same_mappings i c st :
  twap_mappings (snd (cancel_follower_twap_order E i c st)) = twap_mappings st.
Proof.
  apply (respects_cancel_follower_twap_order same_mappings).
  - apply same_mappings_refl.
  - apply same_mappings_trans.
  - intros l st0. reflexivity.
  - intros q st0. apply ask_same_mappings.
  - intros a st0. apply sign_and_post_same_mappings.
Qed.

(** Resolving an asset posts nothing. *)
Lemma get_spot_asset_info_same_calls c st :
  calls (snd (get_spot_asset_info E c st)) = calls st.
Proof.
  apply (respects_get_spot_asset_info same_calls).
  - apply same_calls_refl.
  - apply same_calls_trans.
  - intros l st0. reflexivity.
  - intros q st0. apply ask_same_calls.
Qed.

(** The processor only ever appends to the posted actions. *)
Lemma process_message_extends m st :
  calls_extend st (snd (process_message E m st)).
Proof.
  apply (respects_process_message calls_extend).
  - apply calls_extend_refl.
  - apply calls_extend_trans.
  - intros l st0. apply same_calls_extend. reflexivity.
  - intros q st0. apply ask_extends.
  - intros a st0. apply sign_and_post_extends.
  - intros m0 st0. apply same_calls_extend. reflexivity.
Qed.

(** ** Running the monad one step at a time *)

Lemma bind_lift {A B} (r : result A) (k : A -> M B) (st : state) :
  bind (lift r) k st =
  match r with
  | Ok a => k a st
  | Raise e => (Raise e, st)
  end.
Proof. unfold bind, lift. destruct r; reflexivity. Qed.

Lemma bind_print {B} (l : log_msg) (k : unit -> M B) (st : state) :
  bind (print l) k st =
  k tt (mkState (twap_mappings st) (calls st) (logs st ++ [l]) (world st)).
Proof. reflexivity. Qed.

Lemma bind_get_mappings {B} (k : gmap string json -> M B) (st : state) :
  bind get_mappings k st = k (twap_mappings st) st.
Proof. reflexivity. Qed.

Lemma bind_set_mappings {B} m (k : unit -> M B) (st : state) :
  bind (set_mappings m) k st =
  k tt (mkState m (calls st) (logs st) (world st)).
Proof. reflexivity. Qed.

Lemma bind_bind {A B} (m : M A) (k : A -> M B) (st : state) :
  bind m k st =
  match m st with
  | (Ok a, st') => k a st'
  | (Raise e, st') => (Raise e, st')
  end.
Proof. reflexivity. Qed.

(** What the handler reads from an event, named. *)
Lemma event_key_inv e k :
  event_key E e = Ok k ->
  exists state_ coin_field,
    py_get e "state" (JDict []) = Ok state_ /\
    py_get state_ "coin" (JStr "") = Ok coin_field /\
    twap_key_of E coin_field state_ = Ok k.
Proof.
  unfold event_key. intros H.
  destruct (py_get e "state" (JDict [])) as [state_|]; [|discriminate].
  destruct (py_get state_ "coin" (JStr "")) as [coin_field|] eqn:Hc;
    [|simpl in H; rewrite Hc in H; discriminate].
  exists state_, coin_field. simpl in H. rewrite Hc in H. auto.
Qed.

Lemma event_status_inv e s :
  event_status e = Ok s ->
  exists status_,
    py_get e "status" (JDict []) = Ok status_ /\
    py_get status_ "status" (JStr "unknown") = Ok s.
Proof.
  unfold event_status. intros H.
  destruct (py_get e "status" (JDict [])) as [status_|]; [|discriminate].
  exists status_. auto.
Qed.

(** ** The self-filter: an event whose key is in the table is skipped *)

Lemma handle_known_key e (st : state) k v :
  event_key E e = Ok k ->
  twap_mappings st !! k = Some v ->
  let st' := snd (handle_twap_event E e st) in
  calls st' = calls st /\ twap_mappings st' = twap_mappings st
  /\ world st' = world st.
Proof.
  intros Hk Hv.
  destruct (event_key_inv _ _ Hk) as (state_ & coin_field & Hs & Hc & Hkey).
  unfold handle_twap_event.
  rewrite bind_lift, Hs, bind_lift, Hc, bind_lift.
  destruct (is_spot_order E coin_field) as [[|]|]; cbn [negb]; auto.
  rewrite bind_lift, Hkey, bind_lift.
  destruct (py_get e "status" (JDict [])) as [status_|]; [|auto].
  rewrite bind_lift.
  destruct (py_get status_ "status" (JStr "unknown")) as [twap_status|]; [|auto].
  rewrite bind_lift.
  destruct (as_str twap_status) as [shown|]; [|auto].
  rewrite bind_print, bind_get_mappings. cbn [twap_mappings].
  rewrite Hv, bool_decide_eq_true_2 by eauto.
  cbn. auto.
Qed.

(** ** Events that are not spot *)

Lemma handle_not_spot e (st : state) coin_field :
  event_coin e = Ok coin_field ->
  is_spot_order E coin_field = Ok false ->
  handle_twap_event E e st = (Ok tt, st).
Proof.
  unfold event_coin, handle_twap_event. intros Hc Hspot.
  destruct (py_get e "state" (JDict [])) as [state_|]; [|discriminate].
  simpl in Hc. rewrite bind_lift, bind_lift, Hc, bind_lift, Hspot.
  reflexivity.
Qed.

(** [is_spot_order] on a string, in one formula. *)
Lemma is_spot_order_str c :
  is_spot_order E (JStr c) =
  Ok (negb (String.eqb c "") && negb (String.eqb c "N/A") &&
      (if startswith "@" c then
         match py_int E (str_tail c) with
         | Some i => negb (i <? 0)
         | None => false
         end
       else str_contains "/" c)).
Proof.
  unfold is_spot_order, detect_market_type. cbn [py_truthy py_eq_str as_str rbind].
  destruct (String.eqb c ""); cbn [negb orb andb]; [reflexivity|].
  destruct (String.eqb c "N/A"); cbn [negb orb andb]; [reflexivity|].
  destruct (startswith "@" c); cbn [rbind as_str].
  - destruct (py_int E (str_tail c)) as [i|]; [|reflexivity].
    destruct (i <? 0); reflexivity.
  - destruct (str_contains "/" c); reflexivity.
Qed.

(** ** Terminal events for a key the table does not hold *)

Lemma handle_terminal_unknown e (st : state) k s :
  event_key E e = Ok k ->
  event_status e = Ok (JStr s) ->
  s = "canceled" \/ s = "terminated" ->
  twap_mappings st !! k = None ->
  let st' := snd (handle_twap_event E e st) in
  calls st' = calls st /\ twap_mappings st' = twap_mappings st
  /\ world st' = world st.
Proof.
  intros Hk Hstatus Hs Hv.
  destruct (event_key_inv _ _ Hk) as (state_ & coin_field & Hst & Hc & Hkey).
  destruct (event_status_inv _ _ Hstatus) as (status_ & Hs1 & Hs2).
  unfold handle_twap_event.
  rewrite bind_lift, Hst, bind_lift, Hc, bind_lift.
  destruct (is_spot_order E coin_field) as [[|]|]; cbn [negb]; auto.
  rewrite bind_lift, Hkey, bind_lift, Hs1, bind_lift, Hs2, bind_lift.
  cbn [as_str]. rewrite bind_print, bind_get_mappings. cbn [twap_mappings].
  rewrite Hv, bool_decide_eq_false_2 by (intros [? ?]; discriminate).
  destruct Hs as [-> | ->]; cbn [py_eq_str String.eqb Ascii.eqb Bool.eqb orb];
    rewrite bind_get_mappings; cbn [twap_mappings]; rewrite Hv; cbn; auto.
Qed.

(** ** What one event can do to the mapping table *)

(** One event either leaves [twap_mappings] as it is or binds its own key,
    which the table did not hold. *)
Lemma handle_mappings_cases e (st : state) :
  let st' := snd (handle_twap_event E e st) in
  twap_mappings st' = twap_mappings st \/
  exists k id,
    event_key E e = Ok k /\ twap_mappings st !! k = None /\
    twap_mappings st' = <[k := id]> (twap_mappings st).
Proof.
  unfold handle_twap_event, event_key.
  rewrite bind_lift.
  destruct (py_get e "state" (JDict [])) as [state_|]; [|left; reflexivity].
  rewrite bind_lift. cbn [rbind].
  destruct (py_get state_ "coin" (JStr "")) as [coin_field|];
    [|left; reflexivity].
  rewrite bind_lift. cbn [rbind].
  destruct (is_spot_order E coin_field) as [[|]|]; cbn [negb];
    try (left; reflexivity).
  rewrite bind_lift.
  destruct (twap_key_of E coin_field state_) as [k|]; [|left; reflexivity].
  rewrite bind_lift.
  destruct (py_get e "status" (JDict [])) as [status_|]; [|left; reflexivity].
  rewrite bind_lift.
  destruct (py_get status_ "status" (JStr "unknown")) as [twap_status|];
    [|left; reflexivity].
  rewrite bind_lift.
  destruct (as_str twap_status) as [shown|]; [|left; reflexivity].
  rewrite bind_print, bind_get_mappings. cbn [twap_mappings].
  destruct (twap_mappings st !! k) as [v|] eqn:Hv.
  - rewrite bool_decide_eq_true_2 by eauto. left. reflexivity.
  - rewrite bool_decide_eq_false_2 by (intros [? ?]; discriminate).
    set (st1 := mkState (twap_mappings st) (calls st)
                  (logs st ++ [LogLeaderTwap shown k]) (world st)).
    destruct (py_eq_str twap_status "activated").
    + unfold try_except. rewrite bind_bind.
      pose proof (place_same_mappings e st1) as Hplace.
      destruct (place_follower_twap_order E e st1) as [[id|ex] st2];
        cbn [snd] in Hplace; [|left; exact Hplace].
      destruct (py_truthy id); [|left; exact Hplace].
      rewrite bind_get_mappings, bind_set_mappings. cbn.
      right. exists k, id. rewrite Hplace. auto.
    + destruct (py_eq_str twap_status "canceled"
                || py_eq_str twap_status "terminated"); [|left; reflexivity].
      rewrite bind_get_mappings. subst st1. cbn [twap_mappings].
      rewrite Hv. left. reflexivity.
Qed.

(** ** An activation for a key the table does not hold *)

Lemma py_get_dict d k x v :
  py_get d k x = Ok v -> exists kvs, d = JDict kvs.
Proof. destruct d; try discriminate. eauto. Qed.

(** The handler prints the leader line, calls
    [place_follower_twap_order], and binds the key when the id it gets is
    true in a condition. *)
Lemma handle_activated_unknown e (st : state) k coin_field :
  event_key E e = Ok k ->
  event_coin e = Ok coin_field ->
  is_spot_order E coin_field = Ok true ->
  event_status e = Ok (JStr "activated") ->
  twap_mappings st !! k = None ->
  handle_twap_event E e st =
  let st1 := mkState (twap_mappings st) (calls st)
               (logs st ++ [LogLeaderTwap "activated" k]) (world st) in
  match place_follower_twap_order E e st1 with
  | (Ok follower_twap_id, st2) =>
      if py_truthy follower_twap_id then
        (Ok tt,
         mkState (<[k := follower_twap_id]> (twap_mappings st2)) (calls st2)
           (logs st2 ++ [LogMapped k follower_twap_id]) (world st2))
      else (Ok tt, st2)
  | (Raise _, st2) =>
      (Ok tt,
       mkState (twap_mappings st2) (calls st2)
         (logs st2 ++ [LogMirrorError k]) (world st2))
  end.
Proof.
  intros Hk Hcoin Hspot Hstatus Hv.
  destruct (event_key_inv _ _ Hk) as (state_ & coin' & Hst & Hc & Hkey).
  destruct (event_status_inv _ _ Hstatus) as (status_ & Hs1 & Hs2).
  unfold event_coin in Hcoin. rewrite Hst in Hcoin. cbn [rbind] in Hcoin.
  assert (coin' = coin_field) as -> by congruence.
  unfold handle_twap_event.
  rewrite bind_lift, Hst, bind_lift, Hc, bind_lift, Hspot. cbn [negb].
  rewrite bind_lift, Hkey, bind_lift, Hs1, bind_lift, Hs2, bind_lift.
  cbn [as_str]. rewrite bind_print, bind_get_mappings. cbn [twap_mappings].
  rewrite Hv, bool_decide_eq_false_2 by (intros [? ?]; discriminate).
  cbn [py_eq_str String.eqb Ascii.eqb Bool.eqb].
  unfold try_except. rewrite bind_bind. cbv zeta.
  destruct (place_follower_twap_order E e _) as [[id|ex] st2]; [|reflexivity].
  destruct (py_truthy id); reflexivity.
Qed.

(** The size the script computes from an asset info. *)
Abbreviation computed_size info :=
  (follower_size (price info) (szDecimals info)).

(** [place_follower_twap_order] up to the size check, once the asset info
    is there. *)
Lemma place_sizing e (st st2 : state) state_ coin_field info :
  py_get e "state" (JDict []) = Ok state_ ->
  py_get state_ "coin" (JStr "") = Ok coin_field ->
  is_spot_order E coin_field = Ok true ->
  get_spot_asset_info E coin_field st = (Ok (Some info), st2) ->
  forall size,
    computed_size info = Ok size ->
    pynum_le0 size = true ->
    place_follower_twap_order E e st =
    (Ok JNull,
     mkState (twap_mappings st2) (calls st2) (logs st2 ++ [LogInvalidSize])
       (world st2)).
Proof.
  intros Hst Hc Hspot Hinfo size Hsize Hle.
  destruct (py_get_dict _ _ _ _ Hc) as [kvs ->].
  unfold place_follower_twap_order, try_except.
  rewrite bind_lift, Hst. cbn [py_get]. rewrite !bind_lift.
  cbn [py_get] in Hc. injection Hc as Hc. rewrite Hc, Hspot. cbn [negb].
  rewrite bind_bind, Hinfo. unfold follower_size in Hsize.
  destruct (py_div FIXED_ORDER_VALUE_USDC (price info)) as [q|];
    [|discriminate].
  cbn [rbind] in Hsize. rewrite !bind_lift, Hsize, Hle. reflexivity.
Qed.

(** ** Every posted order carries the computed size *)

Lemma resolve_asset_index_same_calls l1 l2 c (st : state) :
  calls (snd (resolve_asset_index E l1 l2 c st)) = calls st.
Proof.
  apply (respects_resolve_asset_index same_calls).
  - apply same_calls_refl.
  - apply same_calls_trans.
  - intros l st0. reflexivity.
  - intros q st0. apply ask_same_calls.
Qed.

Lemma read_place_result_same_calls r (st : state) :
  calls (snd (read_place_result r st)) = calls st.
Proof.
  apply (respects_read_place_result same_calls).
  - apply same_calls_refl.
  - apply same_calls_trans.
  - intros l st0. reflexivity.
Qed.

Lemma get_spot_asset_info_same_mappings c (st : state) :
  twap_mappings (snd (get_spot_asset_info E c st)) = twap_mappings st.
Proof.
  apply (respects_get_spot_asset_info same_mappings).
  - apply same_mappings_refl.
  - apply same_mappings_trans.
  - intros l st0. reflexivity.
  - intros q st0. apply ask_same_mappings.
Qed.

Lemma place_calls_cases e (st : state) :
  let st' := snd (place_follower_twap_order E e st) in
  calls st' = calls st \/
  exists coin_field info st2 size wire a b r m t,
    event_coin e = Ok coin_field /\
    get_spot_asset_info E coin_field st = (Ok (Some info), st2) /\
    computed_size info = Ok size /\
    pynum_le0 size = false /\
    float_to_wire E size = Ok wire /\
    calls st' = calls st ++ [TwapOrder a b wire r m t].
Proof.
  unfold place_follower_twap_order, try_except, event_coin.
  rewrite bind_lift.
  destruct (py_get e "state" (JDict [])) as [state_|]; [|left; reflexivity].
  destruct state_ as [| | | | | |kvs]; try (left; reflexivity).
  cbn [py_get rbind]. rewrite !bind_lift.
  destruct (is_spot_order E _) as [[|]|]; cbn [negb]; try (left; reflexivity).
  rewrite bind_bind.
  pose proof (get_spot_asset_info_same_calls
                (default (JStr "") (assoc "coin" kvs)) st) as Hinfo.
  destruct (get_spot_asset_info E _ st) as [[[info|]|ex] st2] eqn:Hget;
    cbn [snd] in Hinfo; try (left; exact Hinfo).
  rewrite bind_lift.
  destruct (py_div FIXED_ORDER_VALUE_USDC (price info)) as [q|] eqn:Hq;
    [|left; exact Hinfo].
  rewrite bind_lift.
  destruct (py_round q (szDecimals info)) as [size|] eqn:Hround;
    [|left; exact Hinfo].
  destruct (pynum_le0 size) eqn:Hle; [left; exact Hinfo|].
  rewrite bind_print, bind_bind.
  set (st3 := mkState (twap_mappings st2) (calls st2) _ (world st2)).
  pose proof (resolve_asset_index_same_calls LogNoAssetIndex
                LogUnsupportedTwapFormat
                (default (JStr "") (assoc "coin" kvs)) st3) as Hres.
  destruct (resolve_asset_index E _ _ _ st3) as [[[asset_index|]|ex] st4];
    cbn [snd] in Hres; subst st3; cbn [calls] in Hres;
    try (left; cbn; congruence).
  rewrite bind_lift.
  destruct (py_add_int 10000 asset_index) as [a|];
    [|left; cbn; congruence].
  rewrite bind_lift.
  destruct (float_to_wire E size) as [wire|] eqn:Hwire;
    [|left; cbn; congruence].
  rewrite bind_bind. unfold sign_and_post.
  destruct (sign_l1_action E _ (world st4)); [|left; cbn; congruence].
  destruct (post_action E _ (world st4)) as [[resp|ex] w'].
  - right.
    exists (default (JStr "") (assoc "coin" kvs)), info, st2, size, wire.
    do 5 eexists. repeat split; try eassumption.
    + unfold follower_size. rewrite Hq. exact Hround.
    + match goal with
      | |- context [read_place_result resp ?s] =>
          pose proof (read_place_result_same_calls resp s) as Hrd;
          destruct (read_place_result resp s) as [[id|ex] st6]
      end; cbn in Hrd |- *; rewrite Hrd, Hres, Hinfo; reflexivity.
  - right.
    exists (default (JStr "") (assoc "coin" kvs)), info, st2, size, wire.
    do 5 eexists. repeat split; try eassumption.
    + unfold follower_size. rewrite Hq. exact Hround.
    + cbn. rewrite Hres, Hinfo. reflexivity.
Qed.

(** ** A placement on an ["@index"] name that the venue accepts *)



(** ** A reference price that is not positive *)

Lemma bind_ask {B} q (k : json -> M B) (st : state) v w' :
  q (world st) = (Ok v, w') ->
  bind (ask q) k st =
  k v (mkState (twap_mappings st) (calls st) (logs st) w').
Proof. intros H. unfold bind, ask. rewrite H. reflexivity. Qed.

Lemma no_price_body self c p w' (st : state) :
  index_price E (world st) c p w' ->
  PrimFloat.ltb 0 p = false ->
  get_spot_asset_info_body E self (JStr c) st =
  (Ok None,
   mkState (twap_mappings st) (calls st) (logs st ++ [LogNoSpotPrice]) w').
Proof.
  intros [spot_data spot_meta_ asset_ctxs n i nctxs ctx
            Hat Hdata Hn Hn2 Hmeta Hctxs Hi Hnc Hlt Hctx Hp] Hpos.
  unfold get_spot_asset_info_body.
  rewrite bind_lift. cbn [as_str]. rewrite Hat.
  rewrite (bind_ask _ _ _ _ _ Hdata), bind_lift, Hn.
  replace (2 <=? n) with true by (symmetry; apply Z.leb_le; exact Hn2).
  rewrite bind_lift, Hmeta, bind_lift, Hctxs, bind_lift, Hi, bind_lift, Hnc.
  replace (i <? nctxs) with true by (symmetry; apply Z.ltb_lt; exact Hlt).
  rewrite bind_lift, Hctx, bind_lift, Hp, Hpos.
  reflexivity.
Qed.

Lemma no_price_at c p w' (st : state) :
  index_price E (world st) c p w' ->
  PrimFloat.ltb 0 p = false ->
  get_spot_asset_info_at E (JStr c) st =
  (Ok None,
   mkState (twap_mappings st) (calls st) (logs st ++ [LogNoSpotPrice]) w').
Proof.
  intros Hprice Hpos. unfold get_spot_asset_info_at, try_except.
  rewrite (no_price_body _ _ _ _ _ Hprice Hpos). reflexivity.
Qed.

(** With a reference price that is not positive the lookup prints that
    there is no spot price and returns [None]. *)
Lemma no_price_info c p w' (st : state) :
  reference_price E (world st) c p w' ->
  PrimFloat.ltb 0 p = false ->
  get_spot_asset_info E (JStr c) st =
  (Ok None,
   mkState (twap_mappings st) (calls st) (logs st ++ [LogNoSpotPrice]) w').
Proof.
  intros [Hprice | meta universe pairs pair_info pair_index w1
                     Hat Hslash Hmeta Huni Hpairs Hfind Hidx Hprice] Hpos;
    unfold get_spot_asset_info, try_except.
  - rewrite (no_price_body _ _ _ _ _ Hprice Hpos). reflexivity.
  - unfold get_spot_asset_info_body.
    rewrite bind_lift. cbn [as_str]. rewrite Hat, Hslash.
    rewrite (bind_ask _ _ _ _ _ Hmeta), bind_lift, Huni, bind_lift, Hpairs.
    rewrite bind_lift, Hfind, bind_lift, Hidx.
    rewrite no_price_at with (p := p) (w' := w') by assumption.
    reflexivity.
Qed.

(** ** Frames *)

(** A [user] frame with one event runs the loop body once. *)
Lemma single_event_frame e (st : state) :
  handle_leader_twap_events E (user_frame [e]) st = handle_twap_event E e st.
Proof.
  unfold handle_leader_twap_events, user_frame.
  rewrite bind_lift. cbn [py_get assoc String.eqb Ascii.eqb Bool.eqb default
                            from_option id py_eq_str].
  rewrite !bind_lift. cbn [py_get assoc String.eqb Ascii.eqb Bool.eqb
                             from_option id py_iter for_each].
  rewrite bind_lift. cbn [for_each]. rewrite bind_bind.
  destruct (handle_twap_event E e st) as [[[]|ex] st']; reflexivity.
Qed.

Lemma for_each_keeps {A} (Q : state -> Prop) (f : A -> M unit) l :
  (forall x st, Q st -> Q (snd (f x st))) ->
  forall st, Q st -> Q (snd (for_each f l st)).
Proof.
  intros Hf. induction l as [|x rest IH]; intros st HQ; [exact HQ|].
  cbn [for_each]. rewrite bind_bind.
  specialize (Hf x st HQ).
  destruct (f x st) as [[[]|ex] st1]; cbn [snd] in *; [apply IH|]; exact Hf.
Qed.

(** Whatever the frame, the handler changes the state only through its
    loop body. *)
Lemma handle_frame_keeps (Q : state -> Prop) data :
  (forall e st, Q st -> Q (snd (handle_twap_event E e st))) ->
  (forall l st, Q st -> Q (snd (print l st))) ->
  forall st, Q st -> Q (snd (handle_leader_twap_events E data st)).
Proof.
  intros Hbody Hprint st HQ. unfold handle_leader_twap_events.
  rewrite bind_lift.
  destruct (py_get data "channel" JNull) as [channel|]; [|exact HQ].
  destruct (py_eq_str channel "user").
  - rewrite bind_lift.
    destruct (py_get data "data" (JDict [])) as [user_data|]; [|exact HQ].
    rewrite bind_lift.
    destruct (py_get user_data "twapHistory" (JList [])) as [history|];
      [|exact HQ].
    rewrite bind_lift.
    destruct (py_iter history) as [events|]; [|exact HQ].
    apply for_each_keeps; assumption.
  - destruct (py_eq_str channel "subscriptionResponse"); [|exact HQ].
    apply Hprint, HQ.
Qed.

(** ** The claims about single events *)

(** C2: for every [activated] event whose key is already in
    [twap_mappings], handling the event posts no action, neither an order
    nor a cancel, and leaves [twap_mappings] as it was. *)
Theorem activated_known_key_is_skipped e (st : state) k v :
  event_key E e = Ok k ->
  event_status e = Ok (JStr "activated") ->
  twap_mappings st !! k = Some v ->
  let st' := snd (handle_leader_twap_events E (user_frame [e]) st) in
  calls st' = calls st /\ twap_mappings st' = twap_mappings st.
Proof.
  intros Hk _ Hv. cbv zeta. rewrite single_event_frame.
  destruct (handle_known_key e st k v Hk Hv) as (Hc & Hm & _). auto.
Qed.

Lemma not_spot_is_spot_order c :
  not_spot E c -> is_spot_order E (JStr c) = Ok false.
Proof.
  intros Hns. rewrite is_spot_order_str. f_equal.
  destruct (String.eqb c ""); [reflexivity|].
  destruct (String.eqb c "N/A"); [reflexivity|]. cbn [negb andb].
  assert (~ index_reference E c) as Hidx by (destruct Hns as [[? _]|[_ ?]]; auto).
  destruct (startswith "@" c) eqn:Hat.
  - destruct (py_int E (str_tail c)) as [i|] eqn:Hi; [|reflexivity].
    destruct (i <? 0) eqn:Hneg; [reflexivity|].
    exfalso. apply Hidx. split; [exact Hat|].
    exists i. split; [exact Hi|]. apply Z.ltb_ge. exact Hneg.
  - destruct Hns as [[_ Hpair]|[Hat' _]]; [|congruence].
    unfold pair_name in Hpair. destruct (str_contains "/" c); congruence.
Qed.

(** C6: for every event whose instrument identifier is not spot (neither
    ["@"] followed by a non-negative integer nor a slash-separated pair
    name, a malformed index reference included), handling the event posts
    no action and leaves [twap_mappings], and indeed the whole state,
    unchanged. *)
Theorem not_spot_is_ignored e (st : state) c :
  event_coin e = Ok (JStr c) ->
  not_spot E c ->
  handle_leader_twap_events E (user_frame [e]) st = (Ok tt, st).
Proof.
  intros Hc Hns. rewrite single_event_frame.
  apply handle_not_spot with (coin_field := JStr c); [exact Hc|].
  apply not_spot_is_spot_order, Hns.
Qed.

(** C9: a [terminated] event whose key is not in [twap_mappings] posts no
    action and leaves the table and the world as they were, and so does
    the same event handled a second time. *)
Theorem terminated_unknown_key_is_noop e (st : state) k :
  event_key E e = Ok k ->
  event_status e = Ok (JStr "terminated") ->
  twap_mappings st !! k = None ->
  let st1 := snd (handle_leader_twap_events E (user_frame [e]) st) in
  let st2 := snd (handle_leader_twap_events E (user_frame [e]) st1) in
  (calls st1 = calls st /\ twap_mappings st1 = twap_mappings st
   /\ world st1 = world st) /\
  (calls st2 = calls st /\ twap_mappings st2 = twap_mappings st
   /\ world st2 = world st).
Proof.
  intros Hk Hs Hv. cbv zeta. rewrite !single_event_frame.
  destruct (handle_terminal_unknown e st k "terminated" Hk Hs
              (or_intror eq_refl) Hv) as (Hc1 & Hm1 & Hw1).
  split; [auto|].
  set (st1 := snd (handle_twap_event E e st)) in *.
  assert (twap_mappings st1 !! k = None) as Hv1 by (rewrite Hm1; exact Hv).
  destruct (handle_terminal_unknown e st1 k "terminated" Hk Hs
              (or_intror eq_refl) Hv1) as (Hc2 & Hm2 & Hw2).
  repeat split; congruence.
Qed.

Lemma handle_twap_event_keeps e (st : state) k v :
  twap_mappings st !! k = Some v ->
  twap_mappings (snd (handle_twap_event E e st)) !! k = Some v.
Proof.
  intros Hv.
  destruct (handle_mappings_cases e st) as [Heq|(k' & id & _ & Hnone & Heq)];
    rewrite Heq; [exact Hv|].
  rewrite lookup_insert_ne; [exact Hv|]. congruence.
Qed.

(** C10: for every key [k] bound to [v] in [twap_mappings], handling any
    frame never rebinds [k]: afterwards [k] is still bound to [v] or is
    absent, and never bound to anything else. *)
Theorem binding_is_write_once data (st : state) k v :
  twap_mappings st !! k = Some v ->
  let st' := snd (handle_leader_twap_events E data st) in
  (twap_mappings st' !! k = Some v \/ twap_mappings st' !! k = None) /\
  forall v', twap_mappings st' !! k = Some v' -> v' = v.
Proof.
  intros Hv. cbv zeta.
  assert (twap_mappings (snd (handle_leader_twap_events E data st)) !! k
          = Some v) as Hkept.
  { apply (handle_frame_keeps (fun s => twap_mappings s !! k = Some v)).
    - intros e s. apply handle_twap_event_keeps.
    - intros l s H. exact H.
    - exact Hv. }
  split; [left; exact Hkept|]. intros v' Hv'. congruence.
Qed.

(** ** The claims about placing *)

Lemma event_coin_inv e coin_field :
  event_coin e = Ok coin_field ->
  exists kvs,
    py_get e "state" (JDict []) = Ok (JDict kvs) /\
    default (JStr "") (assoc "coin" kvs) = coin_field.
Proof.
  unfold event_coin. intros H.
  destruct (py_get e "state" (JDict [])) as [state_|]; [|discriminate].
  cbn [rbind] in H. destruct (py_get_dict _ _ _ _ H) as [kvs ->].
  exists kvs. cbn [py_get] in H. split; congruence.
Qed.


Lemma place_no_info e (st st2 : state) coin_field :
  event_coin e = Ok coin_field ->
  is_spot_order E coin_field = Ok true ->
  get_spot_asset_info E coin_field st = (Ok None, st2) ->
  place_follower_twap_order E e st =
  (Ok JNull,
   mkState (twap_mappings st2) (calls st2) (logs st2 ++ [LogNoAssetInfo])
     (world st2)).
Proof.
  intros Hc Hspot Hinfo.
  destruct (event_coin_inv _ _ Hc) as (kvs & Hst & Hd).
  unfold place_follower_twap_order, try_except.
  rewrite bind_lift, Hst. cbn [py_get]. rewrite !bind_lift.
  rewrite Hd, Hspot. cbn [negb]. rewrite bind_bind, Hinfo. reflexivity.
Qed.

Lemma size_at_4_2 : follower_size 4 (JInt 2) = Ok (PFloat 5).
Proof. vm_compute. reflexivity. Qed.


(** ** An order that goes out carries the computed size *)

Lemma place_posts_sized_order
    e (st st2 st4 : state) kvs coin_field info size asset_index a wire :
  py_get e "state" (JDict []) = Ok (JDict kvs) ->
  default (JStr "") (assoc "coin" kvs) = coin_field ->
  is_spot_order E coin_field = Ok true ->
  get_spot_asset_info E coin_field st = (Ok (Some info), st2) ->
  computed_size info = Ok size ->
  pynum_le0 size = false ->
  resolve_asset_index E LogNoAssetIndex LogUnsupportedTwapFormat coin_field
    (mkState (twap_mappings st2) (calls st2)
       (logs st2
        ++ [LogPlacing (py_eq_str (default JNull (assoc "side" kvs)) "B")
              size (default (JInt 1) (assoc "minutes" kvs))])
       (world st2))
  = (Ok (Some asset_index), st4) ->
  py_add_int 10000 asset_index = Ok a ->
  float_to_wire E size = Ok wire ->
  sign_l1_action E (order_for kvs a wire) (world st4) = Ok tt ->
  calls (snd (place_follower_twap_order E e st))
  = calls st ++ [order_for kvs a wire].
Proof.
  intros Hst Hd Hspot Hinfo Hsize Hle Hres Hadd Hwire Hsign.
  pose proof (get_spot_asset_info_same_calls coin_field st) as Hc2.
  rewrite Hinfo in Hc2. cbn [snd] in Hc2.
  match type of Hres with
  | resolve_asset_index _ _ _ _ ?s = _ =>
      pose proof (resolve_asset_index_same_calls LogNoAssetIndex
                    LogUnsupportedTwapFormat coin_field s) as Hc4
  end.
  rewrite Hres in Hc4. cbn [snd calls] in Hc4.
  unfold order_for in Hsign |- *.
  unfold place_follower_twap_order, try_except.
  rewrite bind_lift, Hst. cbn [py_get]. rewrite !bind_lift.
  rewrite Hd, Hspot. cbn [negb].
  rewrite bind_bind, Hinfo. unfold follower_size in Hsize.
  destruct (py_div FIXED_ORDER_VALUE_USDC (price info)) as [q|];
    [|discriminate].
  cbn [rbind] in Hsize. rewrite !bind_lift, Hsize, Hle.
  rewrite bind_print, bind_bind, Hres.
  rewrite bind_lift, Hadd, bind_lift, Hwire, bind_bind.
  unfold sign_and_post. rewrite Hsign.
  destruct (post_action E _ (world st4)) as [[resp|ex] w'].
  - match goal with
    | |- context [read_place_result resp ?s] =>
        pose proof (read_place_result_same_calls resp s) as Hrd;
        destruct (read_place_result resp s) as [[id|ex] st6]
    end; cbn in Hrd |- *; rewrite Hrd, Hc4, Hc2; reflexivity.
  - cbn. rewrite Hc4, Hc2. reflexivity.
Qed.

(** C4: for every activation that reaches sizing (the key is not in the
    table and the asset lookup gave an asset info), with [size] the value
    of [round(20 / price, szDecimals)]: whatever the handler posts is one
    [twapOrder] whose size field is the wire form of [size]; when [size]
    is positive and the asset index is found, the wire form is there and
    the signature is made, the handler does post that order; when [size]
    is [<= 0] the handler prints that the size is invalid and stops
    there, with nothing posted and the table unchanged; and a price of 4.0
    with 2 decimals makes [size] 5.0. *)
Theorem follower_size_is_rounded_notional
    e (st st2 : state) k kvs coin_field info size :
  py_get e "state" (JDict []) = Ok (JDict kvs) ->
  default (JStr "") (assoc "coin" kvs) = coin_field ->
  event_key E e = Ok k ->
  is_spot_order E coin_field = Ok true ->
  event_status e = Ok (JStr "activated") ->
  twap_mappings st !! k = None ->
  get_spot_asset_info E coin_field
    (mkState (twap_mappings st) (calls st)
       (logs st ++ [LogLeaderTwap "activated" k]) (world st))
  = (Ok (Some info), st2) ->
  follower_size (price info) (szDecimals info) = Ok size ->
  (forall new,
     calls (snd (handle_leader_twap_events E (user_frame [e]) st))
     = calls st ++ new ->
     new = [] \/
     exists wire a b r m t,
       pynum_le0 size = false /\
       float_to_wire E size = Ok wire /\
       new = [TwapOrder a b wire r m t]) /\
  (pynum_le0 size = false ->
   forall asset_index st4 a wire,
     resolve_asset_index E LogNoAssetIndex LogUnsupportedTwapFormat
       coin_field
       (mkState (twap_mappings st2) (calls st2)
          (logs st2
           ++ [LogPlacing (py_eq_str (default JNull (assoc "side" kvs)) "B")
                 size (default (JInt 1) (assoc "minutes" kvs))])
          (world st2))
     = (Ok (Some asset_index), st4) ->
     py_add_int 10000 asset_index = Ok a ->
     float_to_wire E size = Ok wire ->
     sign_l1_action E (order_for kvs a wire) (world st4) = Ok tt ->
     calls (snd (handle_leader_twap_events E (user_frame [e]) st))
     = calls st ++ [order_for kvs a wire]) /\
  (pynum_le0 size = true ->
   handle_leader_twap_events E (user_frame [e]) st =
   (Ok tt,
    mkState (twap_mappings st) (calls st) (logs st2 ++ [LogInvalidSize])
      (world st2))) /\
  (price info = 4%float -> szDecimals info = JInt 2 -> size = PFloat 5).
Proof.
  intros Hst Hd Hk Hspot Hstatus Hv Hinfo Hsize.
  assert (event_coin e = Ok coin_field) as Hc.
  { unfold event_coin. rewrite Hst. cbn [rbind py_get]. congruence. }
  rewrite single_event_frame.
  rewrite (handle_activated_unknown e st k coin_field Hk Hc Hspot Hstatus Hv).
  cbv zeta.
  set (st1 := mkState (twap_mappings st) (calls st)
                (logs st ++ [LogLeaderTwap "activated" k]) (world st)) in *.
  pose proof (get_spot_asset_info_same_calls coin_field st1) as Hcalls.
  pose proof (get_spot_asset_info_same_mappings coin_field st1) as Hmaps.
  rewrite Hinfo in Hcalls, Hmaps. cbn [snd] in Hcalls, Hmaps.
  assert (forall r : result json * state,
            calls (snd (match r with
                        | (Ok id, s2) =>
                            if py_truthy id then
                              (Ok tt,
                               mkState (<[k := id]> (twap_mappings s2))
                                 (calls s2) (logs s2 ++ [LogMapped k id])
                                 (world s2))
                            else (Ok tt, s2)
                        | (Raise _, s2) =>
                            (Ok tt,
                             mkState (twap_mappings s2) (calls s2)
                               (logs s2 ++ [LogMirrorError k]) (world s2))
                        end))
            = calls (snd r)) as Hsame.
  { intros [[id|ex] s2]; [destruct (py_truthy id)|]; reflexivity. }
  split; [|split; [|split]].
  - intros new Hnew. rewrite Hsame in Hnew.
    pose proof (place_calls_cases e st1) as Hcases. cbv zeta in Hcases.
    destruct Hcases as [Hkeep|(c' & info' & st2' & size' & wire & a & b & r
                                & m & t & Hc' & Hinfo' & Hsize' & Hle & Hwire
                                & Hposted)].
    + left. rewrite Hkeep in Hnew. subst st1. cbn [calls] in Hnew.
      rewrite <- (app_nil_r (calls st)) in Hnew at 1.
      apply app_inv_head in Hnew. congruence.
    + right. assert (c' = coin_field) as -> by congruence.
      rewrite Hinfo in Hinfo'. injection Hinfo' as <- _.
      assert (size' = size) as -> by congruence.
      exists wire, a, b, r, m, t. repeat split; try assumption.
      rewrite Hposted in Hnew. subst st1. cbn [calls] in Hnew.
      apply app_inv_head in Hnew. congruence.
  - intros Hle asset_index st4 a wire Hres Hadd Hwire Hsign.
    rewrite Hsame.
    rewrite (place_posts_sized_order e st1 st2 st4 kvs coin_field info size
               asset_index a wire Hst Hd Hspot Hinfo Hsize Hle Hres Hadd
               Hwire Hsign).
    reflexivity.
  - intros Hle.
    rewrite (place_sizing e st1 st2 (JDict kvs) coin_field info Hst
               (f_equal Ok Hd) Hspot Hinfo size Hsize Hle).
    cbn [py_truthy]. rewrite Hcalls, Hmaps. reflexivity.
  - intros Hp Hdec. rewrite Hp, Hdec, size_at_4_2 in Hsize. congruence.
Qed.

(** C5, as the code has it: for every [activated] spot event whose key is
    not in the table and whose reference price is not a positive number,
    the activation is given up where the asset is resolved, before any
    size is computed: the lookup prints that there is no spot price, the
    placement prints that it could not get the asset info, no action is
    posted and no mapping is made. *)
Theorem nonpositive_price_abandons_at_resolution
    e (st : state) k c p w' :
  event_key E e = Ok k ->
  event_coin e = Ok (JStr c) ->
  is_spot_order E (JStr c) = Ok true ->
  event_status e = Ok (JStr "activated") ->
  twap_mappings st !! k = None ->
  reference_price E (world st) c p w' ->
  PrimFloat.ltb 0 p = false ->
  handle_leader_twap_events E (user_frame [e]) st =
  (Ok tt,
   mkState (twap_mappings st) (calls st)
     (logs st
      ++ [LogLeaderTwap "activated" k; LogNoSpotPrice; LogNoAssetInfo])
     w').
Proof.
  intros Hk Hc Hspot Hstatus Hv Hprice Hpos.
  rewrite single_event_frame.
  rewrite (handle_activated_unknown e st k (JStr c) Hk Hc Hspot Hstatus Hv).
  cbv zeta.
  erewrite place_no_info; [| exact Hc | exact Hspot
                           | apply no_price_info with (p := p); eassumption].
  cbn [py_truthy twap_mappings calls logs world].
  rewrite <- !app_assoc. reflexivity.
Qed.

(** ** Sizing is reached with a positive price only *)

Lemma returns_ret {A} (Q : A -> Prop) (a : A) : Q a -> returns Q (@ret World A a).
Proof. intros HQ st a' st' H. injection H as <- _. exact HQ. Qed.

Lemma returns_bind {A B} (Q : B -> Prop) (m : @M World A) (k : A -> M B) :
  (forall a, returns Q (k a)) -> returns Q (bind m k).
Proof.
  intros Hk st b st' H. rewrite bind_bind in H.
  destruct (m st) as [[a|ex] st1]; [|discriminate].
  eapply Hk, H.
Qed.

Lemma returns_try {A} (Q : A -> Prop) (m : @M World A) (h : exn -> M A) :
  returns Q m -> (forall ex, returns Q (h ex)) -> returns Q (try_except m h).
Proof.
  intros Hm Hh st a st' H. unfold try_except in H.
  destruct (m st) as [[a1|ex] st1] eqn:Hrun.
  - injection H as <- _. eapply Hm, Hrun.
  - eapply Hh, H.
Qed.

Lemma priced_None : priced None.
Proof. intros info H. discriminate. Qed.

Lemma returns_priced_body self c :
  (forall x, returns priced (self x)) ->
  returns priced (get_spot_asset_info_body E self c).
Proof.
  intros Hself. unfold get_spot_asset_info_body.
  repeat first
    [ apply returns_ret, priced_None
    | apply Hself
    | apply returns_bind; intros ?
    | match goal with
      | |- returns _ (if PrimFloat.ltb 0 ?p then _ else _) =>
          destruct (PrimFloat.ltb 0 p) eqn:?
      | |- returns _ (if ?b then _ else _) => destruct b
      | |- returns _ (match ?x with _ => _ end) => destruct x
      end ].
  apply returns_ret. intros info H. injection H as <-. assumption.
Qed.

Lemma get_spot_asset_info_priced c (st st' : state) info :
  get_spot_asset_info E c st = (Ok (Some info), st') ->
  PrimFloat.ltb 0 (price info) = true.
Proof.
  intros H.
  assert (returns priced (get_spot_asset_info E c)) as Hr.
  { unfold get_spot_asset_info, spot_info_handler.
    apply returns_try.
    - apply returns_priced_body. intros x.
      unfold get_spot_asset_info_at, spot_info_handler.
      apply returns_try.
      + apply returns_priced_body. intros y. apply returns_ret, priced_None.
      + intros ex. apply returns_bind. intros _. apply returns_ret, priced_None.
    - intros ex. apply returns_bind. intros _. apply returns_ret, priced_None. }
  exact (Hr _ _ _ H info eq_refl).
Qed.

(** ** The processor loop never stops on an error *)

Lemma process_message_ok m (st : state) :
  fst (process_message E m st) = Ok tt.
Proof.
  unfold process_message, try_except.
  match goal with
  | |- context [match ?body st with _ => _ end] =>
      destruct (body st) as [[[]|ex] st1]
  end; [reflexivity|].
  destruct ex; reflexivity.
Qed.

Lemma message_processor_cons m rest (st : state) :
  message_processor E (m :: rest) st =
  message_processor E rest (snd (process_message E m st)).
Proof.
  unfold message_processor. cbn [for_each]. rewrite bind_bind.
  pose proof (process_message_ok m st) as Hok.
  destruct (process_message E m st) as [[[]|ex] st1]; [reflexivity|].
  discriminate.
Qed.

Lemma message_processor_ok q (st : state) :
  fst (message_processor E q st) = Ok tt.
Proof.
  revert st. induction q as [|m rest IH]; intros st; [reflexivity|].
  rewrite message_processor_cons. apply IH.
Qed.

Lemma message_processor_app q1 q2 (st : state) :
  snd (message_processor E (q1 ++ q2) st) =
  snd (message_processor E q2 (snd (message_processor E q1 st))).
Proof.
  revert st. induction q1 as [|m rest IH]; intros st; [reflexivity|].
  cbn [app]. rewrite !message_processor_cons. apply IH.
Qed.

Lemma decode_failure_dropped m (st : state) :
  json_loads E m = Raise JSONDecodeError ->
  process_message E m st =
  (Ok tt,
   mkState (twap_mappings st) (calls st) (logs st ++ [LogInvalidJson])
     (world st)).
Proof.
  intros H. unfold process_message, try_except.
  rewrite bind_lift, H. reflexivity.
Qed.

(** An error in the handling of a decoded message is caught by the loop
    body, which prints it and leaves the state as the handling left it. *)
Lemma handling_error_contained m data ex (st st1 : state) :
  json_loads E m = Ok data ->
  handle_leader_twap_events E data
    (mkState (twap_mappings st) (calls st) (logs st ++ [LogRawMessage data])
       (world st))
  = (Raise ex, st1) ->
  process_message E m st =
  (Ok tt,
   mkState (twap_mappings st1) (calls st1)
     (logs st1 ++ [match ex with
                   | JSONDecodeError => LogInvalidJson
                   | _ => LogProcessingError
                   end])
     (world st1)).
Proof.
  intros Hdata Hraise. unfold process_message, try_except.
  rewrite bind_lift, Hdata, bind_print, Hraise.
  destruct ex; reflexivity.
Qed.

(** The loop over [twapHistory] has no [try] of its own: an entry that
    raises ends it. *)
Lemma frame_stops_at_raise e rest ex (st : state) :
  fst (handle_twap_event E e st) = Raise ex ->
  handle_leader_twap_events E (user_frame (e :: rest)) st =
  handle_twap_event E e st.
Proof.
  intros Hraise.
  unfold handle_leader_twap_events, user_frame.
  rewrite bind_lift. cbn [py_get assoc String.eqb Ascii.eqb Bool.eqb default
                            from_option id py_eq_str].
  rewrite !bind_lift. cbn [py_get assoc String.eqb Ascii.eqb Bool.eqb
                             from_option id py_iter for_each].
  rewrite bind_lift. cbn [for_each]. rewrite bind_bind.
  destruct (handle_twap_event E e st) as [[[]|ex'] st']; [discriminate|].
  reflexivity.
Qed.

(** An activation never raises out of its entry, whatever the placement
    does: [place_follower_twap_order] catches what goes wrong in it, a
    failed submission too, and the handler catches the rest. *)
Lemma activation_never_raises e (st : state) k coin_field :
  event_key E e = Ok k ->
  event_coin e = Ok coin_field ->
  is_spot_order E coin_field = Ok true ->
  event_status e = Ok (JStr "activated") ->
  twap_mappings st !! k = None ->
  fst (handle_twap_event E e st) = Ok tt.
Proof.
  intros Hk Hc Hspot Hstatus Hv.
  rewrite (handle_activated_unknown e st k coin_field Hk Hc Hspot Hstatus Hv).
  cbv zeta.
  destruct (place_follower_twap_order E e _) as [[id|ex] st2];
    [destruct (py_truthy id)|]; reflexivity.
Qed.

(** C7, as the code has it: errors are contained per message of the
    queue.  The loop body never lets an error out, so the loop goes on to
    the next message from the state the one before left.  A message that
    fails to decode is printed as invalid and changes nothing else.  An
    error raised while a decoded message is handled is printed, and the
    handling of that message ends where it was raised: in a [user] frame,
    the entries after the one that raised are not handled.  An activation
    never raises out of its entry, a failed submission included.  And a
    message that fails to decode followed by one that decodes leaves the
    script where handling the second one alone, after that print, leaves
    it. *)
Theorem processor_contains_errors q (st : state) :
  fst (message_processor E q st) = Ok tt /\
  (forall m st0, fst (process_message E m st0) = Ok tt) /\
  (forall m rest st0,
     message_processor E (m :: rest) st0 =
     message_processor E rest (snd (process_message E m st0))) /\
  (forall m st0,
     json_loads E m = Raise JSONDecodeError ->
     process_message E m st0 =
     (Ok tt,
      mkState (twap_mappings st0) (calls st0) (logs st0 ++ [LogInvalidJson])
        (world st0))) /\
  (forall m data ex st0 st1,
     json_loads E m = Ok data ->
     handle_leader_twap_events E data
       (mkState (twap_mappings st0) (calls st0)
          (logs st0 ++ [LogRawMessage data]) (world st0))
     = (Raise ex, st1) ->
     process_message E m st0 =
     (Ok tt,
      mkState (twap_mappings st1) (calls st1)
        (logs st1 ++ [match ex with
                      | JSONDecodeError => LogInvalidJson
                      | _ => LogProcessingError
                      end])
        (world st1))) /\
  (forall e rest ex st0,
     fst (handle_twap_event E e st0) = Raise ex ->
     handle_leader_twap_events E (user_frame (e :: rest)) st0 =
     handle_twap_event E e st0) /\
  (forall e st0 k coin_field,
     event_key E e = Ok k ->
     event_coin e = Ok coin_field ->
     is_spot_order E coin_field = Ok true ->
     event_status e = Ok (JStr "activated") ->
     twap_mappings st0 !! k = None ->
     fst (handle_twap_event E e st0) = Ok tt) /\
  (forall m m' data st0,
     json_loads E m = Raise JSONDecodeError ->
     json_loads E m' = Ok data ->
     message_processor E [m; m'] st0 =
     (Ok tt,
      snd (process_message E m'
             (mkState (twap_mappings st0) (calls st0)
                (logs st0 ++ [LogInvalidJson]) (world st0))))).
Proof.
  split; [apply message_processor_ok|].
  split; [intros; apply process_message_ok|].
  split; [intros; apply message_processor_cons|].
  split; [intros; apply decode_failure_dropped; assumption|].
  split; [intros; eapply handling_error_contained; eassumption|].
  split; [intros; eapply frame_stops_at_raise; eassumption|].
  split; [intros; eapply activation_never_raises; eassumption|].
  intros m m' data st0 Hbad _.
  rewrite !message_processor_cons, (decode_failure_dropped m st0 Hbad).
  reflexivity.
Qed.

(** ** Arrival order *)

Lemma new_calls_spec m (st : state) :
  calls (snd (process_message E m st)) =
  calls st ++ new_calls st (snd (process_message E m st)).
Proof.
  destruct (process_message_extends m st) as [new Hnew].
  unfold new_calls. rewrite Hnew, drop_app_length. reflexivity.
Qed.

Lemma posted_actions_app tr1 tr2 :
  posted_actions (tr1 ++ tr2) = posted_actions tr1 ++ posted_actions tr2.
Proof. apply omap_app. Qed.

Lemma posted_actions_posted l : posted_actions (map Posted l) = l.
Proof.
  induction l as [|a rest IH]; [reflexivity|].
  cbn. f_equal. exact IH.
Qed.

Lemma posted_actions_handling m (st : state) :
  posted_actions (handling E m st) =
  new_calls st (snd (process_message E m st)).
Proof.
  unfold handling. change (Dequeued m :: ?l) with ([Dequeued m] ++ l).
  rewrite !posted_actions_app, posted_actions_posted. cbn.
  apply app_nil_r.
Qed.

Lemma handled_trace_app q1 q2 (st : state) :
  handled_trace E (q1 ++ q2) st =
  handled_trace E q1 st
  ++ handled_trace E q2 (snd (message_processor E q1 st)).
Proof.
  revert st. induction q1 as [|m rest IH]; intros st; [reflexivity|].
  cbn [app handled_trace]. rewrite message_processor_cons, IH.
  apply app_assoc.
Qed.

Lemma calls_of_handled q (st : state) :
  calls (snd (message_processor E q st)) =
  calls st ++ posted_actions (handled_trace E q st).
Proof.
  revert st. induction q as [|m rest IH]; intros st.
  - cbn. symmetry. apply app_nil_r.
  - rewrite message_processor_cons, IH. cbn [handled_trace].
    rewrite posted_actions_app, posted_actions_handling, app_assoc.
    f_equal. apply new_calls_spec.
Qed.

Lemma do_move_in_order st0 mv (s s' : system World) done :
  in_order E st0 s done ->
  do_move E mv s = Some s' ->
  exists done', in_order E st0 s' done'.
Proof.
  intros (Hrecv & Heng & Htrace) Hmove.
  destruct mv as [m| | |]; cbn [do_move] in Hmove.
  - injection Hmove as <-. exists done. unfold in_order. cbn.
    rewrite Hrecv, <- !app_assoc. auto.
  - destruct (in_flight s) eqn:Hfl; [discriminate|].
    destruct (queue s) as [|m rest] eqn:Hq; [discriminate|].
    injection Hmove as <-. exists done. unfold in_order. cbn.
    cbn in Hrecv, Htrace. rewrite Hrecv, Htrace, <- app_assoc. auto.
  - destruct (in_flight s) as [m|] eqn:Hfl; [|discriminate].
    injection Hmove as <-. exists (done ++ [m]). unfold in_order. cbn.
    cbn in Hrecv, Htrace.
    rewrite Hrecv, Htrace, message_processor_app, handled_trace_app, <- Heng.
    rewrite message_processor_cons. cbn [message_processor for_each ret snd].
    cbn [handled_trace]. unfold handling.
    rewrite <- !app_assoc, app_nil_r. auto.
  - destruct (in_flight s) eqn:Hfl; [discriminate|].
    destruct (queue s) eqn:Hq; [|discriminate].
    injection Hmove as <-. exists done. unfold in_order.
    rewrite Hfl, Hq. auto.
Qed.

Lemma run_moves_in_order st0 mvs (s s' : system World) done :
  in_order E st0 s done ->
  run_moves E mvs s = Some s' ->
  exists done', in_order E st0 s' done'.
Proof.
  revert s done. induction mvs as [|mv rest IH]; intros s done Hin Hrun.
  - injection Hrun as <-. eauto.
  - cbn [run_moves] in Hrun.
    destruct (do_move E mv s) as [s1|] eqn:Hmv; [|discriminate].
    destruct (do_move_in_order _ _ _ _ _ Hin Hmv) as [done1 Hin1].
    eapply IH; eassumption.
Qed.

(** C8: under every interleaving of the receiver and the processor, the
    processor handles the received messages in the order they arrived, one
    at a time: the trace is the handling of one message after the other,
    each with all its posted actions between its dequeue and its end, and
    every action the script posted is in the trace.  With two messages
    [A] then [B] received and both handled, everything of [A], its posts
    included, comes before [B] is dequeued. *)
Theorem frames_handled_in_arrival_order mvs (st0 : state) s :
  run_moves E mvs (start st0) = Some s ->
  (exists done, in_order E st0 s done) /\
  calls (engine s) = calls st0 ++ posted_actions (trace s) /\
  (forall A B,
     received s = [A; B] -> queue s = [] -> in_flight s = None ->
     trace s =
     handling E A st0 ++ handling E B (snd (process_message E A st0))).
Proof.
  intros Hrun.
  assert (in_order E st0 (start st0) []) as Hstart
    by (unfold in_order; cbn; auto).
  destruct (run_moves_in_order _ _ _ _ _ Hstart Hrun)
    as [done (Hrecv & Heng & Htrace)].
  split; [exists done; unfold in_order; auto|]. split.
  - rewrite Htrace, Heng, posted_actions_app, calls_of_handled.
    destruct (in_flight s); cbn; rewrite app_nil_r; reflexivity.
  - intros A B HAB Hq Hfl. rewrite Hq, Hfl in Hrecv. cbn in Hrecv.
    rewrite app_nil_r in Hrecv. rewrite Htrace, Hfl, <- Hrecv, HAB. cbn.
    rewrite !app_nil_r. reflexivity.
Qed.

End Properties.

(** * The properties on the sample venue *)

(** C1, where the code departs from it: with the sample key bound to the
    follower TWAP 77, a [terminated] event for that key is caught by the
    check that skips known keys, which comes before the status is looked
    at; no cancel is posted and the key stays bound to 77. *)
Theorem terminated_known_key_never_cancels :
  let st' := snd (handle_leader_twap_events sample_venue
                    (user_frame [sample_terminated]) mapped_state) in
  event_key sample_venue sample_terminated = Ok sample_key /\
  event_status sample_terminated = Ok (JStr "terminated") /\
  twap_mappings mapped_state !! sample_key = Some (JInt 77) /\
  calls st' = [] /\
  twap_mappings st' !! sample_key = Some (JInt 77) /\
  logs st' = [LogLeaderTwap "terminated" sample_key; LogSkipKnown sample_key].
Proof. vm_compute. repeat split. Qed.

Lemma activated_known_key_is_skipped_witness :
  event_key sample_venue sample_activated = Ok sample_key /\
  event_status sample_activated = Ok (JStr "activated") /\
  twap_mappings mapped_state !! sample_key = Some (JInt 77) /\
  let st' := snd (handle_leader_twap_events sample_venue
                    (user_frame [sample_activated]) mapped_state) in
  calls st' = calls mapped_state /\
  twap_mappings st' = twap_mappings mapped_state.
Proof.
  assert (event_key sample_venue sample_activated = Ok sample_key) as Hk
    by reflexivity.
  assert (event_status sample_activated = Ok (JStr "activated")) as Hs
    by reflexivity.
  assert (twap_mappings mapped_state !! sample_key = Some (JInt 77)) as Hv
    by (vm_compute; reflexivity).
  split; [exact Hk|]. split; [exact Hs|]. split; [exact Hv|].
  exact (activated_known_key_is_skipped sample_venue sample_activated
           mapped_state sample_key (JInt 77) Hk Hs Hv).
Defined.

Lemma not_spot_is_ignored_witness :
  event_coin sample_perp = Ok (JStr "BTC") /\
  not_spot sample_venue "BTC" /\
  handle_leader_twap_events sample_venue (user_frame [sample_perp])
    fresh_state = (Ok tt, fresh_state).
Proof.
  assert (not_spot sample_venue "BTC") as Hns.
  { left. split.
    - intros [Hat _]. discriminate Hat.
    - intros Hpair. discriminate Hpair. }
  split; [reflexivity|]. split; [exact Hns|].
  apply (not_spot_is_ignored sample_venue sample_perp fresh_state "BTC"
           eq_refl Hns).
Defined.

Lemma terminated_unknown_key_is_noop_witness :
  event_key sample_venue sample_terminated = Ok sample_key /\
  event_status sample_terminated = Ok (JStr "terminated") /\
  twap_mappings fresh_state !! sample_key = None /\
  let st1 := snd (handle_leader_twap_events sample_venue
                    (user_frame [sample_terminated]) fresh_state) in
  let st2 := snd (handle_leader_twap_events sample_venue
                    (user_frame [sample_terminated]) st1) in
  (calls st1 = calls fresh_state /\
   twap_mappings st1 = twap_mappings fresh_state /\
   world st1 = world fresh_state) /\
  (calls st2 = calls fresh_state /\
   twap_mappings st2 = twap_mappings fresh_state /\
   world st2 = world fresh_state).
Proof.
  assert (twap_mappings fresh_state !! sample_key = None) as Hv
    by (vm_compute; reflexivity).
  split; [reflexivity|]. split; [reflexivity|]. split; [exact Hv|].
  apply (terminated_unknown_key_is_noop sample_venue sample_terminated
           fresh_state sample_key eq_refl eq_refl Hv).
Defined.

Lemma binding_is_write_once_witness :
  twap_mappings mapped_state !! sample_key = Some (JInt 77) /\
  let st' := snd (handle_leader_twap_events sample_venue
                    (user_frame [sample_activated; sample_terminated])
                    mapped_state) in
  (twap_mappings st' !! sample_key = Some (JInt 77) \/
   twap_mappings st' !! sample_key = None) /\
  forall v', twap_mappings st' !! sample_key = Some v' -> v' = JInt 77.
Proof.
  assert (twap_mappings mapped_state !! sample_key = Some (JInt 77)) as Hv
    by (vm_compute; reflexivity).
  split; [exact Hv|].
  apply (binding_is_write_once sample_venue
           (user_frame [sample_activated; sample_terminated]) mapped_state
           sample_key (JInt 77) Hv).
Defined.



Lemma follower_size_is_rounded_notional_witness :
  follower_size 4 (JInt 2) = Ok (PFloat 5) /\
  pynum_le0 (PFloat 5) = false /\
  calls (snd (handle_leader_twap_events sample_venue
                (user_frame [sample_activated]) fresh_state))
  = calls fresh_state ++ [sample_order] /\
  follower_size 30000 (JInt 2) = Ok (PFloat 0) /\
  pynum_le0 (PFloat 0) = true /\
  handle_leader_twap_events costly_venue (user_frame [sample_activated])
    fresh_state =
  (Ok tt,
   mkState (twap_mappings fresh_state) (calls fresh_state)
     [LogLeaderTwap "activated" sample_key; LogInvalidSize] 0%nat).
Proof.
  split; [vm_compute; reflexivity|]. split; [reflexivity|].
  split; [|split; [vm_compute; reflexivity|split; [reflexivity|]]].
  - refine (proj1 (proj2
              (follower_size_is_rounded_notional sample_venue
                 sample_activated fresh_state
                 (mkState ∅ [] [LogLeaderTwap "activated" sample_key] 0%nat)
                 sample_key
                 [("coin", JStr "@5"); ("side", JStr "B");
                  ("sz", JStr "12.5"); ("minutes", JInt 5);
                  ("reduceOnly", JBool false); ("randomize", JBool false);
                  ("timestamp", JInt 1700000000000)]
                 (JStr "@5") (mkAssetInfo 4 (JInt 2) (JStr "@5")) (PFloat 5)
                 _ _ _ _ _ _ _ _))
              _ (JInt 5)
              (mkState ∅ []
                 [LogLeaderTwap "activated" sample_key;
                  LogPlacing true (PFloat 5) (JInt 5)] 0%nat)
              (JInt 10005) "5" _ _ _ _);
      try reflexivity; vm_compute; reflexivity.
  - refine (proj1 (proj2 (proj2
              (follower_size_is_rounded_notional costly_venue
                 sample_activated fresh_state
                 (mkState ∅ [] [LogLeaderTwap "activated" sample_key] 0%nat)
                 sample_key
                 [("coin", JStr "@5"); ("side", JStr "B");
                  ("sz", JStr "12.5"); ("minutes", JInt 5);
                  ("reduceOnly", JBool false); ("randomize", JBool false);
                  ("timestamp", JInt 1700000000000)]
                 (JStr "@5") (mkAssetInfo 30000 (JInt 2) (JStr "@5"))
                 (PFloat 0) _ _ _ _ _ _ _ _))) _);
      try reflexivity; vm_compute; reflexivity.
Defined.

Lemma sample_unpriced_reference :
  reference_price sample_venue 0%nat "@3" 0%float 0%nat.
Proof.
  apply PriceByIndex.
  apply (IndexPrice sample_venue 0%nat "@3" 0%float 0%nat sample_spot_data
           sample_spot_meta
           (JList [sample_ctx "0"; sample_ctx "0"; sample_ctx "0";
                   sample_ctx "0"; sample_ctx "0"; sample_ctx "4.0"])
           2 3 6 (sample_ctx "0"));
    try reflexivity; lia.
Defined.

(** C5 as written fails: at the sample index 3, whose price is 0, the
    handler does give the activation up and posts nothing, but the line of
    the size check is never printed; what is printed is that the asset
    info could not be had. *)
Lemma price_zero_never_reaches_sizing :
  let st' := snd (handle_leader_twap_events sample_venue
                    (user_frame [sample_unpriced]) fresh_state) in
  reference_price sample_venue (world fresh_state) "@3" 0%float 0%nat /\
  PrimFloat.ltb 0 0 = false /\
  ~ In LogInvalidSize (logs st') /\
  In LogNoAssetInfo (logs st') /\
  calls st' = [].
Proof.
  split; [exact sample_unpriced_reference|].
  split; [reflexivity|].
  vm_compute. split; [|split; [|reflexivity]].
  - intros [H|[H|[H|[]]]]; discriminate H.
  - right. right. left. reflexivity.
Qed.

Lemma nonpositive_price_abandons_at_resolution_witness :
  handle_leader_twap_events sample_venue (user_frame [sample_unpriced])
    fresh_state =
  (Ok tt,
   mkState (twap_mappings fresh_state) (calls fresh_state)
     (logs fresh_state
      ++ [LogLeaderTwap "activated" sample_unpriced_key; LogNoSpotPrice;
          LogNoAssetInfo])
     0%nat).
Proof.
  apply (nonpositive_price_abandons_at_resolution sample_venue
           sample_unpriced fresh_state sample_unpriced_key "@3" 0%float
           0%nat);
    try reflexivity; try exact sample_unpriced_reference;
    vm_compute; reflexivity.
Defined.

Lemma processor_contains_errors_witness :
  json_loads mixed_venue "garbage" = Raise JSONDecodeError /\
  json_loads mixed_venue "activated" = Ok (user_frame [sample_activated]) /\
  json_loads mixed_venue "mixed" = Ok mixed_frame /\
  message_processor mixed_venue ["garbage"; "activated"] fresh_state =
  (Ok tt,
   snd (process_message mixed_venue "activated"
          (mkState (twap_mappings fresh_state) (calls fresh_state)
             (logs fresh_state ++ [LogInvalidJson]) (world fresh_state)))) /\
  process_message mixed_venue "mixed" fresh_state =
  (Ok tt,
   mkState (twap_mappings fresh_state) (calls fresh_state)
     (logs fresh_state ++ [LogRawMessage mixed_frame; LogProcessingError])
     (world fresh_state)) /\
  message_processor mixed_venue ["mixed"; "activated"] fresh_state =
  message_processor mixed_venue ["activated"]
    (snd (process_message mixed_venue "mixed" fresh_state)) /\
  calls (snd (message_processor mixed_venue ["mixed"; "activated"]
                fresh_state)) = [sample_order].
Proof.
  pose proof (processor_contains_errors mixed_venue ["mixed"; "activated"]
                fresh_state)
    as (_ & _ & Hnext & _ & Hcaught & _ & _ & Hdropped).
  split; [reflexivity|]. split; [reflexivity|]. split; [reflexivity|].
  split.
  { apply Hdropped with (data := user_frame [sample_activated]);
      reflexivity. }
  split.
  { apply (Hcaught "mixed" mixed_frame AttributeError fresh_state
             (mkState ∅ [] [LogRawMessage mixed_frame] 0%nat));
      vm_compute; reflexivity. }
  split; [apply Hnext|].
  rewrite Hnext. vm_compute. reflexivity.
Defined.

(** C7 as written fails: in the frame [mixed], the first entry raises and
    the second is an activation that, handled on its own, makes the script
    post its order.  The error is not kept to the entry that raised: the
    handling of the whole frame ends with it, and the activation is never
    handled. *)
Lemma entry_error_ends_its_frame :
  let st' := snd (process_message mixed_venue "mixed" fresh_state) in
  json_loads mixed_venue "mixed"
  = Ok (user_frame [sample_null_status; sample_activated]) /\
  fst (handle_twap_event mixed_venue sample_null_status fresh_state)
  = Raise AttributeError /\
  calls (snd (handle_twap_event mixed_venue sample_activated fresh_state))
  = [sample_order] /\
  fst (process_message mixed_venue "mixed" fresh_state) = Ok tt /\
  calls st' = [] /\
  twap_mappings st' = ∅ /\
  In LogProcessingError (logs st').
Proof.
  vm_compute. repeat split; try reflexivity.
  right. left. reflexivity.
Qed.

Lemma frames_handled_in_arrival_order_witness :
  run_moves sample_venue sample_schedule (start fresh_state)
  = Some sample_end /\
  received sample_end = ["activated"; "terminated"] /\
  queue sample_end = [] /\
  in_flight sample_end = None /\
  trace sample_end =
  handling sample_venue "activated" fresh_state
  ++ handling sample_venue "terminated"
       (snd (process_message sample_venue "activated" fresh_state)).
Proof.
  assert (run_moves sample_venue sample_schedule (start fresh_state)
          = Some sample_end) as Hrun by (vm_compute; reflexivity).
  split; [exact Hrun|].
  split; [vm_compute; reflexivity|].
  split; [vm_compute; reflexivity|].
  split; [vm_compute; reflexivity|].
  apply (frames_handled_in_arrival_order sample_venue sample_schedule
           fresh_state sample_end Hrun); vm_compute; reflexivity.
Defined.

(** * More of the script

    Properties of the functions around the claims: the market type, the
    asset lookup on its other paths, the cancellation, what a placement
    passes on, the frames of other channels, and what the processor never
    does. *)

Section Coverage.

Context {World : Type}.
Variable E : externals World.

Abbreviation state := (state World).

Notation "'do' x <- m 'in' k" := (bind m (fun x => k))
  (at level 10, x name, m at level 100, k at level 200).
Notation "'run' m 'in' k" := (bind m (fun _ => k))
  (at level 10, m at level 100, k at level 200).

(** ** Market type *)

(** X1: [is_spot_order] accepts a string exactly when it is not empty, is
    not ["N/A"], and either starts with ["@"] with a remainder that
    [int()] reads as a non-negative integer, or does not start with ["@"]
    and has a slash in it. *)
Theorem is_spot_order_true_iff c :
  is_spot_order E (JStr c) = Ok true <->
  c <> "" /\ c <> "N/A" /\
  ((startswith "@" c = true /\
    exists n, py_int E (str_tail c) = Some n /\ 0 <= n) \/
   (startswith "@" c = false /\ str_contains "/" c = true)).
Proof.
  rewrite is_spot_order_str.
  destruct (String.eqb_spec c "") as [->|Hne].
  { split; [discriminate|]. intros [H _]. congruence. }
  destruct (String.eqb_spec c "N/A") as [->|Hna].
  { split; [discriminate|]. intros (_ & H & _). congruence. }
  cbn [negb andb].
  destruct (startswith "@" c).
  - destruct (py_int E (str_tail c)) as [i|].
    + destruct (Z.ltb_spec i 0) as [Hneg|Hpos]; cbn [negb].
      * split; [discriminate|].
        intros (_ & _ & [[_ (n & Hn & Hn0)]|[Hf _]]); [|discriminate].
        injection Hn as ->. lia.
      * split; [|reflexivity]. intros _. repeat split; try assumption.
        left. split; [reflexivity|]. exists i. auto.
    + split; [discriminate|].
      intros (_ & _ & [[_ (n & Hn & _)]|[Hf _]]); discriminate.
  - destruct (str_contains "/" c).
    + split; [|reflexivity]. intros _. repeat split; try assumption.
      right. auto.
    + split; [discriminate|].
      intros (_ & _ & [[Hf _]|[_ Hf]]); discriminate.
Qed.

(** X2: what [is_spot_order] accepts, [detect_market_type] calls SPOT, and
    what [detect_market_type] calls PERP, [is_spot_order] turns down. *)
Theorem spot_order_has_spot_market_type coin_field :
  (is_spot_order E coin_field = Ok true ->
   detect_market_type coin_field = Ok SPOT) /\
  (detect_market_type coin_field = Ok PERP ->
   is_spot_order E coin_field = Ok false).
Proof.
  unfold is_spot_order.
  destruct (negb (py_truthy coin_field) || py_eq_str coin_field "N/A")
    eqn:Hguard.
  - split; [discriminate|reflexivity].
  - destruct (detect_market_type coin_field) as [[|]|ex]; cbn [rbind].
    + split; [reflexivity|discriminate].
    + split; [discriminate|reflexivity].
    + split; discriminate.
Qed.

(** X3: on a value that is not a string, [is_spot_order] answers [False]
    when the value is false in a condition ([None], [0], [False], an empty
    list or dict) and raises [AttributeError] otherwise. *)
Theorem is_spot_order_not_a_string v :
  (forall s, v <> JStr s) ->
  is_spot_order E v =
  if py_truthy v then Raise AttributeError else Ok false.
Proof.
  intros Hns. unfold is_spot_order, detect_market_type.
  destruct v as [|b|z|f|s|l|kvs]; cbn [py_truthy py_eq_str as_str rbind];
    try (destruct (Hns s eq_refl)).
  - reflexivity.
  - destruct b; reflexivity.
  - destruct (z =? 0); reflexivity.
  - destruct (PrimFloat.eqb f 0); reflexivity.
  - destruct l; reflexivity.
  - destruct kvs; reflexivity.
Qed.

(** ** Cancelling *)

Lemma read_cancel_result_same_calls r (st : state) :
  calls (snd (read_cancel_result r st)) = calls st.
Proof.
  apply (respects_read_cancel_result same_calls).
  - apply same_calls_refl.
  - apply same_calls_trans.
  - intros l st0. reflexivity.
Qed.

Lemma read_cancel_result_true resp (st st' : state) :
  read_cancel_result resp st = (Ok true, st') -> cancel_confirmed resp.
Proof.
  unfold read_cancel_result, cancel_confirmed. rewrite bind_lift.
  destruct (result_is_ok resp) as [[|]|ex]; try discriminate.
  rewrite bind_lift.
  destruct (py_get resp "response" (JDict [])) as [response|] eqn:H1;
    [|discriminate].
  rewrite bind_lift.
  destruct (py_get response "data" (JDict [])) as [response_data|] eqn:H2;
    [|discriminate].
  rewrite bind_lift.
  destruct (py_get response_data "status" JNull) as [status_|] eqn:H3;
    [|discriminate].
  destruct (py_eq_str status_ "success") eqn:Hs.
  - intros _. split; [reflexivity|]. exists response, response_data, status_.
    auto.
  - rewrite bind_lift.
    destruct (py_get response_data "status" (JDict [])); [|discriminate].
    rewrite bind_lift. destruct (py_get _ "error" _); discriminate.
Qed.

(** What a cancellation can do: it returns, and either it returns [False]
    having posted nothing or one [twapCancel] for the id, or it returns
    [True] having posted one [twapCancel] for the id that the venue
    confirmed. *)
Lemma cancel_cases id c (st : state) :
  exists b st',
    cancel_follower_twap_order E id c st = (Ok b, st') /\
    ((b = false /\
      (calls st' = calls st \/
       exists a, calls st' = calls st ++ [TwapCancel a id])) \/
     (b = true /\
      exists a w resp w',
        calls st' = calls st ++ [TwapCancel a id] /\
        sign_l1_action E (TwapCancel a id) w = Ok tt /\
        post_action E (TwapCancel a id) w = (Ok resp, w') /\
        cancel_confirmed resp)).
Proof.
  unfold cancel_follower_twap_order, try_except.
  rewrite bind_print.
  set (st1 := mkState (twap_mappings st) (calls st)
                (logs st ++ [LogCancelling id]) (world st)).
  rewrite bind_bind.
  pose proof (resolve_asset_index_same_calls E LogCancelNoAssetIndex
                LogCancelUnsupportedFormat c st1) as Hres.
  destruct (resolve_asset_index E _ _ c st1) as [[[asset_index|]|ex] st2];
    cbn [snd] in Hres; subst st1; cbn [calls] in Hres.
  - rewrite bind_lift.
    destruct (py_add_int 10000 asset_index) as [a|].
    + rewrite bind_bind. unfold sign_and_post.
      destruct (sign_l1_action E (TwapCancel a id) (world st2)) as [[]|ex]
        eqn:Hsign.
      * destruct (post_action E (TwapCancel a id) (world st2))
          as [[resp|ex] w'] eqn:Hpost.
        -- match goal with
           | |- context [read_cancel_result resp ?s] =>
               pose proof (read_cancel_result_same_calls resp s) as Hrd;
               pose proof (read_cancel_result_true resp s) as Htrue;
               destruct (read_cancel_result resp s) as [[[|]|ex] st3]
           end; cbn [snd calls] in Hrd; cbn.
           ++ do 2 eexists. split; [reflexivity|]. right.
              split; [reflexivity|]. exists a, (world st2), resp, w'.
              split; [congruence|]. split; [exact Hsign|].
              split; [exact Hpost|]. eapply Htrue. reflexivity.
           ++ do 2 eexists. split; [reflexivity|]. left.
              split; [reflexivity|]. right. exists a. congruence.
           ++ do 2 eexists. split; [reflexivity|]. left.
              split; [reflexivity|]. right. exists a. cbn. congruence.
        -- cbn. do 2 eexists. split; [reflexivity|]. left.
           split; [reflexivity|]. right. exists a. cbn. congruence.
      * cbn. do 2 eexists. split; [reflexivity|]. left.
        split; [reflexivity|]. left. cbn. exact Hres.
    + cbn. do 2 eexists. split; [reflexivity|]. left.
      split; [reflexivity|]. left. cbn. exact Hres.
  - cbn. do 2 eexists. split; [reflexivity|]. left.
    split; [reflexivity|]. left. exact Hres.
  - cbn. do 2 eexists. split; [reflexivity|]. left.
    split; [reflexivity|]. left. cbn. exact Hres.
Qed.

(** X4: [cancel_follower_twap_order] never raises, leaves
    [twap_mappings] alone, and posts nothing or exactly one [twapCancel],
    which carries the follower id it was given. *)
Theorem cancel_posts_at_most_one_cancel id c (st : state) :
  exists b st',
    cancel_follower_twap_order E id c st = (Ok b, st') /\
    twap_mappings st' = twap_mappings st /\
    (calls st' = calls st \/
     exists a, calls st' = calls st ++ [TwapCancel a id]).
Proof.
  destruct (cancel_cases id c st) as (b & st' & Hrun & Hcases).
  exists b, st'. split; [exact Hrun|]. split.
  - pose proof (cancel_same_mappings E id c st) as Hm.
    rewrite Hrun in Hm. exact Hm.
  - destruct Hcases as [[_ H]|[_ (a & w & resp & w' & H & _)]]; [exact H|].
    right. exists a. exact H.
Qed.

(** X5: [cancel_follower_twap_order] returns [True] only when it posted
    the [twapCancel] for the id and the venue answered it with status
    ["ok"] and data status ["success"]. *)
Theorem cancel_true_means_confirmed id c (st st' : state) :
  cancel_follower_twap_order E id c st = (Ok true, st') ->
  exists a w resp w',
    calls st' = calls st ++ [TwapCancel a id] /\
    sign_l1_action E (TwapCancel a id) w = Ok tt /\
    post_action E (TwapCancel a id) w = (Ok resp, w') /\
    cancel_confirmed resp.
Proof.
  intros Hrun.
  destruct (cancel_cases id c st) as (b & st0 & Hrun0 & Hcases).
  rewrite Hrun in Hrun0. injection Hrun0 as <- <-.
  destruct Hcases as [[Hb _]|[_ H]]; [discriminate|exact H].
Qed.

Lemma read_cancel_confirmed resp (st : state) :
  cancel_confirmed resp ->
  read_cancel_result resp st =
  (Ok true,
   mkState (twap_mappings st) (calls st) (logs st ++ [LogCancelled])
     (world st)).
Proof.
  intros (Hok & response & response_data & status_ & H1 & H2 & H3 & Hs).
  unfold read_cancel_result.
  rewrite bind_lift, Hok, bind_lift, H1, bind_lift, H2, bind_lift, H3, Hs.
  reflexivity.
Qed.

(** The asset index on an ["@index"] name is read off the name. *)
Lemma resolve_index l1 l2 c i (st : state) :
  startswith "@" c = true ->
  int_after_at E c = Ok i ->
  resolve_asset_index E l1 l2 (JStr c) st = (Ok (Some (JInt i)), st).
Proof.
  intros Hat Hi. unfold resolve_asset_index.
  rewrite bind_lift. cbn [as_str]. rewrite Hat, bind_lift, Hi. reflexivity.
Qed.

(** X6: on an ["@index"] name, when signing succeeds and the venue
    confirms, [cancel_follower_twap_order] posts exactly the [twapCancel]
    with asset [10000 + index] and the follower id, and returns [True]. *)
Theorem cancel_index_confirmed id c i resp w' (st : state) :
  startswith "@" c = true ->
  int_after_at E c = Ok i ->
  let act := TwapCancel (JInt (10000 + i)) id in
  sign_l1_action E act (world st) = Ok tt ->
  post_action E act (world st) = (Ok resp, w') ->
  cancel_confirmed resp ->
  cancel_follower_twap_order E id (JStr c) st =
  (Ok true,
   mkState (twap_mappings st) (calls st ++ [act])
     (logs st ++ [LogCancelling id; LogCancelled]) w').
Proof.
  intros Hat Hi act Hsign Hpost Hconf.
  unfold cancel_follower_twap_order, try_except.
  rewrite bind_print, bind_bind, (resolve_index _ _ c i _ Hat Hi).
  rewrite bind_lift. cbn [py_add_int]. rewrite bind_bind.
  unfold sign_and_post. cbn [world calls twap_mappings logs].
  fold act. rewrite Hsign, Hpost, (read_cancel_confirmed _ _ Hconf).
  cbn [twap_mappings calls logs world]. rewrite <- app_assoc. reflexivity.
Qed.

(** X7: when the name of the instrument is neither an ["@index"] nor a
    pair name, [cancel_follower_twap_order] asks the venue nothing, posts
    nothing and returns [False]. *)
Theorem cancel_unsupported_name id c (st : state) :
  startswith "@" c = false ->
  str_contains "/" c = false ->
  cancel_follower_twap_order E id (JStr c) st =
  (Ok false,
   mkState (twap_mappings st) (calls st)
     (logs st ++ [LogCancelling id; LogCancelUnsupportedFormat]) (world st)).
Proof.
  intros Hat Hslash.
  unfold cancel_follower_twap_order, try_except.
  rewrite bind_print, bind_bind. unfold resolve_asset_index.
  rewrite bind_lift. cbn [as_str]. rewrite Hat, Hslash.
  cbn. rewrite <- app_assoc. reflexivity.
Qed.

(** ** Placing *)

(** What a placement can do: it returns; it returns [None] having posted
    nothing, or it posted the one order built from the event, and then
    what it returns other than [None] is what it read in the venue's
    answer to that order. *)
Lemma place_cases e (st : state) :
  exists id st',
    place_follower_twap_order E e st = (Ok id, st') /\
    ((id = JNull /\ calls st' = calls st) \/
     exists kvs a wire,
       py_get e "state" (JDict []) = Ok (JDict kvs) /\
       calls st' = calls st ++ [order_for kvs a wire] /\
       (id = JNull \/
        exists w resp w' (s s' : state),
          sign_l1_action E (order_for kvs a wire) w = Ok tt /\
          post_action E (order_for kvs a wire) w = (Ok resp, w') /\
          read_place_result resp s = (Ok id, s'))).
Proof.
  unfold place_follower_twap_order, try_except.
  rewrite bind_lift.
  destruct (py_get e "state" (JDict [])) as [state_|] eqn:Hst;
    [|cbn; eauto 6].
  destruct state_ as [| | | | | |kvs];
    try (cbn; do 2 eexists; split; [reflexivity|]; left; auto).
  cbn [py_get rbind]. rewrite !bind_lift.
  destruct (is_spot_order E _) as [[|]|]; cbn [negb];
    try (cbn; do 2 eexists; split; [reflexivity|]; left; auto).
  rewrite bind_bind.
  pose proof (get_spot_asset_info_same_calls E
                (default (JStr "") (assoc "coin" kvs)) st) as Hinfo.
  destruct (get_spot_asset_info E _ st) as [[[info|]|ex] st2];
    cbn [snd] in Hinfo;
    try (cbn; do 2 eexists; split; [reflexivity|]; left; auto).
  rewrite bind_lift.
  destruct (py_div FIXED_ORDER_VALUE_USDC (price info)) as [q|];
    [|cbn; do 2 eexists; split; [reflexivity|]; left; auto].
  rewrite bind_lift.
  destruct (py_round q (szDecimals info)) as [size|];
    [|cbn; do 2 eexists; split; [reflexivity|]; left; auto].
  destruct (pynum_le0 size);
    [cbn; do 2 eexists; split; [reflexivity|]; left; auto|].
  rewrite bind_print, bind_bind.
  set (st3 := mkState (twap_mappings st2) (calls st2) _ (world st2)).
  pose proof (resolve_asset_index_same_calls E LogNoAssetIndex
                LogUnsupportedTwapFormat
                (default (JStr "") (assoc "coin" kvs)) st3) as Hres.
  destruct (resolve_asset_index E _ _ _ st3) as [[[asset_index|]|ex] st4];
    cbn [snd] in Hres; subst st3; cbn [calls] in Hres;
    try (cbn; do 2 eexists; split; [reflexivity|]; left; split;
         [reflexivity|cbn; congruence]).
  rewrite bind_lift.
  destruct (py_add_int 10000 asset_index) as [a|];
    [|cbn; do 2 eexists; split; [reflexivity|]; left; split;
      [reflexivity|cbn; congruence]].
  rewrite bind_lift.
  destruct (float_to_wire E size) as [wire|];
    [|cbn; do 2 eexists; split; [reflexivity|]; left; split;
      [reflexivity|cbn; congruence]].
  rewrite bind_bind. unfold sign_and_post.
  fold (order_for kvs a wire).
  destruct (sign_l1_action E (order_for kvs a wire) (world st4)) as [[]|]
    eqn:Hsign;
    [|cbn; do 2 eexists; split; [reflexivity|]; left; split;
      [reflexivity|cbn; congruence]].
  destruct (post_action E (order_for kvs a wire) (world st4))
    as [[resp|ex] w'] eqn:Hpost.
  - match goal with
    | |- context [read_place_result resp ?s] =>
        pose proof (read_place_result_same_calls resp s) as Hrd;
        destruct (read_place_result resp s) as [[id|ex] st6] eqn:Hread
    end; cbn [snd calls] in Hrd; cbn.
    + do 2 eexists. split; [reflexivity|]. right. exists kvs, a, wire.
      split; [reflexivity|]. split; [congruence|]. right.
      do 5 eexists. split; [exact Hsign|]. split; [exact Hpost|].
      exact Hread.
    + do 2 eexists. split; [reflexivity|]. right. exists kvs, a, wire.
      split; [reflexivity|]. split; [cbn; congruence|]. left. reflexivity.
  - cbn. do 2 eexists. split; [reflexivity|]. right. exists kvs, a, wire.
    split; [reflexivity|]. split; [cbn; congruence|]. left. reflexivity.
Qed.

(** X8: [place_follower_twap_order] never raises and leaves
    [twap_mappings] alone; it posts nothing or exactly one [twapOrder],
    whose side, reduce-only flag, minutes and randomize flag are those of
    the leader event; and whenever it posts nothing it returns [None]. *)
Theorem place_posts_the_leader_order e (st : state) :
  exists id st',
    place_follower_twap_order E e st = (Ok id, st') /\
    twap_mappings st' = twap_mappings st /\
    ((id = JNull /\ calls st' = calls st) \/
     exists kvs a wire,
       py_get e "state" (JDict []) = Ok (JDict kvs) /\
       calls st' = calls st ++ [order_for kvs a wire]).
Proof.
  destruct (place_cases e st) as (id & st' & Hrun & Hcases).
  exists id, st'. split; [exact Hrun|]. split.
  - pose proof (place_same_mappings E e st) as Hm.
    rewrite Hrun in Hm. exact Hm.
  - destruct Hcases as [H|(kvs & a & wire & Hst & Hcalls & _)]; [left; exact H|].
    right. exists kvs, a, wire. auto.
Qed.

(** ** What one event does, in full *)

(** One event leaves the table alone, having posted nothing or one order;
    or it binds its own key, which the table did not hold, to an id that
    is true in a condition and that was read in the venue's answer to the
    one order it posted. *)
Lemma handle_event_cases e (st : state) :
  let st' := snd (handle_twap_event E e st) in
  (twap_mappings st' = twap_mappings st /\
   (calls st' = calls st \/
    exists kvs a wire, calls st' = calls st ++ [order_for kvs a wire])) \/
  exists k id kvs a wire w resp w' (s s' : state),
    event_key E e = Ok k /\
    twap_mappings st !! k = None /\
    py_truthy id = true /\
    twap_mappings st' = <[k := id]> (twap_mappings st) /\
    calls st' = calls st ++ [order_for kvs a wire] /\
    py_get e "state" (JDict []) = Ok (JDict kvs) /\
    sign_l1_action E (order_for kvs a wire) w = Ok tt /\
    post_action E (order_for kvs a wire) w = (Ok resp, w') /\
    read_place_result resp s = (Ok id, s').
Proof.
  cbv zeta. unfold handle_twap_event, event_key.
  rewrite bind_lift.
  destruct (py_get e "state" (JDict [])) as [state_|] eqn:Hst;
    [|left; auto].
  rewrite bind_lift. cbn [rbind].
  destruct (py_get state_ "coin" (JStr "")) as [coin_field|]; [|left; auto].
  rewrite bind_lift. cbn [rbind].
  destruct (is_spot_order E coin_field) as [[|]|]; cbn [negb];
    try solve [left; auto].
  rewrite bind_lift.
  destruct (twap_key_of E coin_field state_) as [k|]; [|left; auto].
  rewrite bind_lift.
  destruct (py_get e "status" (JDict [])) as [status_|]; [|left; auto].
  rewrite bind_lift.
  destruct (py_get status_ "status" (JStr "unknown")) as [twap_status|];
    [|left; auto].
  rewrite bind_lift.
  destruct (as_str twap_status) as [shown|]; [|left; auto].
  rewrite bind_print, bind_get_mappings. cbn [twap_mappings].
  destruct (twap_mappings st !! k) as [v|] eqn:Hv.
  - rewrite bool_decide_eq_true_2 by eauto. left. auto.
  - rewrite bool_decide_eq_false_2 by (intros [? ?]; discriminate).
    set (st1 := mkState (twap_mappings st) (calls st)
                  (logs st ++ [LogLeaderTwap shown k]) (world st)).
    destruct (py_eq_str twap_status "activated").
    + unfold try_except. rewrite bind_bind.
      pose proof (place_same_mappings E e st1) as Hplace.
      destruct (place_cases e st1) as (id & st2 & Hrun & Hcases).
      rewrite Hrun in Hplace |- *. cbn [snd] in Hplace.
      subst st1. cbn [twap_mappings calls] in Hplace, Hcases.
      destruct (py_truthy id) eqn:Htrue.
      * rewrite bind_get_mappings, bind_set_mappings. cbn.
        right.
        destruct Hcases as [[-> _]|(kvs & a & wire & Hst' & Hcalls & Hid)];
          [discriminate|].
        destruct Hid as [->|(w & resp & w' & s & s' & Hsign & Hpost & Hrd)];
          [discriminate|].
        exists k, id, kvs, a, wire, w, resp, w', s, s'.
        rewrite Hplace. rewrite Hst in Hst'. injection Hst' as ->.
        repeat split; assumption || reflexivity.
      * left. cbn [snd]. split; [exact Hplace|].
        destruct Hcases as [[_ H]|(kvs & a & wire & _ & Hcalls & _)];
          [left; exact H|].
        right. exists kvs, a, wire. exact Hcalls.
    + destruct (py_eq_str twap_status "canceled"
                || py_eq_str twap_status "terminated"); [|left; auto].
      rewrite bind_get_mappings. subst st1. cbn [twap_mappings].
      rewrite Hv. left. auto.
Qed.

(** X9: a key that the table did not hold and holds after one event is
    that event's key, and the id it is bound to is true in a condition and
    was read in the venue's answer to the order the event posted, the only
    action of the event. *)
Theorem new_mapping_comes_from_the_venue e (st : state) k id :
  twap_mappings st !! k = None ->
  twap_mappings (snd (handle_twap_event E e st)) !! k = Some id ->
  event_key E e = Ok k /\
  py_truthy id = true /\
  exists kvs a wire w resp w' (s s' : state),
    py_get e "state" (JDict []) = Ok (JDict kvs) /\
    calls (snd (handle_twap_event E e st))
    = calls st ++ [order_for kvs a wire] /\
    sign_l1_action E (order_for kvs a wire) w = Ok tt /\
    post_action E (order_for kvs a wire) w = (Ok resp, w') /\
    read_place_result resp s = (Ok id, s').
Proof.
  intros Hnone Hsome.
  destruct (handle_event_cases e st)
    as [[Hsame _]|(k' & id' & kvs & a & wire & w & resp & w' & s & s'
                   & Hk & Hk' & Htrue & Hm & Hcalls & Hst & Hsign & Hpost
                   & Hrd)].
  - rewrite Hsame, Hnone in Hsome. discriminate.
  - rewrite Hm in Hsome.
    destruct (decide (k' = k)) as [->|Hne].
    + rewrite lookup_insert_eq in Hsome. injection Hsome as ->.
      split; [exact Hk|]. split; [exact Htrue|].
      exists kvs, a, wire, w, resp, w', s, s'. auto.
    + rewrite lookup_insert_ne, Hnone in Hsome by exact Hne. discriminate.
Qed.

(** ** What the processor never does *)

Lemma mirrored_only_same (st st' : state) :
  twap_mappings st' = twap_mappings st ->
  calls st' = calls st ->
  mirrored_only st st'.
Proof.
  intros Hm Hc. split; [rewrite Hm; reflexivity|].
  exists []. rewrite Hc, Hm, app_nil_r. repeat split; [constructor|].
  cbn. lia.
Qed.

Lemma mirrored_only_trans (a b c : state) :
  mirrored_only a b -> mirrored_only b c -> mirrored_only a c.
Proof.
  intros [Hs1 (n1 & Hc1 & Hf1 & Hz1)] [Hs2 (n2 & Hc2 & Hf2 & Hz2)].
  split; [etransitivity; eassumption|].
  exists (n1 ++ n2). rewrite Hc2, Hc1, <- app_assoc.
  repeat split.
  - apply Forall_app. auto.
  - rewrite length_app. lia.
Qed.

Lemma is_twap_order_order_for kvs a wire : is_twap_order (order_for kvs a wire).
Proof. exact I. Qed.

Lemma handle_event_mirrored e (st : state) :
  mirrored_only st (snd (handle_twap_event E e st)).
Proof.
  destruct (handle_event_cases e st)
    as [[Hm [Hc|(kvs & a & wire & Hc)]]
       |(k & id & kvs & a & wire & w & resp & w' & s & s'
         & _ & Hnone & _ & Hm & Hc & _)].
  - apply mirrored_only_same; assumption.
  - split; [rewrite Hm; reflexivity|].
    exists [order_for kvs a wire]. rewrite Hm.
    repeat split; [exact Hc| |cbn; lia].
    constructor; [apply is_twap_order_order_for|constructor].
  - split; [rewrite Hm; apply insert_subseteq, Hnone|].
    exists [order_for kvs a wire]. rewrite Hm.
    repeat split; [exact Hc| |].
    + constructor; [apply is_twap_order_order_for|constructor].
    + rewrite map_size_insert_None by exact Hnone. cbn. lia.
Qed.

Lemma process_message_keeps (Q : state -> Prop) m :
  (forall data st, Q st -> Q (snd (handle_leader_twap_events E data st))) ->
  (forall l st, Q st -> Q (snd (print l st))) ->
  forall st, Q st -> Q (snd (process_message E m st)).
Proof.
  intros Hh Hp st HQ. unfold process_message, try_except.
  rewrite bind_lift.
  destruct (json_loads E m) as [data|ex].
  - rewrite bind_print.
    match goal with
    | |- context [handle_leader_twap_events E data ?s] =>
        assert (Q s) as HQ1 by (apply (Hp (LogRawMessage data) st HQ));
        specialize (Hh data s HQ1);
        destruct (handle_leader_twap_events E data s) as [[[]|ex] st2]
    end; cbn [snd] in Hh |- *; [exact Hh|].
    destruct ex; apply Hp, Hh.
  - destruct ex; apply Hp, HQ.
Qed.

(** X10: whatever the messages, the processor only mirrors: no mapping is
    ever removed or changed, everything it posts is a [twapOrder] (never a
    [twapCancel]), and the table grows by no more entries than orders
    were posted. *)
Theorem processor_only_mirrors q (st : state) :
  let st' := snd (message_processor E q st) in
  twap_mappings st ⊆ twap_mappings st' /\
  exists new,
    calls st' = calls st ++ new /\
    Forall is_twap_order new /\
    (size (twap_mappings st') <= size (twap_mappings st) + length new)%nat.
Proof.
  cbv zeta. change (mirrored_only st (snd (message_processor E q st))).
  unfold message_processor.
  apply (for_each_keeps (fun s => mirrored_only st s)).
  - intros m s Hs. apply (process_message_keeps (fun s => mirrored_only st s)).
    + intros data s0 Hs0.
      apply (handle_frame_keeps E (fun s => mirrored_only st s)).
      * intros e s1 Hs1. eapply mirrored_only_trans; [exact Hs1|].
        apply handle_event_mirrored.
      * intros l s1 Hs1. eapply mirrored_only_trans; [exact Hs1|].
        apply mirrored_only_same; reflexivity.
      * exact Hs0.
    + intros l s0 Hs0. eapply mirrored_only_trans; [exact Hs0|].
      apply mirrored_only_same; reflexivity.
    + exact Hs.
  - apply mirrored_only_same; reflexivity.
Qed.

(** ** Frames and their entries *)

Lemma user_frame_run events (st : state) :
  handle_leader_twap_events E (user_frame events) st =
  for_each (handle_twap_event E) events st.
Proof.
  unfold handle_leader_twap_events, user_frame.
  rewrite bind_lift. cbn [py_get assoc String.eqb Ascii.eqb Bool.eqb
                            from_option id py_eq_str].
  rewrite !bind_lift. cbn [py_get assoc String.eqb Ascii.eqb Bool.eqb
                             from_option id py_iter].
  rewrite bind_lift. reflexivity.
Qed.

(** X11: the entries of a [user] frame are handled in order, each from
    the state the one before left; and an entry that raises ends the
    frame there: the entries after it are not handled. *)
Theorem frame_entries_in_order e rest (st : state) :
  (fst (handle_twap_event E e st) = Ok tt ->
   handle_leader_twap_events E (user_frame (e :: rest)) st =
   handle_leader_twap_events E (user_frame rest)
     (snd (handle_twap_event E e st))) /\
  (forall ex,
     fst (handle_twap_event E e st) = Raise ex ->
     handle_leader_twap_events E (user_frame (e :: rest)) st =
     handle_twap_event E e st).
Proof.
  rewrite !user_frame_run. cbn [for_each]. rewrite bind_bind.
  destruct (handle_twap_event E e st) as [[[]|ex0] st1]; cbn [fst snd].
  - split; [reflexivity|]. intros ex H. discriminate.
  - split; [discriminate|]. intros ex H. reflexivity.
Qed.

(** X12: a spot event whose status is not a string makes the handler
    raise [AttributeError] (the status is upper-cased for the log line)
    before anything is posted, mapped or printed. *)
Theorem status_not_a_string_raises e (st : state) coin_field k status :
  event_coin e = Ok coin_field ->
  is_spot_order E coin_field = Ok true ->
  event_key E e = Ok k ->
  event_status e = Ok status ->
  (forall s, status <> JStr s) ->
  handle_twap_event E e st = (Raise AttributeError, st).
Proof.
  intros Hc Hspot Hk Hstatus Hns.
  destruct (event_key_inv E _ _ Hk) as (state_ & coin' & Hst & Hc' & Hkey).
  destruct (event_status_inv _ _ Hstatus) as (status_ & Hs1 & Hs2).
  unfold event_coin in Hc. rewrite Hst in Hc. cbn [rbind] in Hc.
  assert (coin' = coin_field) as -> by congruence.
  unfold handle_twap_event.
  rewrite bind_lift, Hst, bind_lift, Hc, bind_lift, Hspot. cbn [negb].
  rewrite bind_lift, Hkey, bind_lift, Hs1, bind_lift, Hs2, bind_lift.
  destruct status as [| | | |s| |]; try reflexivity.
  destruct (Hns s eq_refl).
Qed.

(** X13: a spot event with a status other than ["activated"],
    ["canceled"] and ["terminated"] (a missing status reads ["unknown"])
    is only printed: nothing is posted, the table and the world stay as
    they are. *)
Theorem other_statuses_are_only_printed e (st : state) coin_field k s :
  event_coin e = Ok coin_field ->
  is_spot_order E coin_field = Ok true ->
  event_key E e = Ok k ->
  event_status e = Ok (JStr s) ->
  s <> "activated" -> s <> "canceled" -> s <> "terminated" ->
  handle_twap_event E e st =
  (Ok tt,
   mkState (twap_mappings st) (calls st)
     (logs st ++ LogLeaderTwap s k
              :: (if bool_decide (is_Some (twap_mappings st !! k))
                  then [LogSkipKnown k] else []))
     (world st)).
Proof.
  intros Hc Hspot Hk Hstatus Ha Hcn Ht.
  destruct (event_key_inv E _ _ Hk) as (state_ & coin' & Hst & Hc' & Hkey).
  destruct (event_status_inv _ _ Hstatus) as (status_ & Hs1 & Hs2).
  unfold event_coin in Hc. rewrite Hst in Hc. cbn [rbind] in Hc.
  assert (coin' = coin_field) as -> by congruence.
  unfold handle_twap_event.
  rewrite bind_lift, Hst, bind_lift, Hc, bind_lift, Hspot. cbn [negb].
  rewrite bind_lift, Hkey, bind_lift, Hs1, bind_lift, Hs2, bind_lift.
  cbn [as_str]. rewrite bind_print, bind_get_mappings. cbn [twap_mappings].
  destruct (bool_decide (is_Some (twap_mappings st !! k))).
  - unfold print. cbn [twap_mappings calls logs world].
    rewrite <- app_assoc. reflexivity.
  - cbn [py_eq_str].
    apply String.eqb_neq in Ha, Hcn, Ht. rewrite Ha, Hcn, Ht. reflexivity.
Qed.

(** X14: a message that decodes to something other than a frame of the
    [user] channel (another channel, no channel, or not an object at all)
    is processed without posting anything and without touching the table
    or the world. *)
Theorem non_user_frames_change_nothing m data (st : state) :
  json_loads E m = Ok data ->
  (forall channel,
     py_get data "channel" JNull = Ok channel ->
     py_eq_str channel "user" = false) ->
  let st' := snd (process_message E m st) in
  calls st' = calls st /\ twap_mappings st' = twap_mappings st
  /\ world st' = world st.
Proof.
  intros Hload Hchannel. cbv zeta.
  unfold process_message, try_except.
  rewrite bind_lift, Hload, bind_print.
  unfold handle_leader_twap_events. rewrite bind_lift.
  destruct (py_get data "channel" JNull) as [channel|ex].
  - rewrite (Hchannel channel eq_refl).
    destruct (py_eq_str channel "subscriptionResponse"); cbn; auto.
  - destruct ex; cbn; auto.
Qed.

(** ** The asset lookup on its other paths *)

(** X15: [get_spot_asset_info] never raises, posts nothing, leaves the
    table alone, and whatever asset info it returns has a positive
    price. *)
Theorem get_spot_asset_info_is_a_safe_query c (st : state) :
  exists found st',
    get_spot_asset_info E c st = (Ok found, st') /\
    calls st' = calls st /\
    twap_mappings st' = twap_mappings st /\
    forall info, found = Some info -> PrimFloat.ltb 0 (price info) = true.
Proof.
  pose proof (get_spot_asset_info_same_calls E c st) as Hc.
  pose proof (get_spot_asset_info_same_mappings E c st) as Hm.
  destruct (get_spot_asset_info E c st) as [[found|ex] st'] eqn:Hrun.
  - exists found, st'. repeat split; try assumption.
    intros info ->. eapply get_spot_asset_info_priced, Hrun.
  - exfalso. revert Hrun. unfold get_spot_asset_info, try_except.
    destruct (get_spot_asset_info_body E _ c st) as [[o|ex0] st0];
      discriminate.
Qed.

(** On an ["@index"] name the body never reaches the call on itself. *)
Lemma body_on_index_name self1 self2 c (st : state) :
  startswith "@" c = true ->
  get_spot_asset_info_body E self1 (JStr c) st =
  get_spot_asset_info_body E self2 (JStr c) st.
Proof.
  intros Hat. unfold get_spot_asset_info_body.
  rewrite !bind_lift. cbn [as_str]. rewrite Hat. reflexivity.
Qed.

Lemma lookup_at_index_name c (st : state) :
  startswith "@" c = true ->
  get_spot_asset_info_at E (JStr c) st = get_spot_asset_info E (JStr c) st.
Proof.
  intros Hat. unfold get_spot_asset_info_at, get_spot_asset_info, try_except.
  rewrite (body_on_index_name (fun _ => ret None)
             (get_spot_asset_info_at E) c st Hat).
  reflexivity.
Qed.

Lemma get_spot_asset_info_is_total c (st : state) :
  exists found st', get_spot_asset_info E c st = (Ok found, st').
Proof.
  unfold get_spot_asset_info, try_except.
  destruct (get_spot_asset_info_body E _ c st) as [[o|ex0] st0]; cbn; eauto.
Qed.

(** X16: for a pair name that the universe lists, [get_spot_asset_info]
    is the lookup of ["@"] followed by the pair's index, made in the world
    that the query of the universe left. *)
Theorem pair_name_lookup_is_index_lookup
    c meta universe pairs pair_info pair_index w1 (st : state) :
  startswith "@" c = false ->
  str_contains "/" c = true ->
  spot_meta E (world st) = (Ok meta, w1) ->
  py_get meta "universe" (JList []) = Ok universe ->
  py_iter universe = Ok pairs ->
  find_pair_by_name pairs c = Ok (Some pair_info) ->
  py_get pair_info "index" JNull = Ok pair_index ->
  get_spot_asset_info E (JStr c) st =
  get_spot_asset_info E (JStr ("@" +:+ py_str E pair_index))
    (mkState (twap_mappings st) (calls st) (logs st) w1).
Proof.
  intros Hat Hslash Hmeta Huni Hpairs Hfind Hidx.
  unfold get_spot_asset_info at 1. unfold try_except.
  unfold get_spot_asset_info_body.
  rewrite bind_lift. cbn [as_str]. rewrite Hat, Hslash.
  rewrite (bind_ask _ _ _ _ _ Hmeta), bind_lift, Huni, bind_lift, Hpairs.
  rewrite bind_lift, Hfind, bind_lift, Hidx.
  rewrite lookup_at_index_name by reflexivity.
  match goal with
  | |- context [get_spot_asset_info E ?x ?s] =>
      destruct (get_spot_asset_info_is_total x s) as (o & st' & ->)
  end.
  reflexivity.
Qed.

(** X17: for a pair name that the universe does not list,
    [get_spot_asset_info] prints that the pair was not found and returns
    [None]; and for a name that is neither an ["@index"] nor a pair name
    it asks the venue nothing and returns [None]. *)
Theorem unknown_names_resolve_to_none c (st : state) :
  startswith "@" c = false ->
  (str_contains "/" c = false ->
   get_spot_asset_info E (JStr c) st =
   (Ok None,
    mkState (twap_mappings st) (calls st)
      (logs st ++ [LogUnsupportedSpotFormat]) (world st))) /\
  (forall meta universe pairs w1,
     str_contains "/" c = true ->
     spot_meta E (world st) = (Ok meta, w1) ->
     py_get meta "universe" (JList []) = Ok universe ->
     py_iter universe = Ok pairs ->
     find_pair_by_name pairs c = Ok None ->
     get_spot_asset_info E (JStr c) st =
     (Ok None,
      mkState (twap_mappings st) (calls st) (logs st ++ [LogPairNotFound])
        w1)).
Proof.
  intros Hat. split.
  - intros Hslash. unfold get_spot_asset_info, try_except.
    unfold get_spot_asset_info_body.
    rewrite bind_lift. cbn [as_str]. rewrite Hat, Hslash. reflexivity.
  - intros meta universe pairs w1 Hslash Hmeta Huni Hpairs Hfind.
    unfold get_spot_asset_info, try_except.
    unfold get_spot_asset_info_body.
    rewrite bind_lift. cbn [as_str]. rewrite Hat, Hslash.
    rewrite (bind_ask _ _ _ _ _ Hmeta), bind_lift, Huni, bind_lift, Hpairs.
    rewrite bind_lift, Hfind. reflexivity.
Qed.

Lemma seq_index_nonneg {A} (l : list A) i x :
  0 <= i -> l !! Z.to_nat i = Some x -> seq_index l i = Ok x.
Proof.
  intros Hi Hx. unfold seq_index.
  pose proof (lookup_lt_Some _ _ _ Hx) as Hlt.
  assert ((i <? 0) = false) as Hneg by (apply Z.ltb_ge; lia).
  assert ((Z.of_nat (length l) <=? i) = false) as Hin
    by (apply Z.leb_gt; lia).
  cbv zeta. rewrite !Hneg, Hin. cbn [orb]. rewrite Hx. reflexivity.
Qed.

Lemma py_index_head a b more : py_index (JList (a :: b :: more)) 0 = Ok a.
Proof. apply (seq_index_nonneg (a :: b :: more) 0 a); [lia|reflexivity]. Qed.

Lemma py_index_second a b more : py_index (JList (a :: b :: more)) 1 = Ok b.
Proof. apply (seq_index_nonneg (a :: b :: more) 1 b); [lia|reflexivity]. Qed.

Lemma two_or_more (a b : json) more :
  (2 <=? Z.of_nat (length (a :: b :: more))) = true.
Proof. apply Z.leb_le. cbn [length]. lia. Qed.

(** The lookup on an ["@index"] name, up to the comparison of the index
    with the number of asset contexts. *)
Lemma lookup_reaches_index c meta ctxs more i w' self (st : state) :
  startswith "@" c = true ->
  spot_meta_and_asset_ctxs E (world st)
  = (Ok (JList (meta :: JList ctxs :: more)), w') ->
  int_after_at E c = Ok i ->
  get_spot_asset_info_body E self (JStr c) st =
  (if i <? Z.of_nat (length ctxs) then
     do ctx <- lift (py_index (JList ctxs) i) in
     do price <- lift (ctx_price E ctx) in
     if PrimFloat.ltb 0 price then
       do universe <- lift (py_get meta "universe" (JList [])) in
       do tokens <- lift (py_get meta "tokens" (JList [])) in
       do pairs <- lift (py_iter universe) in
       do pair_info <- lift (find_pair_by_index pairs i) in
       do size_decimals <- lift (lookup_size_decimals pair_info tokens) in
       ret (Some (mkAssetInfo price size_decimals (JStr c)))
     else
       run print LogNoSpotPrice in
       ret None
   else
     run print LogIndexOutOfRange in
     ret None)
    (mkState (twap_mappings st) (calls st) (logs st) w').
Proof.
  intros Hat Hdata Hi. unfold get_spot_asset_info_body.
  rewrite bind_lift. cbn [as_str]. rewrite Hat.
  rewrite (bind_ask _ _ _ _ _ Hdata), bind_lift. cbn [py_len].
  rewrite two_or_more, bind_lift, py_index_head, bind_lift, py_index_second.
  rewrite bind_lift, Hi, bind_lift. cbn [py_len]. reflexivity.
Qed.

(** X18: on an ["@index"] name whose index is not below the number of
    asset contexts, [get_spot_asset_info] prints that the index is out of
    range and returns [None]. *)
Theorem index_out_of_range_resolves_to_none
    c meta ctxs more i w' (st : state) :
  startswith "@" c = true ->
  spot_meta_and_asset_ctxs E (world st)
  = (Ok (JList (meta :: JList ctxs :: more)), w') ->
  int_after_at E c = Ok i ->
  Z.of_nat (length ctxs) <= i ->
  get_spot_asset_info E (JStr c) st =
  (Ok None,
   mkState (twap_mappings st) (calls st) (logs st ++ [LogIndexOutOfRange])
     w').
Proof.
  intros Hat Hdata Hi Hrange.
  unfold get_spot_asset_info, try_except.
  rewrite (lookup_reaches_index _ _ _ _ _ _ _ _ Hat Hdata Hi).
  replace (i <? Z.of_nat (length ctxs)) with false
    by (symmetry; apply Z.ltb_ge; exact Hrange).
  reflexivity.
Qed.

(** X19: a mid price that is present but null is not replaced by the mark
    price: [float(None)] raises, the lookup prints its error line and
    returns [None], whatever the mark price is. *)
Theorem null_mid_price_is_not_replaced
    c meta ctxs more i kvs w' (st : state) :
  startswith "@" c = true ->
  spot_meta_and_asset_ctxs E (world st)
  = (Ok (JList (meta :: JList ctxs :: more)), w') ->
  int_after_at E c = Ok i ->
  0 <= i ->
  ctxs !! Z.to_nat i = Some (JDict kvs) ->
  assoc "midPx" kvs = Some JNull ->
  ctx_price E (JDict kvs) = Raise TypeError /\
  get_spot_asset_info E (JStr c) st =
  (Ok None,
   mkState (twap_mappings st) (calls st) (logs st ++ [LogSpotInfoError]) w').
Proof.
  intros Hat Hdata Hi Hi0 Hctx Hmid.
  assert (ctx_price E (JDict kvs) = Raise TypeError) as Hprice.
  { unfold ctx_price. cbn [py_get rbind]. rewrite Hmid. reflexivity. }
  split; [exact Hprice|].
  pose proof (lookup_lt_Some _ _ _ Hctx) as Hlt.
  unfold get_spot_asset_info, try_except.
  rewrite (lookup_reaches_index _ _ _ _ _ _ _ _ Hat Hdata Hi).
  replace (i <? Z.of_nat (length ctxs)) with true
    by (symmetry; apply Z.ltb_lt; lia).
  rewrite bind_lift. cbn [py_index].
  rewrite (seq_index_nonneg _ _ _ Hi0 Hctx), bind_lift, Hprice.
  reflexivity.
Qed.

(** ** Size decimals *)

Lemma lookup_base_token pkvs base rest toks tkvs :
  assoc "tokens" pkvs = Some (JList (JInt base :: rest)) ->
  0 <= base ->
  toks !! Z.to_nat base = Some (JDict tkvs) ->
  lookup_size_decimals (JDict pkvs) (JList toks) =
  Ok (default (JInt 6) (assoc "szDecimals" tkvs)).
Proof.
  intros Htokens Hbase Htok.
  pose proof (lookup_lt_Some _ _ _ Htok) as Hlt.
  unfold lookup_size_decimals.
  destruct pkvs as [|kv pkvs']; [discriminate|].
  cbn [py_truthy py_contains_str rbind].
  rewrite bool_decide_eq_true_2 by (rewrite Htokens; eauto).
  cbn [py_getkey]. rewrite Htokens. cbn [rbind py_len length].
  replace (0 <? Z.of_nat (S (length rest))) with true
    by (symmetry; apply Z.ltb_lt; lia).
  cbn [py_index].
  rewrite (seq_index_nonneg (JInt base :: rest) 0 (JInt base))
    by (lia || reflexivity).
  cbn [rbind py_lt_int].
  replace (base <? Z.of_nat (length toks)) with true
    by (symmetry; apply Z.ltb_lt; lia).
  cbn [py_getitem py_index].
  rewrite (seq_index_nonneg _ _ _ Hbase Htok). reflexivity.
Qed.

(** The lookup on an ["@index"] name with a positive price: the asset
    info has that price and the size decimals the metadata gives. *)
Lemma info_on_index
    c mkvs ctxs more i ctx p pairs pair_info d w' (st : state) :
  startswith "@" c = true ->
  spot_meta_and_asset_ctxs E (world st)
  = (Ok (JList (JDict mkvs :: JList ctxs :: more)), w') ->
  int_after_at E c = Ok i ->
  0 <= i ->
  ctxs !! Z.to_nat i = Some ctx ->
  ctx_price E ctx = Ok p ->
  PrimFloat.ltb 0 p = true ->
  py_iter (default (JList []) (assoc "universe" mkvs)) = Ok pairs ->
  find_pair_by_index pairs i = Ok pair_info ->
  lookup_size_decimals pair_info (default (JList []) (assoc "tokens" mkvs))
  = Ok d ->
  get_spot_asset_info E (JStr c) st =
  (Ok (Some (mkAssetInfo p d (JStr c))),
   mkState (twap_mappings st) (calls st) (logs st) w').
Proof.
  intros Hat Hdata Hi Hi0 Hctx Hprice Hpos Hpairs Hfind Hdec.
  pose proof (lookup_lt_Some _ _ _ Hctx) as Hlt.
  unfold get_spot_asset_info, try_except.
  rewrite (lookup_reaches_index _ _ _ _ _ _ _ _ Hat Hdata Hi).
  replace (i <? Z.of_nat (length ctxs)) with true
    by (symmetry; apply Z.ltb_lt; lia).
  rewrite bind_lift. cbn [py_index].
  rewrite (seq_index_nonneg _ _ _ Hi0 Hctx), bind_lift, Hprice, Hpos.
  rewrite bind_lift. cbn [py_get]. rewrite bind_lift, bind_lift, Hpairs.
  rewrite bind_lift, Hfind, bind_lift, Hdec. reflexivity.
Qed.

(** X20: on an ["@index"] name with a positive price, the size decimals
    of the asset info are the [szDecimals] of the base token of the pair
    (the token that the first entry of the pair's [tokens] names), 6 when
    that token has none. *)
Theorem size_decimals_come_from_the_base_token
    c mkvs ctxs more i ctx p pairs pkvs base rest toks tkvs w' (st : state) :
  startswith "@" c = true ->
  spot_meta_and_asset_ctxs E (world st)
  = (Ok (JList (JDict mkvs :: JList ctxs :: more)), w') ->
  int_after_at E c = Ok i ->
  0 <= i ->
  ctxs !! Z.to_nat i = Some ctx ->
  ctx_price E ctx = Ok p ->
  PrimFloat.ltb 0 p = true ->
  assoc "universe" mkvs = Some (JList pairs) ->
  find_pair_by_index pairs i = Ok (JDict pkvs) ->
  assoc "tokens" pkvs = Some (JList (JInt base :: rest)) ->
  0 <= base ->
  assoc "tokens" mkvs = Some (JList toks) ->
  toks !! Z.to_nat base = Some (JDict tkvs) ->
  get_spot_asset_info E (JStr c) st =
  (Ok (Some (mkAssetInfo p (default (JInt 6) (assoc "szDecimals" tkvs))
               (JStr c))),
   mkState (twap_mappings st) (calls st) (logs st) w').
Proof.
  intros Hat Hdata Hi Hi0 Hctx Hprice Hpos Huni Hfind Htokens Hbase Htoks
    Htok.
  apply info_on_index with (mkvs := mkvs) (ctxs := ctxs) (more := more)
    (i := i) (ctx := ctx) (pairs := pairs) (pair_info := JDict pkvs);
    try assumption.
  - rewrite Huni. reflexivity.
  - rewrite Htoks. cbn [default from_option id].
    apply lookup_base_token with (base := base) (rest := rest); assumption.
Qed.

(** X21: on an ["@index"] name with a positive price whose index no pair
    of the universe carries, the asset info has 6 size decimals. *)
Theorem size_decimals_default_to_six
    c mkvs ctxs more i ctx p pairs w' (st : state) :
  startswith "@" c = true ->
  spot_meta_and_asset_ctxs E (world st)
  = (Ok (JList (JDict mkvs :: JList ctxs :: more)), w') ->
  int_after_at E c = Ok i ->
  0 <= i ->
  ctxs !! Z.to_nat i = Some ctx ->
  ctx_price E ctx = Ok p ->
  PrimFloat.ltb 0 p = true ->
  py_iter (default (JList []) (assoc "universe" mkvs)) = Ok pairs ->
  find_pair_by_index pairs i = Ok JNull ->
  get_spot_asset_info E (JStr c) st =
  (Ok (Some (mkAssetInfo p (JInt 6) (JStr c))),
   mkState (twap_mappings st) (calls st) (logs st) w').
Proof.
  intros Hat Hdata Hi Hi0 Hctx Hprice Hpos Hpairs Hfind.
  apply info_on_index with (mkvs := mkvs) (ctxs := ctxs) (more := more)
    (i := i) (ctx := ctx) (pairs := pairs) (pair_info := JNull);
    try assumption.
  reflexivity.
Qed.

(** ** A placement that the venue turns down *)

Lemma read_rejected_answer resp (st : state) :
  result_is_ok resp = Ok false ->
  read_place_result resp st =
  (Ok JNull,
   mkState (twap_mappings st) (calls st) (logs st ++ [LogPlaceFailed])
     (world st)).
Proof.
  intros Hok. unfold read_place_result. rewrite bind_lift, Hok. reflexivity.
Qed.

(** X22: when the venue answers an order with anything but status
    ["ok"], the handler has posted that one order, prints the failure,
    binds nothing and does not post again. *)
Theorem rejected_order_is_not_mapped
    e (st st2 : state) kvs c i k info size wire resp w' :
  py_get e "state" (JDict []) = Ok (JDict kvs) ->
  default (JStr "") (assoc "coin" kvs) = JStr c ->
  is_spot_order E (JStr c) = Ok true ->
  startswith "@" c = true ->
  int_after_at E c = Ok i ->
  event_key E e = Ok k ->
  event_status e = Ok (JStr "activated") ->
  twap_mappings st !! k = None ->
  get_spot_asset_info E (JStr c)
    (mkState (twap_mappings st) (calls st)
       (logs st ++ [LogLeaderTwap "activated" k]) (world st))
  = (Ok (Some info), st2) ->
  follower_size (price info) (szDecimals info) = Ok size ->
  pynum_le0 size = false ->
  float_to_wire E size = Ok wire ->
  let act := order_for kvs (JInt (10000 + i)) wire in
  sign_l1_action E act (world st2) = Ok tt ->
  post_action E act (world st2) = (Ok resp, w') ->
  result_is_ok resp = Ok false ->
  let st' := snd (handle_twap_event E e st) in
  fst (handle_twap_event E e st) = Ok tt /\
  calls st' = calls st ++ [act] /\
  twap_mappings st' = twap_mappings st /\
  exists before, logs st' = before ++ [LogPlaceFailed].
Proof.
  intros Hst Hd Hspot Hat Hint Hk Hstatus Hv Hinfo Hsize Hle Hwire act
    Hsign Hpost Hrej.
  assert (event_coin e = Ok (JStr c)) as Hc.
  { unfold event_coin. rewrite Hst. cbn [rbind py_get]. congruence. }
  pose proof (get_spot_asset_info_same_calls E (JStr c)
                (mkState (twap_mappings st) (calls st)
                   (logs st ++ [LogLeaderTwap "activated" k]) (world st)))
    as Hcalls.
  pose proof (get_spot_asset_info_same_mappings E (JStr c)
                (mkState (twap_mappings st) (calls st)
                   (logs st ++ [LogLeaderTwap "activated" k]) (world st)))
    as Hmaps.
  rewrite Hinfo in Hcalls, Hmaps.
  cbn [snd calls twap_mappings] in Hcalls, Hmaps.
  cbv zeta.
  rewrite (handle_activated_unknown E e st k (JStr c) Hk Hc Hspot Hstatus Hv).
  cbv zeta.
  assert (place_follower_twap_order E e
            (mkState (twap_mappings st) (calls st)
               (logs st ++ [LogLeaderTwap "activated" k]) (world st))
          = (Ok JNull,
             mkState (twap_mappings st2) (calls st2 ++ [act])
               ((logs st2
                 ++ [LogPlacing
                       (py_eq_str (default JNull (assoc "side" kvs)) "B")
                       size (default (JInt 1) (assoc "minutes" kvs))])
                ++ [LogPlaceFailed]) w')) as Hplace.
  { unfold place_follower_twap_order, try_except.
    rewrite bind_lift, Hst. cbn [py_get]. rewrite !bind_lift.
    rewrite Hd, Hspot. cbn [negb].
    rewrite bind_bind, Hinfo. unfold follower_size in Hsize.
    destruct (py_div FIXED_ORDER_VALUE_USDC (price info)) as [q|];
      [|discriminate].
    cbn [rbind] in Hsize. rewrite !bind_lift, Hsize, Hle.
    rewrite bind_print, bind_bind.
    rewrite (resolve_index _ _ c i _ Hat Hint).
    rewrite bind_lift. cbn [py_add_int].
    rewrite bind_lift, Hwire, bind_bind.
    unfold sign_and_post. cbn [world calls twap_mappings logs].
    fold (order_for kvs (JInt (10000 + i)) wire). fold act.
    rewrite Hsign, Hpost, (read_rejected_answer _ _ Hrej).
    reflexivity. }
  rewrite Hplace. cbn [py_truthy fst snd calls twap_mappings logs].
  rewrite Hcalls, Hmaps. repeat split. eexists. reflexivity.
Qed.

(** ** Stopping the session *)





Lemma no_signal_step mv (s s' : session World) :
  mv <> Signal ->
  running s = true /\ processor s <> LeftLoop ->
  session_step E mv s = Some s' ->
  running s' = true /\ processor s' <> LeftLoop.
Proof.
  intros Hmv [Hrun Hproc] Hstep.
  destruct mv as [|m| | | | |]; cbn [session_step] in Hstep;
    try congruence.
  - destruct (receiving s); [|discriminate]. rewrite Hrun in Hstep.
    injection Hstep as <-. cbn. auto.
  - destruct (receiving s); [|discriminate].
    injection Hstep as <-. cbn. auto.
  - destruct (processor s); try discriminate. rewrite Hrun in Hstep.
    injection Hstep as <-. cbn. split; [assumption || reflexivity|discriminate].
  - destruct (processor s); try discriminate.
    destruct (pending s); [discriminate|].
    injection Hstep as <-. cbn. split; [assumption || reflexivity|discriminate].
  - destruct (processor s); try discriminate.
    destruct (pending s); [|discriminate].
    injection Hstep as <-. cbn. split; [assumption || reflexivity|discriminate].
  - destruct (processor s); try discriminate.
    injection Hstep as <-. cbn. split; [assumption || reflexivity|discriminate].
Qed.

(** X24: only the signal makes the test of the flag fail: as long as
    [signal_handler] has not run, [running] is set and the processor has
    not left its loop, not even when the stream has ended (the receiver's
    loop ran out of messages without raising) and the queue is empty. *)
Theorem processor_leaves_only_on_signal mvs (st : state) (s : session World) :
  Forall (fun mv => mv <> Signal) mvs ->
  run_session E mvs (session_start st) = Some s ->
  running s = true /\ processor s <> LeftLoop.
Proof.
  intros Hmvs.
  assert (running (session_start st) = true /\
          processor (session_start st) <> LeftLoop) as Hstart
    by (cbn; split; [reflexivity|discriminate]).
  revert Hstart. generalize (session_start st).
  induction Hmvs as [|mv rest Hmv _ IH]; intros s0 Hinv Hrun.
  - injection Hrun as <-. exact Hinv.
  - cbn [run_session] in Hrun.
    destruct (session_step E mv s0) as [s1|] eqn:Hstep; [|discriminate].
    apply (IH s1); [|exact Hrun].
    eapply no_signal_step; eassumption.
Qed.

Lemma session_step_in_order st0 mv (s s' : session World) done :
  session_in_order E st0 s done ->
  session_step E mv s = Some s' ->
  exists done', session_in_order E st0 s' done'.
Proof.
  intros (Henq & Htaken & Hscript) Hstep.
  unfold session_in_order.
  destruct mv as [|m| | | | |]; cbn [session_step] in Hstep.
  - injection Hstep as <-. cbn. eauto.
  - destruct (receiving s); [|discriminate].
    destruct (running s); injection Hstep as <-; cbn; [|eauto].
    exists done. rewrite Henq, app_assoc. auto.
  - destruct (receiving s); [|discriminate].
    injection Hstep as <-. cbn. eauto.
  - destruct (processor s); try discriminate.
    injection Hstep as <-. cbn. exists done.
    cbn in Htaken. destruct (running s); cbn; auto.
  - destruct (processor s); try discriminate.
    destruct (pending s) as [|m rest]; [discriminate|].
    injection Hstep as <-. cbn. exists done.
    cbn in Htaken. rewrite app_nil_r in Htaken.
    rewrite Henq, Htaken, <- app_assoc. auto.
  - destruct (processor s); try discriminate.
    destruct (pending s); [|discriminate].
    injection Hstep as <-. cbn. exists done. cbn in Htaken. auto.
  - destruct (processor s) as [| |m|]; try discriminate.
    injection Hstep as <-. cbn. exists (done ++ [m]).
    cbn in Htaken. rewrite app_nil_r.
    rewrite message_processor_app, <- Hscript, message_processor_cons.
    auto.
Qed.

(** X25: in every session, stopped or not, the messages taken from the
    queue are the first of those put in it, in the same order, and the
    script is where handling the finished ones in that order leaves it. *)
Theorem session_keeps_arrival_order mvs (st : state) (s : session World) :
  run_session E mvs (session_start st) = Some s ->
  enqueued s = taken s ++ pending s /\
  exists done,
    taken s = done ++ handling_list (processor s) /\
    script s = snd (message_processor E done st).
Proof.
  intros Hrun.
  assert (exists done, session_in_order E st (session_start st) done)
    as Hstart by (exists []; unfold session_in_order; cbn; auto).
  revert Hstart Hrun. generalize (session_start st).
  induction mvs as [|mv rest IH]; intros s0 [done Hin] Hrun.
  - injection Hrun as <-. destruct Hin as (H1 & H2 & H3). eauto.
  - cbn [run_session] in Hrun.
    destruct (session_step E mv s0) as [s1|] eqn:Hstep; [|discriminate].
    apply (IH s1); [|exact Hrun].
    eapply session_step_in_order; eassumption.
Qed.

End Coverage.

(** * The further properties on the sample venue *)

Lemma is_spot_order_not_a_string_witness :
  (forall s, JInt 5 <> JStr s) /\
  is_spot_order sample_venue (JInt 5) = Raise AttributeError.
Proof.
  assert (forall s, JInt 5 <> JStr s) as Hns by (intros s H; discriminate H).
  split; [exact Hns|].
  exact (is_spot_order_not_a_string sample_venue (JInt 5) Hns).
Defined.

Lemma cancel_answer_confirmed : cancel_confirmed cancel_answer.
Proof.
  split; [reflexivity|].
  exists (JDict [("type", JStr "twapCancel");
                 ("data", JDict [("status", JStr "success")])]),
         (JDict [("status", JStr "success")]), (JStr "success").
  repeat split.
Defined.

Lemma cancel_true_means_confirmed_witness :
  let st' := mkState ∅ [TwapCancel (JInt 10005) (JInt 77)]
               [LogCancelling (JInt 77); LogCancelled] 1%nat in
  cancel_follower_twap_order sample_venue (JInt 77) (JStr "@5") fresh_state
  = (Ok true, st') /\
  exists a w resp w',
    calls st' = calls fresh_state ++ [TwapCancel a (JInt 77)] /\
    sign_l1_action sample_venue (TwapCancel a (JInt 77)) w = Ok tt /\
    post_action sample_venue (TwapCancel a (JInt 77)) w = (Ok resp, w') /\
    cancel_confirmed resp.
Proof.
  assert (cancel_follower_twap_order sample_venue (JInt 77) (JStr "@5")
            fresh_state
          = (Ok true,
             mkState ∅ [TwapCancel (JInt 10005) (JInt 77)]
               [LogCancelling (JInt 77); LogCancelled] 1%nat)) as Hrun
    by (vm_compute; reflexivity).
  split; [exact Hrun|].
  exact (cancel_true_means_confirmed sample_venue (JInt 77) (JStr "@5")
           fresh_state _ Hrun).
Defined.

Lemma cancel_index_confirmed_witness :
  cancel_follower_twap_order sample_venue (JInt 77) (JStr "@5") fresh_state =
  (Ok true,
   mkState (twap_mappings fresh_state)
     (calls fresh_state ++ [TwapCancel (JInt (10000 + 5)) (JInt 77)])
     (logs fresh_state ++ [LogCancelling (JInt 77); LogCancelled]) 1%nat).
Proof.
  exact (cancel_index_confirmed sample_venue (JInt 77) "@5" 5 cancel_answer
           1%nat fresh_state eq_refl eq_refl eq_refl eq_refl
           cancel_answer_confirmed).
Defined.

Lemma cancel_unsupported_name_witness :
  cancel_follower_twap_order sample_venue (JInt 77) (JStr "BTC") fresh_state =
  (Ok false,
   mkState (twap_mappings fresh_state) (calls fresh_state)
     (logs fresh_state
      ++ [LogCancelling (JInt 77); LogCancelUnsupportedFormat])
     (world fresh_state)).
Proof.
  exact (cancel_unsupported_name sample_venue (JInt 77) "BTC" fresh_state
           eq_refl eq_refl).
Defined.

Lemma new_mapping_comes_from_the_venue_witness :
  twap_mappings fresh_state !! sample_key = None /\
  twap_mappings (snd (handle_twap_event sample_venue sample_activated
                        fresh_state)) !! sample_key = Some (JInt 77) /\
  event_key sample_venue sample_activated = Ok sample_key /\
  py_truthy (JInt 77) = true.
Proof.
  assert (twap_mappings fresh_state !! sample_key = None) as Hnone
    by (vm_compute; reflexivity).
  assert (twap_mappings (snd (handle_twap_event sample_venue sample_activated
                                fresh_state)) !! sample_key
          = Some (JInt 77)) as Hsome by (vm_compute; reflexivity).
  split; [exact Hnone|]. split; [exact Hsome|].
  destruct (new_mapping_comes_from_the_venue sample_venue sample_activated
              fresh_state sample_key (JInt 77) Hnone Hsome) as (Hk & Ht & _).
  split; [exact Hk|exact Ht].
Defined.

Lemma status_not_a_string_raises_witness :
  handle_twap_event sample_venue sample_null_status fresh_state =
  (Raise AttributeError, fresh_state).
Proof.
  apply (status_not_a_string_raises sample_venue sample_null_status
           fresh_state (JStr "@5") "@5_B_1_5_1700000000003" JNull);
    try reflexivity.
  intros s H. discriminate H.
Defined.

Lemma other_statuses_are_only_printed_witness :
  handle_twap_event sample_venue sample_finished mapped_state =
  (Ok tt,
   mkState (twap_mappings mapped_state) (calls mapped_state)
     (logs mapped_state
      ++ LogLeaderTwap "finished" sample_key
         :: (if bool_decide (is_Some (twap_mappings mapped_state
                                        !! sample_key))
             then [LogSkipKnown sample_key] else []))
     (world mapped_state)).
Proof.
  apply (other_statuses_are_only_printed sample_venue sample_finished
           mapped_state (JStr "@5") sample_key "finished");
    try reflexivity; intros H; discriminate H.
Defined.

Lemma non_user_frames_change_nothing_witness :
  let st' := snd (process_message sample_venue "subscribed" mapped_state) in
  calls st' = calls mapped_state /\
  twap_mappings st' = twap_mappings mapped_state /\
  world st' = world mapped_state.
Proof.
  apply (non_user_frames_change_nothing sample_venue "subscribed"
           (JDict [("channel", JStr "subscriptionResponse")]) mapped_state
           eq_refl).
  intros channel H. injection H as <-. reflexivity.
Defined.

Lemma pair_name_lookup_is_index_lookup_witness :
  get_spot_asset_info sample_venue (JStr "PURR/USDC") fresh_state =
  get_spot_asset_info sample_venue (JStr "@5")
    (mkState (twap_mappings fresh_state) (calls fresh_state)
       (logs fresh_state) 0%nat).
Proof.
  apply (pair_name_lookup_is_index_lookup sample_venue "PURR/USDC"
           sample_spot_meta
           (JList [JDict [("name", JStr "PURR/USDC"); ("index", JInt 5);
                          ("tokens", JList [JInt 1; JInt 0])]])
           [JDict [("name", JStr "PURR/USDC"); ("index", JInt 5);
                   ("tokens", JList [JInt 1; JInt 0])]]
           (JDict [("name", JStr "PURR/USDC"); ("index", JInt 5);
                   ("tokens", JList [JInt 1; JInt 0])])
           (JInt 5) 0%nat fresh_state);
    reflexivity.
Defined.

Lemma unknown_names_resolve_to_none_witness :
  startswith "@" "BTC" = false /\
  get_spot_asset_info sample_venue (JStr "BTC") fresh_state =
  (Ok None,
   mkState (twap_mappings fresh_state) (calls fresh_state)
     (logs fresh_state ++ [LogUnsupportedSpotFormat]) (world fresh_state)) /\
  get_spot_asset_info sample_venue (JStr "HYPE/USDC") fresh_state =
  (Ok None,
   mkState (twap_mappings fresh_state) (calls fresh_state)
     (logs fresh_state ++ [LogPairNotFound]) 0%nat).
Proof.
  split; [reflexivity|]. split.
  - exact (proj1 (unknown_names_resolve_to_none sample_venue "BTC"
                    fresh_state eq_refl) eq_refl).
  - apply (proj2 (unknown_names_resolve_to_none sample_venue "HYPE/USDC"
                    fresh_state eq_refl)
             sample_spot_meta
             (JList [JDict [("name", JStr "PURR/USDC"); ("index", JInt 5);
                            ("tokens", JList [JInt 1; JInt 0])]])
             [JDict [("name", JStr "PURR/USDC"); ("index", JInt 5);
                     ("tokens", JList [JInt 1; JInt 0])]]
             0%nat);
      reflexivity.
Defined.

Lemma index_out_of_range_resolves_to_none_witness :
  get_spot_asset_info sample_venue (JStr "@9") fresh_state =
  (Ok None,
   mkState (twap_mappings fresh_state) (calls fresh_state)
     (logs fresh_state ++ [LogIndexOutOfRange]) 0%nat).
Proof.
  apply (index_out_of_range_resolves_to_none sample_venue "@9"
           sample_spot_meta
           [sample_ctx "0"; sample_ctx "0"; sample_ctx "0"; sample_ctx "0";
            sample_ctx "0"; sample_ctx "4.0"] [] 9 0%nat fresh_state);
    try reflexivity.
  cbn. lia.
Defined.

Lemma null_mid_price_is_not_replaced_witness :
  let kvs := [("midPx", JNull); ("markPx", JStr "4.0")] in
  ctx_price (venue_with null_mid_data rejection) (JDict kvs)
  = Raise TypeError /\
  get_spot_asset_info (venue_with null_mid_data rejection) (JStr "@0")
    fresh_state =
  (Ok None,
   mkState (twap_mappings fresh_state) (calls fresh_state)
     (logs fresh_state ++ [LogSpotInfoError]) 0%nat).
Proof.
  apply (null_mid_price_is_not_replaced (venue_with null_mid_data rejection)
           "@0" sample_spot_meta
           [JDict [("midPx", JNull); ("markPx", JStr "4.0")]] [] 0
           [("midPx", JNull); ("markPx", JStr "4.0")] 0%nat fresh_state);
    reflexivity.
Defined.

Lemma size_decimals_come_from_the_base_token_witness :
  get_spot_asset_info sample_venue (JStr "@5") fresh_state =
  (Ok (Some (mkAssetInfo 4 (JInt 2) (JStr "@5"))),
   mkState (twap_mappings fresh_state) (calls fresh_state)
     (logs fresh_state) 0%nat).
Proof.
  apply (size_decimals_come_from_the_base_token sample_venue "@5"
           [("universe",
             JList [JDict [("name", JStr "PURR/USDC"); ("index", JInt 5);
                           ("tokens", JList [JInt 1; JInt 0])]]);
            ("tokens",
             JList [JDict [("name", JStr "USDC"); ("szDecimals", JInt 8)];
                    JDict [("name", JStr "PURR"); ("szDecimals", JInt 2)]])]
           [sample_ctx "0"; sample_ctx "0"; sample_ctx "0"; sample_ctx "0";
            sample_ctx "0"; sample_ctx "4.0"] [] 5 (sample_ctx "4.0") 4%float
           [JDict [("name", JStr "PURR/USDC"); ("index", JInt 5);
                   ("tokens", JList [JInt 1; JInt 0])]]
           [("name", JStr "PURR/USDC"); ("index", JInt 5);
            ("tokens", JList [JInt 1; JInt 0])]
           1 [JInt 0]
           [JDict [("name", JStr "USDC"); ("szDecimals", JInt 8)];
            JDict [("name", JStr "PURR"); ("szDecimals", JInt 2)]]
           [("name", JStr "PURR"); ("szDecimals", JInt 2)] 0%nat fresh_state);
    try reflexivity; lia.
Defined.

Lemma size_decimals_default_to_six_witness :
  get_spot_asset_info (venue_with unlisted_data rejection) (JStr "@0")
    fresh_state =
  (Ok (Some (mkAssetInfo 4 (JInt 6) (JStr "@0"))),
   mkState (twap_mappings fresh_state) (calls fresh_state)
     (logs fresh_state) 0%nat).
Proof.
  apply (size_decimals_default_to_six (venue_with unlisted_data rejection)
           "@0" [("universe", JList []); ("tokens", JList [])]
           [sample_ctx "4.0"] [] 0 (sample_ctx "4.0") 4%float [] 0%nat
           fresh_state);
    try reflexivity; lia.
Defined.

Lemma rejected_order_is_not_mapped_witness :
  let E := venue_with sample_spot_data rejection in
  let st' := snd (handle_twap_event E sample_activated fresh_state) in
  fst (handle_twap_event E sample_activated fresh_state) = Ok tt /\
  calls st' =
  calls fresh_state
  ++ [TwapOrder (JInt 10005) true "5" (JBool false) (JInt 5) (JBool false)] /\
  twap_mappings st' = twap_mappings fresh_state /\
  exists before, logs st' = before ++ [LogPlaceFailed].
Proof.
  apply (rejected_order_is_not_mapped (venue_with sample_spot_data rejection)
           sample_activated fresh_state
           (mkState ∅ [] [LogLeaderTwap "activated" sample_key] 0%nat)
           [("coin", JStr "@5"); ("side", JStr "B"); ("sz", JStr "12.5");
            ("minutes", JInt 5); ("reduceOnly", JBool false);
            ("randomize", JBool false); ("timestamp", JInt 1700000000000)]
           "@5" 5 sample_key (mkAssetInfo 4 (JInt 2) (JStr "@5")) (PFloat 5)
           "5" rejection 1%nat);
    try reflexivity; vm_compute; reflexivity.
Defined.


Lemma processor_leaves_only_on_signal_witness :
  running sample_polling = true /\ processor sample_polling <> LeftLoop.
Proof.
  apply (processor_leaves_only_on_signal sample_venue sample_unsignalled
           fresh_state sample_polling).
  - unfold sample_unsignalled, sample_before_signal. cbn [app].
    repeat constructor; discriminate.
  - vm_compute. reflexivity.
Defined.

Lemma session_keeps_arrival_order_witness :
  enqueued sample_wound_down
  = taken sample_wound_down ++ pending sample_wound_down /\
  exists done,
    taken sample_wound_down
    = done ++ handling_list (processor sample_wound_down) /\
    script sample_wound_down
    = snd (message_processor sample_venue done fresh_state).
Proof.
  apply (session_keeps_arrival_order sample_venue
           (sample_before_signal ++ Signal :: sample_after_signal)
           fresh_state sample_wound_down).
  vm_compute. reflexivity.
Defined.

Lemma spot_order_has_spot_market_type_witness :
  detect_market_type (JStr "@5") = Ok SPOT /\
  is_spot_order sample_venue (JStr "BTC") = Ok false.
Proof.
  split.
  - apply (proj1 (spot_order_has_spot_market_type sample_venue (JStr "@5"))).
    reflexivity.
  - apply (proj2 (spot_order_has_spot_market_type sample_venue (JStr "BTC"))).
    reflexivity.
Defined.

Lemma frame_entries_in_order_witness :
  handle_leader_twap_events sample_venue
    (user_frame [sample_activated; sample_terminated]) fresh_state =
  handle_leader_twap_events sample_venue (user_frame [sample_terminated])
    (snd (handle_twap_event sample_venue sample_activated fresh_state)) /\
  handle_leader_twap_events sample_venue
    (user_frame [sample_null_status; sample_activated]) fresh_state =
  handle_twap_event sample_venue sample_null_status fresh_state.
Proof.
  split.
  - apply (proj1 (frame_entries_in_order sample_venue sample_activated
                    [sample_terminated] fresh_state)).
    vm_compute. reflexivity.
  - apply (proj2 (frame_entries_in_order sample_venue sample_null_status
                    [sample_activated] fresh_state) AttributeError).
    vm_compute. reflexivity.
Defined.

